(** * Silver layer of the data warehouse: cleansing rules of
      [scripts/silver/load_silver_layer.py]

    The script reads six bronze tables into pandas data frames, cleans each
    one, stamps it with a load timestamp, truncates the silver table and
    appends the cleaned frame.  This development embeds the cleaning rules
    as functions over lists of rows and states their properties.

    Conventions of the embedding.
    - A data frame is the list of its rows, in frame order; a column is a
      record field.  Index labels are not modelled: every column assignment
      of the script is between series that carry the same index.
    - A missing value ([None], [NaN], [NaT]) is [None] of an [option].
    - Text is [string]; the text functions are the ones of Python on ASCII
      text (one character per byte).
    - Numeric columns are exact rationals ([Qc]).  The script computes
      with 64-bit integers, which wrap around, or with binary floating
      point, which rounds; on the rows of [Exact.exact_row] neither
      happens, and what is stated of products and quotients beyond single
      values is stated of such rows.
    - Calendar dates are year/month/day triples ordered as Python orders
      [datetime.date]; the representable range of the nanosecond timestamp
      type is not modelled.
    - A call to the store can raise, and so can a statement of a
      cleaning; both are parameters of a run ([faults] and [cleanings] in
      [Pipeline]). *)

From Stdlib Require Import ZArith List String Ascii Bool Lia.
From Stdlib Require Import QArith Qcanon Qcabs.
From Stdlib Require Import Sorted Permutation.
From Stdlib Require Import DecimalString.
Import ListNotations.

Local Open Scope string_scope.
Local Open Scope list_scope.
Local Open Scope Z_scope.

(** ** Text: the [str] methods the script calls *)

Module Text.

(** [str.isspace] on one ASCII character: TAB..CR, FS..US and SPACE. *)
Definition is_space (c : ascii) : bool :=
  let n := N_of_ascii c in
  ((9 <=? n)%N && (n <=? 13)%N) || ((28 <=? n)%N && (n <=? 32)%N).

Definition is_lower (c : ascii) : bool :=
  let n := N_of_ascii c in (97 <=? n)%N && (n <=? 122)%N.

Definition is_upper (c : ascii) : bool :=
  let n := N_of_ascii c in (65 <=? n)%N && (n <=? 90)%N.

Definition is_digit (c : ascii) : bool :=
  let n := N_of_ascii c in (48 <=? n)%N && (n <=? 57)%N.

Definition upper_char (c : ascii) : ascii :=
  if is_lower c then ascii_of_N (N_of_ascii c - 32) else c.

Definition lower_char (c : ascii) : ascii :=
  if is_upper c then ascii_of_N (N_of_ascii c + 32) else c.

(** [s.upper()] *)
Fixpoint upper (s : string) : string :=
  match s with
  | EmptyString => EmptyString
  | String c s' => String (upper_char c) (upper s')
  end.

Fixpoint lstrip (s : string) : string :=
  match s with
  | EmptyString => EmptyString
  | String c s' => if is_space c then lstrip s' else s
  end.

Fixpoint rstrip (s : string) : string :=
  match s with
  | EmptyString => EmptyString
  | String c s' =>
      match rstrip s' with
      | EmptyString => if is_space c then EmptyString else String c EmptyString
      | r => String c r
      end
  end.

(** [s.strip()] *)
Definition strip (s : string) : string := rstrip (lstrip s).

(** [s[:n]] *)
Fixpoint take (n : nat) (s : string) : string :=
  match n, s with
  | S n', String c s' => String c (take n' s')
  | _, _ => EmptyString
  end.

(** [s[n:]] *)
Fixpoint drop (n : nat) (s : string) : string :=
  match n, s with
  | S n', String _ s' => drop n' s'
  | _, _ => s
  end.

(** [s.startswith(p)] *)
Definition startswith (p s : string) : bool := String.prefix p s.

(** [s.replace(a, b)] for one-character [a] and [b]. *)
Fixpoint replace_char (a b : ascii) (s : string) : string :=
  match s with
  | EmptyString => EmptyString
  | String c s' =>
      String (if Ascii.eqb c a then b else c) (replace_char a b s')
  end.

(** [s.replace(a, '')] for a one-character [a]. *)
Fixpoint remove_char (a : ascii) (s : string) : string :=
  match s with
  | EmptyString => EmptyString
  | String c s' =>
      if Ascii.eqb c a then remove_char a s' else String c (remove_char a s')
  end.

(** [s.split(sep)[0]]: the text before the first separator. *)
Fixpoint before (sep : ascii) (s : string) : string :=
  match s with
  | EmptyString => EmptyString
  | String c s' =>
      if Ascii.eqb c sep then EmptyString else String c (before sep s')
  end.

(** [s.title()]: a letter that follows a non-letter is upper-cased, a
    letter that follows a letter is lower-cased. *)
Fixpoint title_from (prev_cased : bool) (s : string) : string :=
  match s with
  | EmptyString => EmptyString
  | String c s' =>
      let cased := is_lower c || is_upper c in
      String (if prev_cased then lower_char c else upper_char c)
             (title_from cased s')
  end.

Definition title (s : string) : string := title_from false s.

(** [str(z)] for an integer. *)
Definition of_Z (z : Z) : string := NilZero.string_of_int (Z.to_int z).

End Text.

(** ** Calendar dates and timestamps *)

Module Calendar.

Record date := mkdate { year : Z; month : Z; day : Z }.

Definition is_leap (y : Z) : bool :=
  (y mod 4 =? 0) && (negb (y mod 100 =? 0) || (y mod 400 =? 0)).

Definition days_in_month (y m : Z) : Z :=
  if m =? 2 then (if is_leap y then 29 else 28)
  else if (m =? 4) || (m =? 6) || (m =? 9) || (m =? 11) then 30
  else 31.

Definition valid_date (d : date) : bool :=
  (1 <=? year d) && (year d <=? 9999)
  && (1 <=? month d) && (month d <=? 12)
  && (1 <=? day d) && (day d <=? days_in_month (year d) (month d)).

(** Order of [datetime.date]: lexicographic on (year, month, day). *)
Definition date_ltb (a b : date) : bool :=
  (year a <? year b)
  || ((year a =? year b)
      && ((month a <? month b)
          || ((month a =? month b) && (day a <? day b)))).

Definition date_eqb (a b : date) : bool :=
  (year a =? year b) && (month a =? month b) && (day a =? day b).

Definition date_leb (a b : date) : bool := date_ltb a b || date_eqb a b.

(** [d - Timedelta(days=1)]; on 0001-01-01, where Python raises an
    [OverflowError], the triple 0000-12-31. *)
Definition minus_one_day (d : date) : date :=
  if 1 <? day d then mkdate (year d) (month d) (day d - 1)
  else if 1 <? month d
       then mkdate (year d) (month d - 1)
                   (days_in_month (year d) (month d - 1))
       else mkdate (year d - 1) 12 31.

(** Day number of a date (the proleptic Gregorian ordinal, 0001-01-01
    being day 1); used to state that [minus_one_day] steps one day. *)
Definition days_before_year (y : Z) : Z :=
  let p := y - 1 in p * 365 + p / 4 - p / 100 + p / 400.

Fixpoint days_before_month_aux (y : Z) (m : nat) : Z :=
  match m with
  | O => 0
  | S m' => days_before_month_aux y m' + days_in_month y (Z.of_nat m)
  end.

Definition days_before_month (y m : Z) : Z :=
  days_before_month_aux y (Z.to_nat (m - 1)).

Definition toordinal (d : date) : Z :=
  days_before_year (year d) + days_before_month (year d) (month d) + day d.

(** A [pd.Timestamp]: a date and the nanoseconds elapsed in that day. *)
Record timestamp := mkts { ts_date : date; ts_nanos : Z }.

Definition midnight (d : date) : timestamp := mkts d 0.

Definition digit_val (c : ascii) : Z := Z.of_N (N_of_ascii c) - 48.

Fixpoint number_of (acc : Z) (s : string) : Z :=
  match s with
  | EmptyString => acc
  | String c s' => number_of (acc * 10 + digit_val c) s'
  end.

Fixpoint all_digits (s : string) : bool :=
  match s with
  | EmptyString => true
  | String c s' => Text.is_digit c && all_digits s'
  end.

(** [pd.to_datetime(s, format='%Y%m%d', errors='coerce')] on one text of
    eight characters: four digits of year, two of month, two of day, and
    the triple must be a date of the calendar; anything else is [NaT].
    The parser of the script differs on two kinds of text: it also reads
    a day written with a space in place of its leading zero, and it gives
    [NaT] for a date outside the range of a nanosecond timestamp
    (1677-09-21 to 2262-04-11).  On eight digits that spell a date of the
    years 1678 to 2261 the two agree. *)
Definition strptime_Ymd (s : string) : option timestamp :=
  if all_digits s then
    let d := mkdate (number_of 0 (Text.take 4 s))
                    (number_of 0 (Text.take 2 (Text.drop 4 s)))
                    (number_of 0 (Text.drop 6 s)) in
    if valid_date d then Some (midnight d) else None
  else None.

End Calendar.

(** ** Series helpers shared by the entity pipelines *)

Module Series.

Definition isna {A} (x : option A) : bool :=
  match x with None => true | Some _ => false end.

(** [s.fillna(d)] on one value. *)
Definition fillna {A} (d : A) (x : option A) : option A :=
  match x with None => Some d | Some _ => x end.

(** [np.where(c, a, b)] on one position. *)
Definition where_ {A} (c : bool) (a b : A) : A := if c then a else b.

(** A frame after [df['load_timestamp'] = pd.Timestamp.now()]. *)
Record stamped (A : Type) :=
  mkstamped { body : A; load_timestamp : Calendar.timestamp }.
Arguments mkstamped {A} _ _.
Arguments body {A} _.
Arguments load_timestamp {A} _.

Definition stamp {A} (now : Calendar.timestamp) (df : list A)
  : list (stamped A) :=
  map (fun r => mkstamped r now) df.

(** [df.dropna(subset=[k])] *)
Definition dropna {A K} (k : A -> option K) (df : list A) : list A :=
  filter (fun r => negb (isna (k r))) df.

(** [s.replace({...})]: a value that is a key of the table is replaced by
    its entry; every other value is left as it is. *)
Fixpoint replace (table : list (string * string)) (s : string) : string :=
  match table with
  | [] => s
  | (k, v) :: table' => if String.eqb s k then v else replace table' s
  end.

(** A raw value of a bronze column as [read_sql] hands it over: an
    integer, a float of integral value, a text, [None] or [NaN]. *)
Inductive cell :=
| CInt (z : Z)
| CFloat (z : Z)
| CStr (s : string)
| CNone
| CNaN.

(** [col.astype(str)] on one value. *)
Definition astype_str (c : cell) : string :=
  match c with
  | CInt z => Text.of_Z z
  | CFloat z => Text.of_Z z ++ ".0"
  | CStr s => s
  | CNone => "None"
  | CNaN => "nan"
  end.

(** The entry of a key in a lookup table, if it has one. *)
Fixpoint lookup (table : list (string * string)) (k : string)
  : option string :=
  match table with
  | [] => None
  | (k', v) :: table' => if String.eqb k k' then Some v else lookup table' k
  end.

(** The categorical clean-up every pipeline repeats:
    [s.<fold>.replace(table).fillna('Unknown')]; [fold] is the chain of
    [str] methods applied first, which leaves a missing value missing. *)
Definition normalize (fold : string -> string)
           (table : list (string * string)) (x : option string)
  : option string :=
  fillna "Unknown" (option_map (fun s => replace table (fold s)) x).

Definition option_eqb {K} (eqb : K -> K -> bool) (x y : option K) : bool :=
  match x, y with
  | Some a, Some b => eqb a b
  | None, None => true
  | _, _ => false
  end.

(** Order of one sort key, missing values last whatever the direction
    ([na_position='last']). *)
Definition asc {K} (leb : K -> K -> bool) (x y : option K) : bool :=
  match x, y with
  | _, None => true
  | None, Some _ => false
  | Some a, Some b => leb a b
  end.

Definition desc {K} (leb : K -> K -> bool) (x y : option K) : bool :=
  match x, y with
  | _, None => true
  | None, Some _ => false
  | Some a, Some b => leb b a
  end.

Definition by_key {A K} (ord : K -> K -> bool) (k : A -> K) (a b : A)
  : bool := ord (k a) (k b).

(** What sorting asks of an order. *)
Definition total {A} (leb : A -> A -> bool) : Prop :=
  forall a b, leb a b = true \/ leb b a = true.

Definition transitive {A} (leb : A -> A -> bool) : Prop :=
  forall a b c, leb a b = true -> leb b c = true -> leb a c = true.

(** Two sort keys: the second one decides between rows the first one
    does not separate. *)
Definition lex {A} (o1 o2 : A -> A -> bool) (a b : A) : bool :=
  if negb (o1 b a) then true
  else if negb (o1 a b) then false
  else o2 a b.

(** [df.sort_values(...)], a stable sort. *)
Fixpoint insert {A} (leb : A -> A -> bool) (x : A) (l : list A) : list A :=
  match l with
  | [] => [x]
  | y :: l' => if leb x y then x :: l else y :: insert leb x l'
  end.

Fixpoint sort_values {A} (leb : A -> A -> bool) (l : list A) : list A :=
  match l with
  | [] => []
  | x :: l' => insert leb x (sort_values leb l')
  end.

(** [df.drop_duplicates(subset=k, keep='first')]: a row is kept when no
    earlier row of the frame carries its key. *)
Fixpoint drop_duplicates_from {A K} (eqb : K -> K -> bool) (k : A -> K)
         (seen : list K) (l : list A) : list A :=
  match l with
  | [] => []
  | r :: l' =>
      if existsb (eqb (k r)) seen
      then drop_duplicates_from eqb k seen l'
      else r :: drop_duplicates_from eqb k (k r :: seen) l'
  end.

Definition drop_duplicates {A K} (eqb : K -> K -> bool) (k : A -> K)
           (l : list A) : list A :=
  drop_duplicates_from eqb k [] l.

(** [df.groupby(k)[v].shift(-1)] at a row followed by [l]: the value of
    [v] at the next row of the frame with the same key, missing when
    there is none. *)
Fixpoint next_in_group {A K V} (eqb : K -> K -> bool) (k : A -> K)
         (v : A -> option V) (key : K) (l : list A) : option V :=
  match l with
  | [] => None
  | r :: l' =>
      if eqb (k r) key then v r else next_in_group eqb k v key l'
  end.

End Series.

(** ** CRM sales details *)

Module Sales.
Import Calendar Series.

(** [clean_yyyymmdd], on text: the part before the first dot is kept, a
    text that is not eight characters long becomes [None], and what is
    left goes through the strict parser. *)
Definition clean_yyyymmdd_text (s : string) : option timestamp :=
  let s0 := Text.before "." s in
  let s1 := where_ (negb (Nat.eqb (String.length s0) 8)) None (Some s0) in
  match s1 with
  | None => None
  | Some s2 => strptime_Ymd s2
  end.

Definition clean_yyyymmdd (c : cell) : option timestamp :=
  clean_yyyymmdd_text (astype_str c).

(** One row of the frame; [D] is the type of the date columns, [cell]
    when read and [option timestamp] once cleaned.  [sls_rest] stands for
    the columns the script never touches (order number, product key,
    customer id). *)
Record row (D : Type) := mkrow {
  sls_rest : list string;
  sls_order_dt : D;
  sls_ship_dt : D;
  sls_due_dt : D;
  sls_sales : option Qc;
  sls_quantity : option Qc;
  sls_price : option Qc
}.
Arguments mkrow {D} _ _ _ _ _ _ _.
Arguments sls_rest {D} _.
Arguments sls_order_dt {D} _.
Arguments sls_ship_dt {D} _.
Arguments sls_due_dt {D} _.
Arguments sls_sales {D} _.
Arguments sls_quantity {D} _.
Arguments sls_price {D} _.

(** An integer as a number of the frame. *)
Definition of_Z (z : Z) : Qc := Q2Qc (inject_Z z).

Definition zero : Qc := of_Z 0.

Definition Qc_leb (x y : Qc) : bool := Qle_bool x y.

(** [s.fillna(0)] seen as a number. *)
Definition fill0 (x : option Qc) : Qc :=
  match x with None => zero | Some v => v end.

(** [s <= 0]: false on a missing value. *)
Definition le0 (x : option Qc) : bool :=
  match x with None => false | Some v => Qc_leb v zero end.

(** [s != c]: true on a missing value. *)
Definition ne (x : option Qc) (c : Qc) : bool :=
  match x with None => true | Some v => negb (Qc_eq_bool v c) end.

(** [s.replace(0, np.nan)] *)
Definition replace0nan (x : option Qc) : option Qc :=
  match x with
  | Some v => if Qc_eq_bool v zero then None else Some v
  | None => None
  end.

(** [a / b] on two values, missing as soon as one is; the exact
    quotient, which is the quotient the script computes when both are
    integers below 2^53 in magnitude and [b] divides [a]. *)
Definition div (a b : option Qc) : option Qc :=
  match a, b with
  | Some x, Some y => Some (Qcdiv x y)
  | _, _ => None
  end.

(** [sls_quantity.fillna(0) * sls_price.fillna(0).abs()]; the exact
    product, which is the product the script computes when it stays
    below 2^53 in magnitude and both factors are integers. *)
Definition calc_sales {D} (r : row D) : Qc :=
  Qcmult (fill0 (sls_quantity r)) (Qcabs (fill0 (sls_price r))).

Definition sales_condition {D} (r : row D) : bool :=
  isna (sls_sales r) || le0 (sls_sales r) || ne (sls_sales r) (calc_sales r).

(** The frame after [sls_sales] is reassigned. *)
Definition fix_sales {D} (r : row D) : row D :=
  mkrow (sls_rest r) (sls_order_dt r) (sls_ship_dt r) (sls_due_dt r)
        (where_ (sales_condition r) (Some (calc_sales r)) (sls_sales r))
        (sls_quantity r) (sls_price r).

Definition price_condition {D} (r : row D) : bool :=
  isna (sls_price r) || le0 (sls_price r).

Definition calc_price {D} (r : row D) : option Qc :=
  div (sls_sales r) (replace0nan (sls_quantity r)).

(** The frame after [sls_price] is reassigned; [sls_sales] is by now the
    reassigned column. *)
Definition fix_price {D} (r : row D) : row D :=
  mkrow (sls_rest r) (sls_order_dt r) (sls_ship_dt r) (sls_due_dt r)
        (sls_sales r) (sls_quantity r)
        (where_ (price_condition r) (calc_price r) (sls_price r)).

(** [df[['sls_sales', 'sls_price']].fillna(0)] *)
Definition fill_sales_price {D} (r : row D) : row D :=
  mkrow (sls_rest r) (sls_order_dt r) (sls_ship_dt r) (sls_due_dt r)
        (fillna zero (sls_sales r)) (sls_quantity r)
        (fillna zero (sls_price r)).

Definition reconcile {D} (r : row D) : row D :=
  fill_sales_price (fix_price (fix_sales r)).

(** The sales invariant on one row, read as pandas reads [==]: with a
    missing operand the comparison is false. *)
Definition invariant {D} (r : row D) : Prop :=
  match sls_sales r, sls_quantity r, sls_price r with
  | Some s, Some q, Some p => s = Qcmult q (Qcabs p)
  | _, _, _ => False
  end.

Definition clean_dates (r : row cell) : row (option timestamp) :=
  mkrow (sls_rest r)
        (clean_yyyymmdd (sls_order_dt r))
        (clean_yyyymmdd (sls_ship_dt r))
        (clean_yyyymmdd (sls_due_dt r))
        (sls_sales r) (sls_quantity r) (sls_price r).

(** The cleaning part of [load_crm_sales_details]. *)
Definition transform (now : timestamp) (df : list (row cell))
  : list (stamped (row (option timestamp))) :=
  stamp now (map reconcile (map clean_dates df)).

End Sales.

(** ** CRM customer info *)

Module Customer.
Import Calendar Series.

(** [D] is the type of [cst_create_date]: [cell] when read, a date or
    missing after step 2.  [cst_rest] stands for the columns the script
    never touches. *)
Record row (D : Type) := mkrow {
  cust_id : option Z;
  cst_rest : list string;
  cst_firstname : option string;
  cst_lastname : option string;
  cst_marital_status : option string;
  cst_gndr : option string;
  cst_create_date : D
}.
Arguments mkrow {D} _ _ _ _ _ _ _.
Arguments cust_id {D} _.
Arguments cst_rest {D} _.
Arguments cst_firstname {D} _.
Arguments cst_lastname {D} _.
Arguments cst_marital_status {D} _.
Arguments cst_gndr {D} _.
Arguments cst_create_date {D} _.

Definition marital_table : list (string * string) :=
  [("M", "Married"); ("MARRIED", "Married");
   ("S", "Single"); ("SINGLE", "Single")].

Definition gender_table : list (string * string) :=
  [("M", "Male"); ("MALE", "Male"); ("F", "Female"); ("FEMALE", "Female")].

(** [.str.upper().str.strip()] *)
Definition fold (s : string) : string := Text.strip (Text.upper s).

(** [.str.strip().replace('', 'Unknown')]: a missing name stays missing. *)
Definition clean_name (x : option string) : option string :=
  option_map (fun s => replace [("", "Unknown")] (Text.strip s)) x.

Definition clean_marital_status : option string -> option string :=
  normalize fold marital_table.

Definition clean_gndr : option string -> option string :=
  normalize fold gender_table.

(** Sort order of step 3: [cust_id] ascending, then [cst_create_date]
    descending. *)
Definition order : row (option date) -> row (option date) -> bool :=
  lex (by_key (asc Z.leb) cust_id) (by_key (desc date_leb) cst_create_date).

Definition clean_text {D} (r : row D) : row D :=
  mkrow (cust_id r) (cst_rest r)
        (clean_name (cst_firstname r))
        (clean_name (cst_lastname r))
        (clean_marital_status (cst_marital_status r))
        (clean_gndr (cst_gndr r))
        (cst_create_date r).

Section Transform.
(** [pd.to_datetime(_, errors='coerce')] on one value. *)
Variable to_datetime : cell -> option timestamp.

Definition convert_date (r : row cell) : row (option date) :=
  mkrow (cust_id r) (cst_rest r) (cst_firstname r) (cst_lastname r)
        (cst_marital_status r) (cst_gndr r)
        (option_map ts_date (to_datetime (cst_create_date r))).

(** Steps 1 to 3: drop missing keys, convert the date, sort and keep
    the first row of every key. *)
Definition deduplicate (df : list (row cell)) : list (row (option date)) :=
  drop_duplicates (option_eqb Z.eqb) cust_id
    (sort_values order (map convert_date (dropna cust_id df))).

(** The cleaning part of [load_crm_customer_info]. *)
Definition transform (now : timestamp) (df : list (row cell))
  : list (stamped (row (option date))) :=
  stamp now (map clean_text (deduplicate df)).
End Transform.

End Customer.

(** ** CRM product info *)

Module Product.
Import Calendar Series.

(** [D] is the type of the two date columns and [C] the type of
    [category_id], a column that exists only once step 3 has run ([unit]
    before).  [prd_rest] stands for the untouched columns. *)
Record row (D C : Type) := mkrow {
  prd_rest : list string;
  prd_key : option string;
  category_id : C;
  prd_cost : option Qc;
  prd_line : option string;
  prd_start_dt : D;
  prd_end_dt : D
}.
Arguments mkrow {D C} _ _ _ _ _ _ _.
Arguments prd_rest {D C} _.
Arguments prd_key {D C} _.
Arguments category_id {D C} _.
Arguments prd_cost {D C} _.
Arguments prd_line {D C} _.
Arguments prd_start_dt {D C} _.
Arguments prd_end_dt {D C} _.

Definition line_table : list (string * string) :=
  [("M", "Mountain"); ("MOUNTAIN", "Mountain");
   ("R", "Road"); ("ROAD", "Road");
   ("S", "Other Sales"); ("OTHER SALES", "Other Sales");
   ("T", "Touring"); ("TOURING", "Touring")].

(** [.str.upper().str.strip()] *)
Definition fold (s : string) : string := Text.strip (Text.upper s).

(** Sort order of step 7: [prd_key], then [prd_start_dt], both
    ascending. *)
Definition order {C} : row (option date) C -> row (option date) C -> bool :=
  lex (by_key (asc String.leb) prd_key) (by_key (asc date_leb) prd_start_dt).

(** Step 8 at one row followed by [l]:
    [groupby('prd_key')['prd_start_dt'].shift(-1) - Timedelta(days=1)].
    A row without key belongs to no group. *)
Definition derived_end {C} (r : row (option date) C)
           (l : list (row (option date) C)) : option date :=
  match prd_key r with
  | None => None
  | Some _ =>
      option_map minus_one_day
        (next_in_group (option_eqb String.eqb) prd_key prd_start_dt
                       (prd_key r) l)
  end.

Fixpoint derive_end_dates {C} (l : list (row (option date) C))
  : list (row (option date) C) :=
  match l with
  | [] => []
  | r :: l' =>
      mkrow (prd_rest r) (prd_key r) (category_id r) (prd_cost r)
            (prd_line r) (prd_start_dt r) (derived_end r l')
      :: derive_end_dates l'
  end.

(** The rows of one lineage, that is of one raw [prd_key], in frame
    order. *)
Definition lineage {D C} (key : string) (df : list (row D C))
  : list (row D C) :=
  filter (fun r => option_eqb String.eqb (prd_key r) (Some key)) df.

(** What step 8 is meant to achieve on one lineage: the rows are in
    ascending order of [prd_start_dt] (missing last), every row ends
    the day before its successor starts, and the last row is open. *)
Fixpoint windowed {C} (g : list (row (option date) C)) : Prop :=
  match g with
  | [] => True
  | r :: g' =>
      match g' with
      | [] => prd_end_dt r = None
      | r' :: _ =>
          prd_end_dt r = option_map minus_one_day (prd_start_dt r')
          /\ asc date_leb (prd_start_dt r) (prd_start_dt r') = true
      end
      /\ windowed g'
  end.

(** Steps 3 and 4: [category_id] from the first five characters of the
    raw key, then the key cut down to what follows the sixth. *)
Definition split_key {D} (r : row D unit) : row D (option string) :=
  mkrow (prd_rest r)
        (option_map (Text.drop 6) (prd_key r))
        (option_map (fun s => Text.replace_char "-" "_" (Text.take 5 s))
                    (prd_key r))
        (prd_cost r) (prd_line r) (prd_start_dt r) (prd_end_dt r).

(** Steps 5 and 6. *)
Definition clean_cost_line {D C} (r : row D C) : row D C :=
  mkrow (prd_rest r) (prd_key r) (category_id r)
        (fillna (Q2Qc 0) (prd_cost r))
        (normalize fold line_table (prd_line r))
        (prd_start_dt r) (prd_end_dt r).

Section Transform.
Variable to_datetime : cell -> option timestamp.

Definition convert_dates (r : row cell unit) : row (option date) unit :=
  mkrow (prd_rest r) (prd_key r) (category_id r) (prd_cost r) (prd_line r)
        (option_map ts_date (to_datetime (prd_start_dt r)))
        (option_map ts_date (to_datetime (prd_end_dt r))).

(** Steps 1, 2, 7 and 8: the frame with its validity windows, the key
    still the raw one. *)
Definition scd_windows (df : list (row cell unit))
  : list (row (option date) unit) :=
  derive_end_dates
    (sort_values order (map convert_dates (dropna prd_key df))).

(** The cleaning part of [load_crm_product_info]. *)
Definition transform (now : timestamp) (df : list (row cell unit))
  : list (stamped (row (option date) (option string))) :=
  stamp now (map clean_cost_line (map split_key (scd_windows df))).
End Transform.

End Product.

(** ** ERP customer AZ12 *)

Module Az12.
Import Calendar Series.

Record row (D : Type) := mkrow {
  cid : option string;
  bdate : D;
  gen : option string
}.
Arguments mkrow {D} _ _ _.
Arguments cid {D} _.
Arguments bdate {D} _.
Arguments gen {D} _.

Definition gen_table : list (string * string) :=
  [("M", "Male"); ("MALE", "Male"); ("F", "Female"); ("FEMALE", "Female");
   ("UNKNOWN", "Unknown"); ("", "Unknown")].

(** [.str.strip().str.upper()] *)
Definition fold (s : string) : string := Text.upper (Text.strip s).

(** [np.where(cid.str.startswith('NAS'), cid.str[3:], cid)] *)
Definition clean_cid (s : string) : string :=
  where_ (Text.startswith "NAS" s) (Text.drop 3 s) s.

(** [bdate > today]: false on a missing date. *)
Definition in_future (today : date) (d : option date) : bool :=
  match d with None => false | Some x => date_ltb today x end.

Section Transform.
Variable to_datetime : cell -> option timestamp.

Definition clean_row (today : date) (r : row cell) : row (option date) :=
  let b := option_map ts_date (to_datetime (bdate r)) in
  mkrow (option_map clean_cid (cid r))
        (if in_future today b then None else b)
        (normalize fold gen_table (gen r)).

(** Everything before the load timestamp; [today] is the date of the
    first reading of the clock. *)
Definition cleanse (today : date) (df : list (row cell))
  : list (row (option date)) :=
  map (clean_row today)
      (drop_duplicates (option_eqb String.eqb) cid (dropna cid df)).

(** The cleaning part of [load_erp_customer_az12]; the clock is read
    twice. *)
Definition transform (now1 now2 : timestamp) (df : list (row cell))
  : list (stamped (row (option date))) :=
  stamp now2 (cleanse (ts_date now1) df).
End Transform.

End Az12.

(** ** ERP location A101 *)

Module Location.
Import Calendar Series.

Record row := mkrow {
  cid : option string;
  cntry : option string
}.

Definition cntry_table : list (string * string) :=
  [("US", "United States"); ("USA", "United States"); ("DE", "Germany");
   ("", "Unknown"); ("FEMALE", "Unknown")].

(** [.str.strip().str.upper().replace({...}).str.title().fillna('Unknown')] *)
Definition clean_cntry (x : option string) : option string :=
  fillna "Unknown"
    (option_map
       (fun s => Text.title (replace cntry_table (Text.upper (Text.strip s))))
       x).

Definition clean_row (r : row) : row :=
  mkrow (option_map (Text.remove_char "-") (cid r)) (clean_cntry (cntry r)).

(** The cleaning part of [load_erp_location_a101]. *)
Definition transform (now : timestamp) (df : list row) : list (stamped row) :=
  stamp now
    (map clean_row
         (drop_duplicates (option_eqb String.eqb) cid (dropna cid df))).

End Location.

(** ** ERP product category *)

Module Category.
Import Calendar Series.

(** [cat_rest] stands for the columns the script never names. *)
Record row := mkrow {
  id : option string;
  cat_rest : list string
}.

(** The cleaning part of [load_erp_product_category]: the two checks
    ([duplicated().sum()], [isnull().sum()]) compute numbers that are
    thrown away, so the frame is only stamped. *)
Definition transform (now : timestamp) (df : list row) : list (stamped row) :=
  stamp now df.

End Category.

(** ** The loader and the orchestrator *)

Module Pipeline.
Import Calendar Series.

Inductive entity :=
| crm_customer_info
| crm_product_info
| crm_sales_details
| erp_customer_az12
| erp_location_a101
| erp_product_category.

Definition table_name (e : entity) : string :=
  match e with
  | crm_customer_info => "crm_customer_info"
  | crm_product_info => "crm_product_info"
  | crm_sales_details => "crm_sales_details"
  | erp_customer_az12 => "erp_customer_az12"
  | erp_location_a101 => "erp_location_a101"
  | erp_product_category => "erp_product_category"
  end.

(** The three calls to the store made for one entity. *)
Inductive io_op :=
| Fetch (e : entity)
| Truncate (e : entity)
| Append (e : entity).

(** The bronze schema, one frame per table. *)
Record bronze := mkbronze {
  b_customer_info : list (Customer.row cell);
  b_product_info : list (Product.row cell unit);
  b_sales_details : list (Sales.row cell);
  b_customer_az12 : list (Az12.row cell);
  b_location_a101 : list Location.row;
  b_product_category : list Category.row
}.

(** The silver schema. *)
Record silver := mksilver {
  s_customer_info : list (stamped (Customer.row (option date)));
  s_product_info : list (stamped (Product.row (option date) (option string)));
  s_sales_details : list (stamped (Sales.row (option timestamp)));
  s_customer_az12 : list (stamped (Az12.row (option date)));
  s_location_a101 : list (stamped Location.row);
  s_product_category : list (stamped Category.row)
}.

Definition set_customer_info v (s : silver) : silver :=
  mksilver v (s_product_info s) (s_sales_details s) (s_customer_az12 s)
           (s_location_a101 s) (s_product_category s).
Definition set_product_info v (s : silver) : silver :=
  mksilver (s_customer_info s) v (s_sales_details s) (s_customer_az12 s)
           (s_location_a101 s) (s_product_category s).
Definition set_sales_details v (s : silver) : silver :=
  mksilver (s_customer_info s) (s_product_info s) v (s_customer_az12 s)
           (s_location_a101 s) (s_product_category s).
Definition set_customer_az12 v (s : silver) : silver :=
  mksilver (s_customer_info s) (s_product_info s) (s_sales_details s) v
           (s_location_a101 s) (s_product_category s).
Definition set_location_a101 v (s : silver) : silver :=
  mksilver (s_customer_info s) (s_product_info s) (s_sales_details s)
           (s_customer_az12 s) v (s_product_category s).
Definition set_product_category v (s : silver) : silver :=
  mksilver (s_customer_info s) (s_product_info s) (s_sales_details s)
           (s_customer_az12 s) (s_location_a101 s) v.

(** What a run can see and change: the two schemas, the console, and the
    clock, given as the readings [pd.Timestamp.now()] will return from
    now on. *)
Record world := mkworld {
  raw_zone : bronze;
  cleansed_zone : silver;
  console : list string;
  clock : nat -> timestamp
}.

(** A Python exception, by its message. *)
Definition exn := string.

(** A statement: it ends normally with a value or raises, and leaves a
    world behind in both cases. *)
Definition M (A : Type) : Type := world -> (exn + A) * world.

Definition ret {A} (a : A) : M A := fun w => (inr a, w).

Definition bind {A B} (c : M A) (k : A -> M B) : M B :=
  fun w =>
    match c w with
    | (inr a, w') => k a w'
    | (inl e, w') => (inl e, w')
    end.

Definition raise {A} (e : exn) : M A := fun w => (inl e, w).

(** [try: body  except Exception as e: handler(e)] *)
Definition try_except {A} (body : M A) (handler : exn -> M A) : M A :=
  fun w =>
    match body w with
    | (inr a, w') => (inr a, w')
    | (inl e, w') => handler e w'
    end.

Declare Scope pipeline_scope.
Delimit Scope pipeline_scope with pipeline.
Notation "x <- c ;; k" := (bind c (fun x => k))
  (at level 61, c at next level, right associativity) : pipeline_scope.
Notation "c ;; k" := (bind c (fun _ => k))
  (at level 61, right associativity) : pipeline_scope.
Local Open Scope pipeline_scope.

Definition print (line : string) : M unit :=
  fun w =>
    (inr tt,
     mkworld (raw_zone w) (cleansed_zone w) (console w ++ [line]) (clock w)).

(** [pd.Timestamp.now()] *)
Definition now : M timestamp :=
  fun w =>
    (inr (clock w O),
     mkworld (raw_zone w) (cleansed_zone w) (console w)
             (fun n => clock w (S n))).

(** When the cleaning raises.

    Between its fetch and its truncate every pipeline runs its pandas
    statements inside the [try].  The values these statements compute are
    the [transform] functions of the modules above.  They can also raise:
    [customer_az12['bdate'] > today], for one, raises a [TypeError] on a
    frame that has rows and no birth date that parses, because pandas
    then holds the column as timestamps and refuses to compare it with a
    date.  On which frames which statement raises depends on how pandas
    types the columns it is given; the embedding does not decide it and
    takes it as given instead: a [cleaning] says, for every pipeline,
    whether the cleaning of a frame raises, and with which exception.
    The customer demographics pipeline reads the clock in the middle of
    its cleaning, so it has one entry for the statements before that
    reading and one for the statements after it; every other pipeline
    reads the clock as the last statement of its cleaning. *)
Record cleaning := mkcleaning {
  customer_info_raises : list (Customer.row cell) -> option exn;
  product_info_raises : list (Product.row cell unit) -> option exn;
  sales_details_raises : list (Sales.row cell) -> option exn;
  customer_az12_raises_before_today : list (Az12.row cell) -> option exn;
  customer_az12_raises_after_today : list (Az12.row cell) -> option exn;
  location_a101_raises : list Location.row -> option exn;
  product_category_raises : list Category.row -> option exn
}.

(** The statements of a cleaning, as far as raising goes. *)
Definition may_raise (x : option exn) : M unit :=
  fun w =>
    match x with
    | Some e => (inl e, w)
    | None => (inr tt, w)
    end.

Section Run.
(** The call to the store that raises during this run, if any, with
    the exception it raises. *)
Variable faults : io_op -> option exn.
Variable cleanings : cleaning.
Variable to_datetime : cell -> option timestamp.

Definition storage {A} (op : io_op) (k : M A) : M A :=
  fun w =>
    match faults op with
    | Some e => (inl e, w)
    | None => k w
    end.

(** [pd.read_sql("SELECT * FROM bronze.<e>", db_engine)] *)
Definition read_sql {A} (e : entity) (table : bronze -> A) : M A :=
  storage (Fetch e) (fun w => (inr (table (raw_zone w)), w)).

Definition write (update : silver -> silver) : M unit :=
  fun w =>
    (inr tt,
     mkworld (raw_zone w) (update (cleansed_zone w)) (console w) (clock w)).

(** [conn.execute(text("TRUNCATE TABLE silver.<e>"))] *)
Definition truncate (e : entity) (empty : silver -> silver) : M unit :=
  storage (Truncate e) (write empty).

(** [df.to_sql(<e>, engine, schema='silver', if_exists=...)] *)
Definition to_sql (e : entity) (load : silver -> silver) : M unit :=
  storage (Append e) (write load).

Definition failed (e : exn) : M unit := print ("❌ Failed loading " ++ e).

Definition loaded (e : entity) : M unit :=
  print ("✅ Loaded silver." ++ table_name e).

Definition load_crm_customer_info : M unit :=
  try_except
    (df <- read_sql crm_customer_info b_customer_info ;;
     may_raise (customer_info_raises cleanings df) ;;
     t <- now ;;
     truncate crm_customer_info (set_customer_info []) ;;
     to_sql crm_customer_info
       (fun s => set_customer_info
                   (s_customer_info s ++ Customer.transform to_datetime t df)
                   s) ;;
     loaded crm_customer_info)
    failed.

Definition load_crm_product_info : M unit :=
  try_except
    (df <- read_sql crm_product_info b_product_info ;;
     may_raise (product_info_raises cleanings df) ;;
     t <- now ;;
     truncate crm_product_info (set_product_info []) ;;
     to_sql crm_product_info
       (fun s => set_product_info
                   (s_product_info s ++ Product.transform to_datetime t df)
                   s) ;;
     loaded crm_product_info)
    failed.

Definition load_crm_sales_details : M unit :=
  try_except
    (df <- read_sql crm_sales_details b_sales_details ;;
     may_raise (sales_details_raises cleanings df) ;;
     t <- now ;;
     truncate crm_sales_details (set_sales_details []) ;;
     to_sql crm_sales_details
       (fun s => set_sales_details
                   (s_sales_details s ++ Sales.transform t df) s) ;;
     loaded crm_sales_details)
    failed.

(** The only table written with [if_exists='replace']: the frame
    becomes the table. *)
Definition load_erp_customer_az12 : M unit :=
  try_except
    (df <- read_sql erp_customer_az12 b_customer_az12 ;;
     may_raise (customer_az12_raises_before_today cleanings df) ;;
     today <- now ;;
     may_raise (customer_az12_raises_after_today cleanings df) ;;
     t <- now ;;
     truncate erp_customer_az12 (set_customer_az12 []) ;;
     to_sql erp_customer_az12
       (set_customer_az12 (Az12.transform to_datetime today t df)) ;;
     loaded erp_customer_az12)
    failed.

Definition load_erp_location_a101 : M unit :=
  try_except
    (df <- read_sql erp_location_a101 b_location_a101 ;;
     may_raise (location_a101_raises cleanings df) ;;
     t <- now ;;
     truncate erp_location_a101 (set_location_a101 []) ;;
     to_sql erp_location_a101
       (fun s => set_location_a101
                   (s_location_a101 s ++ Location.transform t df) s) ;;
     loaded erp_location_a101)
    failed.

Definition load_erp_product_category : M unit :=
  try_except
    (df <- read_sql erp_product_category b_product_category ;;
     may_raise (product_category_raises cleanings df) ;;
     t <- now ;;
     truncate erp_product_category (set_product_category []) ;;
     to_sql erp_product_category
       (fun s => set_product_category
                   (s_product_category s ++ Category.transform t df) s) ;;
     loaded erp_product_category)
    failed.

Definition main : M unit :=
  try_except
    (print "🚀 Starting Silver layer load" ;;
     print "➡ Loading CRM customer info" ;;
     load_crm_customer_info ;;
     print "➡ Loading CRM product info" ;;
     load_crm_product_info ;;
     print "➡ Loading CRM sales details" ;;
     load_crm_sales_details ;;
     print "➡ Loading ERP customer AZ12" ;;
     load_erp_customer_az12 ;;
     print "➡ Loading ERP location A101" ;;
     load_erp_location_a101 ;;
     print "➡ Loading ERP product category" ;;
     load_erp_product_category ;;
     print "✅ Silver layer load completed successfully")
    (fun e => print "❌ Silver layer load FAILED" ;; raise e).
End Run.

(** *** Vocabulary to state what a run does *)

Definition all_entities : list entity :=
  [crm_customer_info; crm_product_info; crm_sales_details;
   erp_customer_az12; erp_location_a101; erp_product_category].

(** The line [main] prints before it calls the pipeline of an entity. *)
Definition heading (e : entity) : string :=
  match e with
  | crm_customer_info => "➡ Loading CRM customer info"
  | crm_product_info => "➡ Loading CRM product info"
  | crm_sales_details => "➡ Loading CRM sales details"
  | erp_customer_az12 => "➡ Loading ERP customer AZ12"
  | erp_location_a101 => "➡ Loading ERP location A101"
  | erp_product_category => "➡ Loading ERP product category"
  end.

(** The exception the cleaning of the bronze table of [e] raises. *)
Definition cleaning_fault (cleanings : cleaning) (raw : bronze) (e : entity)
  : option exn :=
  match e with
  | crm_customer_info => customer_info_raises cleanings (b_customer_info raw)
  | crm_product_info => product_info_raises cleanings (b_product_info raw)
  | crm_sales_details => sales_details_raises cleanings (b_sales_details raw)
  | erp_customer_az12 =>
      match customer_az12_raises_before_today cleanings (b_customer_az12 raw)
      with
      | Some m => Some m
      | None =>
          customer_az12_raises_after_today cleanings (b_customer_az12 raw)
      end
  | erp_location_a101 => location_a101_raises cleanings (b_location_a101 raw)
  | erp_product_category =>
      product_category_raises cleanings (b_product_category raw)
  end.

(** The first statement that raises in the pipeline of [e]: the fetch,
    the cleaning, the truncate or the append. *)
Definition first_fault (faults : io_op -> option exn) (cleanings : cleaning)
           (raw : bronze) (e : entity) : option exn :=
  match faults (Fetch e) with
  | Some m => Some m
  | None =>
      match cleaning_fault cleanings raw e with
      | Some m => Some m
      | None =>
          match faults (Truncate e) with
          | Some m => Some m
          | None => faults (Append e)
          end
      end
  end.

Definition outcome_line (faults : io_op -> option exn) (cleanings : cleaning)
           (raw : bronze) (e : entity) : string :=
  match first_fault faults cleanings raw e with
  | Some m => "❌ Failed loading " ++ m
  | None => "✅ Loaded silver." ++ table_name e
  end.

Definition expected_console (faults : io_op -> option exn)
           (cleanings : cleaning) (raw : bronze) : list string :=
  ["🚀 Starting Silver layer load"]
    ++ flat_map (fun e => [heading e; outcome_line faults cleanings raw e])
                all_entities
    ++ ["✅ Silver layer load completed successfully"].

(** The silver table of [e] is the same in [s] and [s']. *)
Definition table_eq (e : entity) (s s' : silver) : Prop :=
  match e with
  | crm_customer_info => s_customer_info s = s_customer_info s'
  | crm_product_info => s_product_info s = s_product_info s'
  | crm_sales_details => s_sales_details s = s_sales_details s'
  | erp_customer_az12 => s_customer_az12 s = s_customer_az12 s'
  | erp_location_a101 => s_location_a101 s = s_location_a101 s'
  | erp_product_category => s_product_category s = s_product_category s'
  end.

(** The silver table of [e] is empty. *)
Definition table_empty (e : entity) (s : silver) : Prop :=
  match e with
  | crm_customer_info => s_customer_info s = []
  | crm_product_info => s_product_info s = []
  | crm_sales_details => s_sales_details s = []
  | erp_customer_az12 => s_customer_az12 s = []
  | erp_location_a101 => s_location_a101 s = []
  | erp_product_category => s_product_category s = []
  end.

Definition same_except (e : entity) (s s' : silver) : Prop :=
  forall e', e' <> e -> table_eq e' s s'.

(** How often the pipeline of [e] reads the clock when nothing raises. *)
Definition readings (e : entity) : nat :=
  match e with
  | erp_customer_az12 => 2
  | _ => 1
  end.

(** The silver table of [e] holds the cleaned bronze table of [e],
    stamped with one of the first [j] readings of the clock [c]; for the
    customer demographics the processing date is the reading just before
    the stamp. *)
Definition loaded_within (to_datetime : cell -> option timestamp)
           (c : nat -> timestamp) (j : nat)
           (e : entity) (raw : bronze) (s : silver) : Prop :=
  match e with
  | crm_customer_info =>
      exists n, (n < j)%nat
                /\ s_customer_info s
                   = Customer.transform to_datetime (c n)
                                        (b_customer_info raw)
  | crm_product_info =>
      exists n, (n < j)%nat
                /\ s_product_info s
                   = Product.transform to_datetime (c n) (b_product_info raw)
  | crm_sales_details =>
      exists n, (n < j)%nat
                /\ s_sales_details s
                   = Sales.transform (c n) (b_sales_details raw)
  | erp_customer_az12 =>
      exists n, (S n < j)%nat
                /\ s_customer_az12 s
                   = Az12.transform to_datetime (c n) (c (S n))
                                    (b_customer_az12 raw)
  | erp_location_a101 =>
      exists n, (n < j)%nat
                /\ s_location_a101 s
                   = Location.transform (c n) (b_location_a101 raw)
  | erp_product_category =>
      exists n, (n < j)%nat
                /\ s_product_category s
                   = Category.transform (c n) (b_product_category raw)
  end.

(** The silver table of [e] holds the cleaned bronze table of [e],
    stamped with some reading of the clock. *)
Definition loaded_from (to_datetime : cell -> option timestamp)
           (e : entity) (raw : bronze) (s : silver) : Prop :=
  match e with
  | crm_customer_info =>
      exists t, s_customer_info s
                = Customer.transform to_datetime t (b_customer_info raw)
  | crm_product_info =>
      exists t, s_product_info s
                = Product.transform to_datetime t (b_product_info raw)
  | crm_sales_details =>
      exists t, s_sales_details s = Sales.transform t (b_sales_details raw)
  | erp_customer_az12 =>
      exists t t', s_customer_az12 s
                   = Az12.transform to_datetime t t' (b_customer_az12 raw)
  | erp_location_a101 =>
      exists t, s_location_a101 s
                = Location.transform t (b_location_a101 raw)
  | erp_product_category =>
      exists t, s_product_category s
                = Category.transform t (b_product_category raw)
  end.

(** What a statement that raises leaves of the silver table of [e]: when
    the fetch, the cleaning or the truncate raises, the table is what it
    was, nothing having been written; when these three go through and
    the append raises, the table is empty. *)
Definition fault_effect (faults : io_op -> option exn) (cleanings : cleaning)
           (raw : bronze) (e : entity) (s s' : silver) : Prop :=
  (faults (Fetch e) <> None -> table_eq e s s')
  /\ (cleaning_fault cleanings raw e <> None -> table_eq e s s')
  /\ (faults (Truncate e) <> None -> table_eq e s s')
  /\ (faults (Fetch e) = None -> cleaning_fault cleanings raw e = None ->
      faults (Truncate e) = None -> faults (Append e) <> None ->
      table_empty e s').

(** What the pipeline of one entity does to the world, whatever the
    store and the cleaning do: it returns normally, leaves the raw zone
    and the tables of the other entities alone, prints one line, reads
    the clock [j] times, and when none of its statements raises its
    table holds the cleaned frame. *)
Definition isolated (faults : io_op -> option exn) (cleanings : cleaning)
           (to_datetime : cell -> option timestamp)
           (e : entity) (f : M unit) : Prop :=
  forall w, exists j w',
    f w = (inr tt, w')
    /\ raw_zone w' = raw_zone w
    /\ console w' = console w ++ [outcome_line faults cleanings (raw_zone w) e]
    /\ (j <= readings e)%nat
    /\ (forall n, clock w' n = clock w (j + n)%nat)
    /\ same_except e (cleansed_zone w) (cleansed_zone w')
    /\ (first_fault faults cleanings (raw_zone w) e = None ->
        loaded_within to_datetime (clock w) j e (raw_zone w)
                      (cleansed_zone w'))
    /\ fault_effect faults cleanings (raw_zone w) e
                    (cleansed_zone w) (cleansed_zone w').

(** The shape of the body of [main]: a heading and a pipeline per
    entity, then the rest. *)
Fixpoint stages (l : list (entity * M unit)) (k : M unit) : M unit :=
  match l with
  | [] => k
  | (e, f) :: l' => print (heading e) ;; f ;; stages l' k
  end.

(** The cleansed zone without its [load_timestamp] columns. *)
Definition contents (s : silver) :=
  (map body (s_customer_info s), map body (s_product_info s),
   map body (s_sales_details s), map body (s_customer_az12 s),
   map body (s_location_a101 s), map body (s_product_category s)).

(** The table of [e], its load timestamps apart, is the cleaned bronze
    table of [e] for the processing date [d]. *)
Definition holds_cleaned (to_datetime : cell -> option timestamp) (d : date)
           (e : entity) (raw : bronze) (s : silver) : Prop :=
  match e with
  | crm_customer_info =>
      map body (s_customer_info s)
      = map Customer.clean_text
            (Customer.deduplicate to_datetime (b_customer_info raw))
  | crm_product_info =>
      map body (s_product_info s)
      = map Product.clean_cost_line
            (map Product.split_key
                 (Product.scd_windows to_datetime (b_product_info raw)))
  | crm_sales_details =>
      map body (s_sales_details s)
      = map Sales.reconcile (map Sales.clean_dates (b_sales_details raw))
  | erp_customer_az12 =>
      map body (s_customer_az12 s)
      = Az12.cleanse to_datetime d (b_customer_az12 raw)
  | erp_location_a101 =>
      map body (s_location_a101 s)
      = map Location.clean_row
            (drop_duplicates (option_eqb String.eqb) Location.cid
               (dropna Location.cid (b_location_a101 raw)))
  | erp_product_category =>
      map body (s_product_category s) = b_product_category raw
  end.

(** A run in which the store never raises. *)
Definition no_faults : io_op -> option exn := fun _ => None.

End Pipeline.

(** ** A loose date parser to run the pipelines on examples

    The script leaves the reading of free-form dates to
    [pd.to_datetime(_, errors='coerce')]; the pipelines above take it as a
    parameter.  The parser below reads ISO text ([YYYY-MM-DD]) and nothing
    else; it is the instance used wherever a pipeline is evaluated. *)

Module Sample.
Import Calendar Series.

Definition parse_iso (s : string) : option timestamp :=
  if Nat.eqb (String.length s) 10
     && all_digits (Text.take 4 s)
     && String.eqb (Text.take 1 (Text.drop 4 s)) "-"
     && all_digits (Text.take 2 (Text.drop 5 s))
     && String.eqb (Text.take 1 (Text.drop 7 s)) "-"
     && all_digits (Text.drop 8 s)
  then
    let d := mkdate (number_of 0 (Text.take 4 s))
                    (number_of 0 (Text.take 2 (Text.drop 5 s)))
                    (number_of 0 (Text.drop 8 s)) in
    if valid_date d then Some (midnight d) else None
  else None.

Definition to_datetime (c : cell) : option timestamp :=
  match c with
  | CStr s => parse_iso s
  | _ => None
  end.

(** A clock that always shows the same instant. *)
Definition frozen (t : timestamp) : nat -> timestamp := fun _ => t.


(** The one statement of the cleaning that is known to raise:
    [customer_az12['bdate'] > today], on a frame that keeps rows and has
    no birth date that parses. *)
Definition no_birth_date (df : list (Az12.row cell)) : bool :=
  match drop_duplicates (option_eqb String.eqb) Az12.cid
                        (dropna Az12.cid df) with
  | [] => false
  | r :: l => forallb (fun r => isna (to_datetime (Az12.bdate r))) (r :: l)
  end.

(** The cleaning used wherever a run is evaluated: the comparison above
    raises, nothing else does. *)
Definition cleanings : Pipeline.cleaning :=
  Pipeline.mkcleaning
    (fun _ => None) (fun _ => None) (fun _ => None) (fun _ => None)
    (fun df =>
       if no_birth_date df
       then Some "Invalid comparison between dtype=datetime64[ns] and date"
       else None)
    (fun _ => None) (fun _ => None).

End Sample.

(** ** Concrete inputs used by the examples *)

Module Cases.
Import Calendar Series.

(** quantity 2, price missing, sales 20 *)
Definition sale_without_price : Sales.row cell :=
  Sales.mkrow ["SO1"] (CInt 20230101) (CInt 20230105) (CInt 20230110)
              (Some (Sales.of_Z 20)) (Some (Sales.of_Z 2)) None.

(** quantity missing, price 10, sales 20 *)
Definition sale_without_quantity : Sales.row cell :=
  Sales.mkrow ["SO2"] (CInt 20230101) (CInt 20230105) (CInt 20230110)
              (Some (Sales.of_Z 20)) None (Some (Sales.of_Z 10)).

(** quantity 2, price 10, sales 15 *)
Definition sale_inconsistent : Sales.row cell :=
  Sales.mkrow ["SO3"] (CFloat 20230101) (CStr "2023011") CNaN
              (Some (Sales.of_Z 15)) (Some (Sales.of_Z 2))
              (Some (Sales.of_Z 10)).

Definition nas123 : Az12.row cell :=
  Az12.mkrow (Some "NAS123") (CStr "1990-04-12") (Some "M").

Definition plain123 : Az12.row cell :=
  Az12.mkrow (Some "123") (CStr "1985-10-30") (Some " f ").

(** Two customers with the same key, created 2024-01-01 and
    2024-06-01, and a third one without key. *)
Definition two_customers : list (Customer.row cell) :=
  [Customer.mkrow (Some 11000) ["AW00011000"] (Some " Jon") (Some "Yang ")
                  (Some "M") (Some "m") (CStr "2024-01-01");
   Customer.mkrow None ["AW00011001"] (Some "") None None None
                  (CStr "2024-03-01");
   Customer.mkrow (Some 11000) ["AW00011000"] (Some "Jon") (Some "Yang")
                  (Some "Married") (Some "x") (CStr "2024-06-01")].

(** The lineage AA-BB with two versions, the later one first, a row of
    another lineage and a row without key. *)
Definition product_history : list (Product.row cell unit) :=
  [Product.mkrow ["212"] (Some "AA-BB") tt (Some (Sales.of_Z 12))
                 (Some "R ") (CStr "2022-01-01") CNone;
   Product.mkrow ["213"] (Some "CO-RF-FR-R92B-58") tt None
                 (Some "x") (CStr "2021-07-01") (CStr "2021-12-28");
   Product.mkrow ["214"] None tt None None (CStr "2020-01-01") CNone;
   Product.mkrow ["210"] (Some "AA-BB") tt None
                 None (CStr "2021-01-01") (CStr "2030-01-01")].

(** The same version of a product delivered twice. *)
Definition product_twice : list (Product.row cell unit) :=
  [Product.mkrow ["210"] (Some "AB-CD-1234") tt None None
                 (CStr "2021-01-01") CNone;
   Product.mkrow ["210"] (Some "AB-CD-1234") tt None None
                 (CStr "2021-01-01") CNone].

(** Two categories, the second one without [id]. *)
Definition categories : list Category.row :=
  [Category.mkrow (Some "AC_BR") ["Accessories"; "Bike Racks"; "Yes"];
   Category.mkrow None ["Accessories"; "Bike Stands"; "No"]].

Definition locations : list Location.row :=
  [Location.mkrow (Some "AW-00011000") (Some " us ");
   Location.mkrow None (Some "DE");
   Location.mkrow (Some "AW-00011001") None].

(** A customer born on 2026-11-04. *)
Definition born_tomorrow : Az12.row cell :=
  Az12.mkrow (Some "NASAW00011002") (CStr "2026-11-04") (Some "F").

Definition noon : timestamp := mkts (mkdate 2026 11 3) 43200000000000.

Definition raw0 : Pipeline.bronze :=
  Pipeline.mkbronze two_customers product_history
                    [sale_without_price; sale_inconsistent]
                    [nas123; plain123; born_tomorrow] locations categories.

Definition empty_silver : Pipeline.silver :=
  Pipeline.mksilver [] [] [] [] [] [].

(** The first seven readings of the clock fall on 2026-11-03, the
    later ones on 2026-11-05. *)
Definition two_days (n : nat) : timestamp :=
  if Nat.ltb n 7 then mkts (mkdate 2026 11 3) (Z.of_nat n)
  else mkts (mkdate 2026 11 5) (Z.of_nat n).

Definition world0 : Pipeline.world :=
  Pipeline.mkworld raw0 empty_silver [] two_days.

(** The fetch of the sales table and the append of the location table
    raise. *)
Definition some_faults (op : Pipeline.io_op) : option Pipeline.exn :=
  match op with
  | Pipeline.Fetch Pipeline.crm_sales_details => Some "connection lost"
  | Pipeline.Append Pipeline.erp_location_a101 => Some "disk full"
  | _ => None
  end.


(** Customer demographics without a birth date that parses. *)
Definition undated : list (Az12.row cell) :=
  [Az12.mkrow (Some "NAS123") (CStr "n/a") (Some "M");
   Az12.mkrow (Some "456") CNone (Some "F")].

(** [raw0] with the demographics above. *)
Definition raw1 : Pipeline.bronze :=
  Pipeline.mkbronze two_customers product_history
                    [sale_without_price; sale_inconsistent]
                    undated locations categories.

Definition world1 : Pipeline.world :=
  Pipeline.mkworld raw1 empty_silver [] two_days.

(** Only the append of the customer demographics raises. *)
Definition append_fault (op : Pipeline.io_op) : option Pipeline.exn :=
  match op with
  | Pipeline.Append Pipeline.erp_customer_az12 => Some "table locked"
  | _ => None
  end.

End Cases.

(** ** Vocabulary for further properties of the sales reconciliation *)

Module Reconciled.
Import Calendar Series Sales.

(** The price a row ends up with: the raw price when it is positive; its
    absolute value when it is zero or negative and the quantity can
    divide (present and not zero); zero otherwise. *)
Definition settled_price {D} (r : row D) : Qc :=
  match sls_price r with
  | Some p =>
      if Qc_leb p zero
      then match replace0nan (sls_quantity r) with
           | Some _ => Qcabs p
           | None => zero
           end
      else p
  | None => zero
  end.


End Reconciled.

(** ** Rows on which the arithmetic of the script is exact

    pandas holds a numeric column as [int64] when the table has no
    missing value in it and as [float64] otherwise, so the products and
    quotients of the reconciliation are those of 64-bit integers, which
    wrap around, or of binary floating point, which rounds.  On integers
    of magnitude below 2^53 whose product stays below 2^53 neither
    happens: both types hold such numbers exactly, the product is exact,
    and the only quotient the script keeps, the recomputed amount divided
    by the quantity, is the absolute price, again such an integer.  On
    these rows the exact arithmetic of [Sales] is the arithmetic of the
    script. *)

Module Exact.
Import Series Sales.

Definition limit : Z := 2 ^ 53.

(** The integer a number is, when it is one. *)
Definition as_int (v : Qc) : option Z :=
  if Pos.eqb (Qden v) 1 then Some (Qnum v) else None.

(** Missing, or an integer of magnitude below [limit]. *)
Definition small_int (x : option Qc) : bool :=
  match x with
  | None => true
  | Some v =>
      match as_int v with
      | Some z => Z.abs z <? limit
      | None => false
      end
  end.

(** The integer of a value; 0 when there is none. *)
Definition int_of (x : option Qc) : Z :=
  match x with
  | Some v => match as_int v with Some z => z | None => 0 end
  | None => 0
  end.

(** Quantity, price and amount are missing or integers of magnitude
    below [limit], and so is the product of quantity and price. *)
Definition exact_row {D} (r : row D) : bool :=
  small_int (sls_quantity r) && small_int (sls_price r)
  && small_int (sls_sales r)
  && (Z.abs (int_of (sls_quantity r) * int_of (sls_price r)) <? limit).

End Exact.



(** ** Writing a date in the fixed-width form *)

Module Encode.
Import Calendar.

(** The character of the last decimal digit of [n]. *)
Definition digit_char (n : Z) : ascii := ascii_of_N (Z.to_N (48 + n mod 10)).

(** A date written with the format [%Y%m%d]: four digits of year, two
    of month, two of day. *)
Definition strftime_Ymd (d : date) : string :=
  String (digit_char (year d / 1000))
    (String (digit_char (year d / 100))
      (String (digit_char (year d / 10))
        (String (digit_char (year d))
          (String (digit_char (month d / 10))
            (String (digit_char (month d))
              (String (digit_char (day d / 10))
                (String (digit_char (day d)) EmptyString))))))).

End Encode.

(** ** Vocabulary for the shape of cleaned columns *)

Module Shape.

(** The character occurs in the text. *)
Fixpoint has_char (a : ascii) (s : string) : bool :=
  match s with
  | EmptyString => false
  | String c s' => Ascii.eqb c a || has_char a s'
  end.

(** The text is ASCII: every character has a code below 128.  On such
    text the functions of [Text] are Python's [str] methods; on other
    text, which Python holds as Unicode code points, they are not. *)
Fixpoint is_ascii (s : string) : bool :=
  match s with
  | EmptyString => true
  | String c s' => (N_of_ascii c <? 128)%N && is_ascii s'
  end.

End Shape.

(** ** Vocabulary for further properties of the product pipeline *)

Module ProductShape.
Import Calendar Series Product.

(** The raw row with its [prd_end_dt] blanked. *)
Definition forget_end (r : row cell unit) : row cell unit :=
  mkrow (prd_rest r) (prd_key r) (category_id r) (prd_cost r) (prd_line r)
        (prd_start_dt r) CNone.

(** Two rows that differ at most in [prd_end_dt]. *)
Definition same_but_end {D C} (a b : row D C) : Prop :=
  prd_rest a = prd_rest b /\ prd_key a = prd_key b
  /\ category_id a = category_id b /\ prd_cost a = prd_cost b
  /\ prd_line a = prd_line b /\ prd_start_dt a = prd_start_dt b.

End ProductShape.


(** ** The script as a whole *)

Module Script.
Import Calendar Series Pipeline.
Local Open Scope pipeline_scope.

(** The block at the top of the module: it fetches the six bronze tables
    into global frames that no function reads, inside a [try] whose
    handler prints the failure.  [faults] says which of these fetches
    raise. *)
Definition startup (faults : io_op -> option exn) : M unit :=
  try_except
    (print "🔄 Connecting to SQL Server and fetching tables..." ;;
     _ <- read_sql faults crm_customer_info b_customer_info ;;
     _ <- read_sql faults crm_product_info b_product_info ;;
     _ <- read_sql faults crm_sales_details b_sales_details ;;
     _ <- read_sql faults erp_customer_az12 b_customer_az12 ;;
     _ <- read_sql faults erp_location_a101 b_location_a101 ;;
     _ <- read_sql faults erp_product_category b_product_category ;;
     print "✅ All tables loaded successfully into separate DataFrames.")
    (fun e => print ("❌ Connection failed: " ++ e)%string).

(** Running the file: the block above, then [main(db_engine)].  The
    calls to the store of the two parts fail independently. *)
Definition script (faults0 faults : io_op -> option exn)
           (cleanings : cleaning)
           (to_datetime : cell -> option timestamp) : M unit :=
  startup faults0 ;; main faults cleanings to_datetime.

(** The first fetch of the start-up block that raises. *)
Fixpoint first_fetch_fault (faults : io_op -> option exn) (l : list entity)
  : option exn :=
  match l with
  | [] => None
  | e :: l' =>
      match faults (Fetch e) with
      | Some m => Some m
      | None => first_fetch_fault faults l'
      end
  end.

Definition startup_console (faults : io_op -> option exn) : list string :=
  ["🔄 Connecting to SQL Server and fetching tables...";
   match first_fetch_fault faults all_entities with
   | Some m => ("❌ Connection failed: " ++ m)%string
   | None => "✅ All tables loaded successfully into separate DataFrames."
   end].

(** A world whose cleansed zone holds rows of an earlier run in the
    sales and location tables. *)
Definition stale_world : world :=
  mkworld Cases.raw0
          (mksilver []
                    []
                    (Sales.transform Cases.noon [Cases.sale_inconsistent])
                    []
                    (Location.transform Cases.noon Cases.locations)
                    [])
          [] Cases.two_days.

(** A world whose raw demographics have no birth date that parses, and
    whose cleansed zone holds the demographics of an earlier run. *)
Definition undated_world : world :=
  mkworld Cases.raw1
          (mksilver [] [] []
                    (Az12.transform Sample.to_datetime Cases.noon Cases.noon
                                    [Cases.nas123])
                    [] [])
          [] Cases.two_days.

End Script.


(** * Properties *)

(** ** Sales reconciliation *)

Section SalesFacts.
Import Sales Calendar Series.

Lemma Qc_leb_iff (x y : Qc) : Qc_leb x y = true <-> (x <= y)%Qc.
Proof. unfold Qc_leb, Qcle. apply Qle_bool_iff. Qed.

Lemma Qc_eq_bool_iff (x y : Qc) : Qc_eq_bool x y = true <-> x = y.
Proof.
  split.
  - apply Qc_eq_bool_correct.
  - intros ->. unfold Qc_eq_bool. destruct (Qc_eq_dec y y); congruence.
Qed.

Lemma Qcabs_zero : Qcabs zero = zero.
Proof. apply Qcabs_pos. apply Qcle_refl. Qed.

Lemma Qcabs_idem (x : Qc) : Qcabs (Qcabs x) = Qcabs x.
Proof. apply Qcabs_pos, Qcabs_nonneg. Qed.

Lemma Qcdiv_cancel (q p : Qc) : q <> zero -> Qcdiv (Qcmult q p) q = p.
Proof. intros H. rewrite Qcmult_comm. apply Qcdiv_mult_l. exact H. Qed.

Lemma Qcdiv_zero (q : Qc) : Qcdiv zero q = zero.
Proof. unfold Qcdiv. apply Qcmult_0_l. Qed.

Lemma of_Z_inj (a b : Z) : of_Z a = of_Z b -> a = b.
Proof.
  intros H. apply (f_equal this) in H. unfold of_Z, Q2Qc in H.
  cbn [this] in H.
  rewrite !Qred_identity in H by (simpl; apply Z.gcd_1_r).
  now injection H.
Qed.

(** Whatever the row, the reassigned [sls_sales] is the recomputed
    amount: it is either replaced by it or already equal to it. *)
Lemma fix_sales_value {D} (r : row D) :
  sls_sales (fix_sales r) = Some (calc_sales r).
Proof.
  unfold fix_sales, sales_condition, where_; simpl.
  destruct (sls_sales r) as [s|]; simpl; [|reflexivity].
  destruct (Qc_leb s zero); simpl; [reflexivity|].
  destruct (Qc_eq_bool s (calc_sales r)) eqn:E; simpl; [|reflexivity].
  apply Qc_eq_bool_iff in E. now subst.
Qed.

Lemma reconcile_values {D} (r : row D) :
  exists p,
    sls_sales (reconcile r)
    = Some (Qcmult (fill0 (sls_quantity r)) (Qcabs p))
    /\ sls_price (reconcile r) = Some p
    /\ sls_quantity (reconcile r) = sls_quantity r.
Proof.
  unfold reconcile, fill_sales_price, fix_price, price_condition, calc_price.
  cbn [sls_sales sls_price sls_quantity].
  rewrite fix_sales_value.
  change (sls_price (fix_sales r)) with (sls_price r).
  change (sls_quantity (fix_sales r)) with (sls_quantity r).
  unfold calc_sales, where_.
  destruct (sls_price r) as [p|]; simpl.
  - destruct (Qc_leb p zero) eqn:Hp; simpl.
    + destruct (sls_quantity r) as [q|]; simpl.
      * destruct (Qc_eq_bool q zero) eqn:Hq; simpl.
        -- apply Qc_eq_bool_iff in Hq. subst q.
           exists zero. rewrite !Qcmult_0_l. auto.
        -- exists (Qcabs p). rewrite Qcdiv_cancel, Qcabs_idem; auto.
           intros ->. unfold Qc_eq_bool in Hq.
           destruct (Qc_eq_dec zero zero); congruence.
      * exists zero. rewrite !Qcmult_0_l. auto.
    + exists p. auto.
  - rewrite Qcabs_zero.
    destruct (sls_quantity r) as [q|]; simpl.
    + destruct (Qc_eq_bool q zero) eqn:Hq; simpl.
      * exists zero. rewrite Qcabs_zero. auto.
      * exists (Qcdiv (Qcmult q zero) q). rewrite Qcmult_0_r.
        change (Q2Qc 0) with zero.
        rewrite Qcdiv_zero, Qcabs_zero, Qcmult_0_r. auto.
    + exists zero. rewrite Qcabs_zero. auto.
Qed.

(** With a missing price the recomputed amount is zero, so the amount
    is overwritten with zero and the price derived from it is zero. *)
Lemma reconcile_missing_price {D} (r : row D) :
  sls_price r = None ->
  sls_sales (reconcile r) = Some zero /\ sls_price (reconcile r) = Some zero.
Proof.
  intros Hp.
  unfold reconcile, fill_sales_price, fix_price, price_condition, calc_price.
  cbn [sls_sales sls_price sls_quantity].
  rewrite fix_sales_value.
  change (sls_price (fix_sales r)) with (sls_price r).
  change (sls_quantity (fix_sales r)) with (sls_quantity r).
  unfold calc_sales, where_. rewrite Hp. simpl.
  rewrite Qcabs_zero, Qcmult_0_r. change (Q2Qc 0) with zero.
  split; [reflexivity|].
  destruct (sls_quantity r) as [q|]; simpl; [|reflexivity].
  destruct (Qc_eq_bool q zero); simpl; [reflexivity|].
  now rewrite Qcdiv_zero.
Qed.

Lemma in_transform now df x :
  In x (transform now df) ->
  exists r, In r df /\ body x = reconcile (clean_dates r)
            /\ load_timestamp x = now.
Proof.
  unfold transform, stamp. rewrite !map_map. intros H.
  apply in_map_iff in H. destruct H as (r & <- & Hr).
  exists r. auto.
Qed.

End SalesFacts.

Section SalesClaims.
Import Sales Calendar Series.

Lemma reconcile_missing_quantity {D} (r : row D) :
  sls_quantity r = None ->
  sls_sales (reconcile r) = Some zero /\ sls_quantity (reconcile r) = None.
Proof.
  intros Hq. destruct (reconcile_values r) as (p & Hs & _ & Hq').
  rewrite Hq in Hs, Hq'. simpl in Hs. rewrite Qcmult_0_l in Hs.
  split; assumption.
Qed.

Lemma invariant_needs_quantity {D} (r : row D) :
  sls_quantity r = None -> ~ invariant r.
Proof.
  unfold invariant. intros Hq H.
  destruct (sls_sales r); [|exact H].
  destruct (sls_quantity r); [discriminate|exact H].
Qed.

Lemma invariant_intro {D} (r : row D) s q p :
  sls_sales r = Some s -> sls_quantity r = Some q -> sls_price r = Some p ->
  s = Qcmult q (Qcabs p) -> invariant r.
Proof.
  unfold invariant. intros Hs Hq Hp E.
  destruct (sls_sales r); [|discriminate].
  destruct (sls_quantity r); [|discriminate].
  destruct (sls_price r); [|discriminate].
  congruence.
Qed.

(** C1, as stated, fails on a row whose quantity is missing: quantity
    missing, price 10, amount 20 comes out as amount 0, price 10 and a
    quantity that is still missing, so the equation
    [sls_sales == sls_quantity * |sls_price|] does not hold of it. *)
Lemma sales_invariant_fails_without_quantity :
  let r := reconcile (clean_dates Cases.sale_without_quantity) in
  sls_quantity r = None
  /\ sls_sales r = Some (of_Z 0)
  /\ sls_price r = Some (of_Z 10)
  /\ ~ invariant r.
Proof.
  cbv zeta.
  destruct (reconcile_missing_quantity
              (clean_dates Cases.sale_without_quantity) eq_refl) as [Hs Hq].
  split; [exact Hq|]. split; [exact Hs|]. split.
  - reflexivity.
  - now apply invariant_needs_quantity.
Qed.

(** C1, amended: every row of the reconciled frame is the
    reconciliation of a row of the raw frame, and [sls_sales] and
    [sls_price] are present in it; when the quantity is missing it stays
    missing and [sls_sales] is zero; when the quantity is present and
    the arithmetic of the script is exact on the raw row (quantity,
    price and amount are integers of magnitude below 2^53, as is the
    product of quantity and price), the row satisfies
    [sls_sales = sls_quantity * |sls_price|] exactly. *)
Theorem sales_invariant_after_reconciliation now df x :
  In x (transform now df) ->
  exists r,
    In r df
    /\ body x = reconcile (clean_dates r)
    /\ isna (sls_sales (body x)) = false
    /\ isna (sls_price (body x)) = false
    /\ (sls_quantity (body x) = None -> sls_sales (body x) = Some zero)
    /\ (Exact.exact_row r = true -> sls_quantity (body x) <> None ->
        invariant (body x)).
Proof.
  intros H. apply in_transform in H. destruct H as (r & Hr & -> & _).
  exists r. split; [exact Hr|]. split; [reflexivity|].
  destruct (reconcile_values (clean_dates r)) as (p & Hs & Hp & Hq).
  split; [now rewrite Hs|]. split; [now rewrite Hp|]. split.
  - intros Hnone. rewrite Hs. rewrite Hq in Hnone. rewrite Hnone. simpl.
    now rewrite Qcmult_0_l.
  - intros _ Hne. rewrite Hq in Hne.
    destruct (sls_quantity (clean_dates r)) as [q|] eqn:E; [|congruence].
    now apply (invariant_intro _ (Qcmult q (Qcabs p)) q p).
Qed.

Lemma sales_invariant_after_reconciliation_witness :
  invariant (reconcile (clean_dates Cases.sale_inconsistent)).
Proof.
  destruct (sales_invariant_after_reconciliation
              Cases.noon [Cases.sale_inconsistent]
              (mkstamped (reconcile (clean_dates Cases.sale_inconsistent))
                         Cases.noon))
    as (r & Hr & _ & _ & _ & _ & H).
  - unfold transform, stamp. cbn [map In]. left. reflexivity.
  - destruct Hr as [<-|[]]. apply H.
    + reflexivity.
    + cbn [body].
      destruct (reconcile_values (clean_dates Cases.sale_inconsistent))
        as (p & _ & _ & Hq).
      rewrite Hq. discriminate.
Defined.

(** C4, as stated, fails: for quantity 2, price missing and amount 20
    the reconciled price is not 10. *)
Lemma missing_price_not_recovered :
  sls_price (reconcile (clean_dates Cases.sale_without_price))
  <> Some (of_Z 10).
Proof.
  destruct (reconcile_missing_price
              (clean_dates Cases.sale_without_price) eq_refl) as [_ Hp].
  rewrite Hp. intros H. assert (E : zero = of_Z 10) by congruence.
  apply of_Z_inj in E. discriminate.
Qed.

(** C4, amended: for quantity 2, price missing and amount 20, the
    amount is first overwritten with the recomputed amount
    2 * |0| = 0 (since 20 differs from it), and the price is then
    recomputed from that reconciled amount as 0 / 2 = 0. *)
Theorem missing_price_reconciles_to_zero {D} (r : row D) :
  sls_quantity r = Some (of_Z 2) ->
  sls_price r = None ->
  sls_sales r = Some (of_Z 20) ->
  sls_sales (fix_sales r) = Some (of_Z 0)
  /\ sls_sales (reconcile r) = Some (of_Z 0)
  /\ sls_price (reconcile r) = Some (Qcdiv (of_Z 0) (of_Z 2))
  /\ sls_price (reconcile r) = Some (of_Z 0).
Proof.
  intros Hq Hp Hs.
  destruct (reconcile_missing_price r Hp) as [Hs' Hp'].
  rewrite fix_sales_value. unfold calc_sales. rewrite Hp, Hq. simpl.
  rewrite Qcabs_zero, Qcmult_0_r. change (Q2Qc 0) with zero.
  fold zero. rewrite Qcdiv_zero. auto.
Qed.

Lemma missing_price_reconciles_to_zero_witness :
  sls_price (reconcile Cases.sale_without_price) = Some (of_Z 0).
Proof.
  apply (missing_price_reconciles_to_zero Cases.sale_without_price);
    reflexivity.
Defined.

End SalesClaims.

(** ** The fixed-width date parser *)

Section DateFacts.
Import Sales Calendar Series.




End DateFacts.

(** ** The value normalizer *)

Section NormalizerFacts.
Import Calendar Series.

Lemma replace_lookup table s :
  replace table s = match lookup table s with Some v => v | None => s end.
Proof.
  induction table as [|[k v] table IH]; simpl; [reflexivity|].
  destruct (String.eqb s k); [reflexivity|exact IH].
Qed.

(** C3, as stated, fails: the gender value "x" has no entry in the
    table and comes out as "X", not as "Unknown". *)
Lemma unmapped_gender_passes_through :
  Customer.clean_gndr (Some "x") = Some "X"
  /\ lookup Customer.gender_table (Customer.fold "x") = None
  /\ Customer.clean_gndr (Some "x") <> Some "Unknown"
  /\ normalize Az12.fold Az12.gen_table (Some "x") = Some "X".
Proof. repeat split; try reflexivity. discriminate. Qed.

(** C3, amended: a missing value is mapped to "Unknown"; a value that,
    once trimmed and upper-cased, has an entry in the lookup table is
    mapped to that entry; a value without entry is passed through in
    its trimmed, upper-cased form.  The gender values "m", "MALE",
    " F ", "x" come out as "Male", "Male", "Female", "X". *)
Theorem normalize_categorical fold table (x : option string) :
  (Customer.clean_gndr (Some "m") = Some "Male"
   /\ Customer.clean_gndr (Some "MALE") = Some "Male"
   /\ Customer.clean_gndr (Some " F ") = Some "Female"
   /\ Customer.clean_gndr (Some "x") = Some "X"
   /\ Customer.clean_gndr None = Some "Unknown")
  /\ (x = None -> normalize fold table x = Some "Unknown")
  /\ (forall s v, x = Some s -> lookup table (fold s) = Some v ->
                  normalize fold table x = Some v)
  /\ (forall s, x = Some s -> lookup table (fold s) = None ->
                normalize fold table x = Some (fold s)).
Proof.
  split; [repeat split; reflexivity|].
  unfold normalize. repeat split.
  - intros ->. reflexivity.
  - intros s v -> Hl. simpl. now rewrite replace_lookup, Hl.
  - intros s -> Hl. simpl. now rewrite replace_lookup, Hl.
Qed.

Lemma normalize_categorical_witness :
  normalize Az12.fold Az12.gen_table None = Some "Unknown"
  /\ normalize Az12.fold Az12.gen_table (Some " f ") = Some "Female"
  /\ normalize Az12.fold Az12.gen_table (Some "n/a") = Some "N/A".
Proof.
  split; [|split].
  - destruct (normalize_categorical Az12.fold Az12.gen_table None)
      as (_ & H & _).
    apply H. reflexivity.
  - destruct (normalize_categorical Az12.fold Az12.gen_table (Some " f "))
      as (_ & _ & H & _).
    apply (H " f " "Female"); reflexivity.
  - destruct (normalize_categorical Az12.fold Az12.gen_table (Some "n/a"))
      as (_ & _ & _ & H).
    apply (H "n/a"); reflexivity.
Defined.

End NormalizerFacts.

(** ** Orders, sorting and duplicate removal *)

Section OrderFacts.
Import Series.

Lemma asc_total {K} (leb : K -> K -> bool) : total leb -> total (asc leb).
Proof. intros T [a|] [b|]; simpl; auto. Qed.

Lemma asc_transitive {K} (leb : K -> K -> bool) :
  transitive leb -> transitive (asc leb).
Proof.
  intros T [a|] [b|] [c|]; simpl; auto; try discriminate. apply T.
Qed.

Lemma desc_total {K} (leb : K -> K -> bool) : total leb -> total (desc leb).
Proof. intros T [a|] [b|]; simpl; auto. Qed.

Lemma desc_transitive {K} (leb : K -> K -> bool) :
  transitive leb -> transitive (desc leb).
Proof.
  intros T [a|] [b|] [c|]; simpl; auto; try discriminate.
  intros H1 H2. exact (T _ _ _ H2 H1).
Qed.

Lemma by_key_total {A K} (ord : K -> K -> bool) (k : A -> K) :
  total ord -> total (by_key ord k).
Proof. intros T a b. apply T. Qed.

Lemma by_key_transitive {A K} (ord : K -> K -> bool) (k : A -> K) :
  transitive ord -> transitive (by_key ord k).
Proof. intros T a b c. apply T. Qed.

Lemma lex_total {A} (o1 o2 : A -> A -> bool) :
  total o1 -> total o2 -> total (lex o1 o2).
Proof.
  intros T1 T2 a b. unfold lex.
  destruct (T1 a b) as [H|H], (T2 a b) as [H'|H']; rewrite ?H, ?H';
    destruct (o1 a b), (o1 b a); simpl; auto; discriminate.
Qed.

Lemma lex_transitive {A} (o1 o2 : A -> A -> bool) :
  total o1 -> transitive o1 -> transitive o2 -> transitive (lex o1 o2).
Proof.
  intros T1 R1 R2 a b c. unfold lex.
  pose proof (R1 a b c) as Habc. pose proof (R1 b c a) as Hbca.
  pose proof (R1 c a b) as Hcab. pose proof (R1 c b a) as Hcba.
  pose proof (R1 b a c) as Hbac. pose proof (R1 a c b) as Hacb.
  pose proof (R2 a b c) as H2.
  pose proof (T1 a b) as Tab. pose proof (T1 b c) as Tbc.
  pose proof (T1 a c) as Tac.
  destruct (o1 a b), (o1 b a), (o1 b c), (o1 c b), (o1 a c), (o1 c a);
    simpl; intros; auto;
    try discriminate;
    try (exfalso; intuition discriminate).
Qed.

(** In a lexicographic order, rows with equal first keys are ordered by
    the second key. *)
Lemma lex_tie {A} (o1 o2 : A -> A -> bool) a b :
  o1 a b = true -> o1 b a = true -> lex o1 o2 a b = o2 a b.
Proof. unfold lex. now intros -> ->. Qed.

End OrderFacts.

Section SortFacts.
Import Series.
Context {A : Type} (leb : A -> A -> bool).

Lemma insert_perm x l : Permutation (x :: l) (insert leb x l).
Proof.
  induction l as [|y l IH]; simpl; [reflexivity|].
  destruct (leb x y); [reflexivity|].
  rewrite perm_swap. now constructor.
Qed.

Lemma sort_values_perm l : Permutation l (sort_values leb l).
Proof.
  induction l as [|x l IH]; simpl; [constructor|].
  rewrite <- insert_perm. now constructor.
Qed.

Lemma sort_values_in x l : In x (sort_values leb l) <-> In x l.
Proof.
  split; apply Permutation_in;
    [symmetry|]; apply sort_values_perm.
Qed.

Hypothesis leb_total : total leb.
Hypothesis leb_trans : transitive leb.

Let le (a b : A) : Prop := leb a b = true.

Lemma insert_sorted x l :
  StronglySorted le l -> StronglySorted le (insert leb x l).
Proof.
  induction 1 as [|y l Hl IH Hy]; simpl.
  - repeat constructor.
  - destruct (leb x y) eqn:E.
    + constructor; [now constructor|].
      constructor; [exact E|].
      rewrite Forall_forall in *. intros z Hz.
      apply (leb_trans _ y); [exact E|now apply Hy].
    + constructor; [exact IH|].
      rewrite Forall_forall in *. intros z Hz.
      apply (Permutation_in _ (Permutation_sym (insert_perm x l))) in Hz.
      destruct Hz as [<-|Hz]; [|now apply Hy].
      destruct (leb_total x y) as [H|H]; [congruence|exact H].
Qed.

Lemma sort_values_sorted l : StronglySorted le (sort_values leb l).
Proof.
  induction l as [|x l IH]; simpl; [constructor|].
  now apply insert_sorted.
Qed.

(** In a sorted frame a row is below every row that comes after it. *)
Lemma sorted_app_le l1 x l2 y :
  StronglySorted le (l1 ++ x :: l2) -> In y (x :: l2) -> leb x y = true.
Proof.
  induction l1 as [|z l1 IH]; simpl; intros S Hy.
  - inversion S as [|? ? _ F]; subst.
    destruct Hy as [<-|Hy].
    + destruct (leb_total x x); assumption.
    + rewrite Forall_forall in F. now apply F.
  - inversion S; subst. now apply IH.
Qed.

End SortFacts.

Section DedupFacts.
Import Series.
Context {A K : Type} (eqb : K -> K -> bool) (k : A -> K).
Hypothesis eqb_eq : forall a b, eqb a b = true <-> a = b.

Lemma existsb_seen key seen : existsb (eqb key) seen = true <-> In key seen.
Proof.
  rewrite existsb_exists. split.
  - intros (y & Hy & E). apply eqb_eq in E. now subst.
  - intros H. exists key. split; [exact H|now apply eqb_eq].
Qed.

Lemma drop_from_in x seen l :
  In x (drop_duplicates_from eqb k seen l) -> In x l /\ ~ In (k x) seen.
Proof.
  revert seen. induction l as [|r l IH]; simpl; intros seen H; [tauto|].
  destruct (existsb (eqb (k r)) seen) eqn:E.
  - apply IH in H. tauto.
  - destruct H as [<-|H].
    + split; [now left|]. intros Hin. apply existsb_seen in Hin. congruence.
    + apply IH in H. simpl in H. tauto.
Qed.

(** A kept row is the first row of the frame with its key. *)
Lemma drop_from_first x seen l :
  In x (drop_duplicates_from eqb k seen l) ->
  exists l1 l2, l = l1 ++ x :: l2 /\ forall y, In y l1 -> k y <> k x.
Proof.
  revert seen. induction l as [|r l IH]; simpl; intros seen H; [tauto|].
  destruct (existsb (eqb (k r)) seen) eqn:E.
  - pose proof (drop_from_in _ _ _ H) as [_ Hx].
    destruct (IH _ H) as (l1 & l2 & -> & Hl1).
    exists (r :: l1), l2. split; [reflexivity|].
    intros y [<-|Hy]; [|now apply Hl1].
    apply existsb_seen in E. congruence.
  - destruct H as [<-|H].
    + exists [], l. split; [reflexivity|]. intros y [].
    + pose proof (drop_from_in _ _ _ H) as [_ Hx].
      destruct (IH _ H) as (l1 & l2 & -> & Hl1).
      exists (r :: l1), l2. split; [reflexivity|].
      intros y [<-|Hy]; [|now apply Hl1].
      intros Heq. apply Hx. now left.
Qed.

Lemma drop_from_nodup seen l :
  NoDup (map k (drop_duplicates_from eqb k seen l)).
Proof.
  revert seen. induction l as [|r l IH]; simpl; intros seen; [constructor|].
  destruct (existsb (eqb (k r)) seen) eqn:E; [apply IH|].
  simpl. constructor; [|apply IH].
  intros Hin. apply in_map_iff in Hin. destruct Hin as (y & Hy & Hin).
  apply drop_from_in in Hin. destruct Hin as [_ Hin].
  apply Hin. left. congruence.
Qed.

(** Every key of the frame that was not seen before keeps a row. *)
Lemma drop_from_complete x seen l :
  In x l -> ~ In (k x) seen ->
  exists y, In y (drop_duplicates_from eqb k seen l) /\ k y = k x.
Proof.
  revert seen. induction l as [|r l IH]; simpl; intros seen H Hs; [tauto|].
  destruct (existsb (eqb (k r)) seen) eqn:E.
  - destruct H as [->|H].
    + apply existsb_seen in E. tauto.
    + destruct (IH _ H Hs) as (y & Hy & Ey). eauto.
  - destruct H as [->|H]; [exists x; simpl; auto|].
    destruct (eqb (k r) (k x)) eqn:Erx.
    + apply eqb_eq in Erx. exists r. simpl. auto.
    + assert (Hs' : ~ In (k x) (k r :: seen)).
      { intros [Heq|Hin]; [|tauto].
        assert (eqb (k r) (k x) = true) by now apply eqb_eq.
        congruence. }
      destruct (IH _ H Hs') as (y & Hy & Ey).
      exists y. simpl. auto.
Qed.

Lemma nodup_key_unique (l : list A) x y :
  NoDup (map k l) -> In x l -> In y l -> k x = k y -> x = y.
Proof.
  induction l as [|r l IH]; simpl; intros N Hx Hy E; [tauto|].
  inversion N as [|? ? Hr N']; subst.
  destruct Hx as [->|Hx], Hy as [->|Hy]; auto.
  - exfalso. apply Hr. rewrite E. now apply in_map.
  - exfalso. apply Hr. rewrite <- E. now apply in_map.
Qed.

End DedupFacts.

Section BaseOrders.
Import Series Calendar.

Lemma option_eqb_eq {K} (eqb : K -> K -> bool) :
  (forall a b, eqb a b = true <-> a = b) ->
  forall x y, option_eqb eqb x y = true <-> x = y.
Proof.
  intros H [a|] [b|]; simpl; try (split; congruence).
  rewrite H. split; congruence.
Qed.

Lemma dropna_in {A K} (k : A -> option K) df r :
  In r (dropna k df) <-> In r df /\ k r <> None.
Proof.
  unfold dropna. rewrite filter_In.
  destruct (k r); simpl; split; intros [? ?]; split; congruence.
Qed.

Lemma Z_leb_total : total Z.leb.
Proof. intros a b. rewrite !Z.leb_le. lia. Qed.

Lemma Z_leb_transitive : transitive Z.leb.
Proof. intros a b c. rewrite !Z.leb_le. lia. Qed.

Lemma date_leb_iff a b :
  date_leb a b = true <->
  (year a < year b
   \/ (year a = year b
       /\ (month a < month b \/ (month a = month b /\ day a <= day b)))).
Proof.
  unfold date_leb, date_ltb, date_eqb.
  rewrite !orb_true_iff, !andb_true_iff, !orb_true_iff, !andb_true_iff,
    !Z.ltb_lt, !Z.eqb_eq.
  lia.
Qed.

Lemma date_leb_total : total date_leb.
Proof. intros a b. rewrite !date_leb_iff. lia. Qed.

Lemma date_leb_transitive : transitive date_leb.
Proof. intros a b c. rewrite !date_leb_iff. lia. Qed.

Lemma string_leb_transitive : transitive String.leb.
Proof.
  intros a. induction a as [|ca a IH]; intros [|cb b] [|cc c];
    unfold String.leb; simpl; try congruence.
  destruct (Ascii.compare ca cb) eqn:E1; try discriminate;
    destruct (Ascii.compare cb cc) eqn:E2; try discriminate.
  - apply Ascii.compare_eq_iff in E1, E2. subst.
    assert (Ascii.compare cc cc = Eq) as ->
        by (unfold Ascii.compare; apply N.compare_refl).
    exact (IH b c).
  - apply Ascii.compare_eq_iff in E1. subst. now rewrite E2.
  - apply Ascii.compare_eq_iff in E2. subst. now rewrite E1.
  - unfold Ascii.compare in *. rewrite N.compare_lt_iff in *.
    assert (H : (N_of_ascii ca < N_of_ascii cc)%N) by lia.
    apply N.compare_lt_iff in H. now rewrite H.
Qed.

Lemma string_leb_total : total String.leb.
Proof. intros a b. apply String.leb_total. Qed.

End BaseOrders.

(** ** Customer demographics: duplicates are removed on the raw key *)

Section KeptFacts.
Import Series.
Context {A K : Type} (eqb : K -> K -> bool) (k : A -> option K).
Hypothesis eqb_eq : forall a b, eqb a b = true <-> a = b.

(** After [dropna] and [drop_duplicates] on the same column the keys of
    the rows kept are pairwise distinct, every row kept is a keyed row of
    the frame, and every key of the frame keeps a row. *)
Lemma kept_rows df :
  NoDup (map k (drop_duplicates (option_eqb eqb) k (dropna k df)))
  /\ (forall r, In r (drop_duplicates (option_eqb eqb) k (dropna k df)) ->
                In r df /\ k r <> None)
  /\ (forall r, In r df -> k r <> None ->
                exists r', In r' (drop_duplicates (option_eqb eqb) k
                                                  (dropna k df))
                           /\ k r' = k r).
Proof.
  unfold drop_duplicates. split; [|split].
  - apply drop_from_nodup. apply option_eqb_eq, eqb_eq.
  - intros r Hr.
    apply (drop_from_in _ _ (option_eqb_eq eqb eqb_eq)) in Hr.
    destruct Hr as [Hr _]. now apply dropna_in in Hr.
  - intros r Hr Hk.
    apply (drop_from_complete _ _ (option_eqb_eq eqb eqb_eq) r []).
    + apply dropna_in. now split.
    + intros [].
Qed.

End KeptFacts.

Section Az12Facts.
Import Calendar Series Az12.
Variable to_datetime : cell -> option timestamp.

(** C10: duplicates are removed on the raw [cid], before the prefix
    [NAS] is cut off.  Of any frame, the rows kept have pairwise
    distinct raw keys and every raw key keeps a row; a second row with
    the raw key "NAS123" is dropped.  The cut comes after: a frame with
    the raw keys "NAS123" and "123" keeps both rows, and both come out
    with the key "123". *)
Theorem az12_duplicates_after_prefix_strip today (df : list (row cell))
        (r1 r2 r3 : row cell) :
  cid r1 = Some "NAS123" ->
  cid r2 = Some "123" ->
  cid r3 = Some "NAS123" ->
  (exists kept,
      cleanse to_datetime today df = map (clean_row to_datetime today) kept
      /\ NoDup (map cid kept)
      /\ (forall r, In r kept -> In r df /\ cid r <> None)
      /\ (forall r, In r df -> cid r <> None ->
                    exists r', In r' kept /\ cid r' = cid r))
  /\ cleanse to_datetime today [r1; r3; r2]
     = [clean_row to_datetime today r1; clean_row to_datetime today r2]
  /\ drop_duplicates (option_eqb String.eqb) cid (dropna cid [r1; r2])
     = [r1; r2]
  /\ map cid (cleanse to_datetime today [r1; r2]) = [Some "123"; Some "123"]
  /\ map cid (cleanse to_datetime today [r2; r1]) = [Some "123"; Some "123"]
  /\ ~ NoDup (map cid (cleanse to_datetime today [r1; r2])).
Proof.
  intros H1 H2 H3.
  assert (E : map cid (cleanse to_datetime today [r1; r2])
              = [Some "123"; Some "123"]).
  { unfold cleanse, dropna, drop_duplicates.
    repeat (progress (simpl; rewrite ?H1, ?H2)). reflexivity. }
  split; [|split; [|split; [|split; [|split]]]].
  - exists (drop_duplicates (option_eqb String.eqb) cid (dropna cid df)).
    split; [reflexivity|].
    apply (kept_rows String.eqb cid String.eqb_eq).
  - unfold cleanse, dropna, drop_duplicates.
    repeat (progress (simpl; rewrite ?H1, ?H2, ?H3)). reflexivity.
  - unfold dropna, drop_duplicates.
    repeat (progress (simpl; rewrite ?H1, ?H2)). reflexivity.
  - exact E.
  - unfold cleanse, dropna, drop_duplicates.
    repeat (progress (simpl; rewrite ?H1, ?H2)). reflexivity.
  - rewrite E. intros N. inversion N as [|? ? Hin _]. apply Hin. now left.
Qed.

End Az12Facts.

Lemma az12_duplicates_after_prefix_strip_witness :
  Az12.cleanse Sample.to_datetime (Calendar.ts_date Cases.noon)
               [Cases.nas123;
                Az12.mkrow (Some "NAS123") (Series.CStr "2001-01-01")
                           (Some "F");
                Cases.plain123]
  = [Az12.clean_row Sample.to_datetime (Calendar.ts_date Cases.noon)
                    Cases.nas123;
     Az12.clean_row Sample.to_datetime (Calendar.ts_date Cases.noon)
                    Cases.plain123]
  /\ map Az12.cid
         (Az12.cleanse Sample.to_datetime (Calendar.ts_date Cases.noon)
                       [Cases.nas123; Cases.plain123])
     = [Some "123"; Some "123"].
Proof.
  destruct (az12_duplicates_after_prefix_strip
              Sample.to_datetime (Calendar.ts_date Cases.noon) []
              Cases.nas123 Cases.plain123
              (Az12.mkrow (Some "NAS123") (Series.CStr "2001-01-01")
                          (Some "F"))
              eq_refl eq_refl eq_refl) as (_ & A & _ & B & _).
  split; [exact A|exact B].
Defined.

(** ** Customer deduplication *)

Section CustomerFacts.
Import Series Calendar Customer.
Variable to_datetime : cell -> option timestamp.

Lemma order_total : total order.
Proof.
  apply lex_total; apply by_key_total.
  - apply asc_total, Z_leb_total.
  - apply desc_total, date_leb_total.
Qed.

Lemma order_transitive : transitive order.
Proof.
  apply lex_transitive.
  - apply by_key_total, asc_total, Z_leb_total.
  - apply by_key_transitive, asc_transitive, Z_leb_transitive.
  - apply by_key_transitive, desc_transitive, date_leb_transitive.
Qed.

Lemma order_same_key a b :
  cust_id a = cust_id b -> cust_id a <> None ->
  order a b = desc date_leb (cst_create_date a) (cst_create_date b).
Proof.
  intros E N. unfold order. rewrite lex_tie; [reflexivity| |];
    unfold by_key; rewrite <- E; destruct (cust_id a); try congruence;
    simpl; apply Z.leb_refl.
Qed.

Let parsed (r : row cell) : option date :=
  option_map ts_date (to_datetime (cst_create_date r)).

Lemma in_sorted r df :
  In r (sort_values order (map (convert_date to_datetime) (dropna cust_id df)))
  <-> exists r0, In r0 df /\ cust_id r0 <> None
                 /\ r = convert_date to_datetime r0.
Proof.
  rewrite sort_values_in, in_map_iff. split.
  - intros (r0 & <- & H). apply dropna_in in H. exists r0. tauto.
  - intros (r0 & H & N & ->). exists r0. split; [reflexivity|].
    apply dropna_in. tauto.
Qed.

Lemma in_deduplicate r df :
  In r (deduplicate to_datetime df) ->
  exists r0, In r0 df /\ cust_id r0 <> None
             /\ r = convert_date to_datetime r0.
Proof.
  unfold deduplicate, drop_duplicates. intros H.
  apply drop_from_in in H; [|apply option_eqb_eq, Z.eqb_eq].
  destruct H as [H _]. now apply in_sorted.
Qed.

Lemma deduplicate_nodup df :
  NoDup (map cust_id (deduplicate to_datetime df)).
Proof.
  unfold deduplicate, drop_duplicates.
  apply drop_from_nodup. apply option_eqb_eq, Z.eqb_eq.
Qed.

(** The kept row of a key is a first row of the sorted frame, hence it
    is, among the rows of its key, first in the descending order of
    the creation date. *)
Lemma deduplicate_latest r df r0 :
  In r (deduplicate to_datetime df) ->
  In r0 df -> cust_id r0 = cust_id r ->
  desc date_leb (cst_create_date r) (parsed r0) = true.
Proof.
  intros H H0 E.
  destruct (in_deduplicate _ _ H) as (r1 & _ & N1 & Hr1).
  assert (Nr : cust_id r <> None) by now subst r.
  unfold deduplicate, drop_duplicates in H.
  apply drop_from_first in H; [|apply option_eqb_eq, Z.eqb_eq].
  destruct H as (l1 & l2 & Hl & Hfirst).
  assert (Hin : In (convert_date to_datetime r0) (l1 ++ r :: l2)).
  { rewrite <- Hl. apply in_sorted. exists r0. repeat split; congruence. }
  apply in_app_or in Hin. destruct Hin as [Hin|Hin].
  - exfalso. apply (Hfirst _ Hin). exact E.
  - pose proof (sort_values_sorted order order_total order_transitive
                  (map (convert_date to_datetime) (dropna cust_id df))) as S.
    rewrite Hl in S.
    pose proof (sorted_app_le order order_total _ _ _ _ S Hin) as Hle.
    rewrite order_same_key in Hle; [exact Hle| |exact Nr].
    symmetry. exact E.
Qed.

(** Every key of the raw frame keeps a row. *)
Lemma deduplicate_complete df r0 :
  In r0 df -> cust_id r0 <> None ->
  exists r, In r (deduplicate to_datetime df) /\ cust_id r = cust_id r0.
Proof.
  intros H N. unfold deduplicate, drop_duplicates.
  destruct (drop_from_complete (option_eqb Z.eqb) cust_id
              (option_eqb_eq Z.eqb Z.eqb_eq)
              (convert_date to_datetime r0) []
              (sort_values order
                 (map (convert_date to_datetime) (dropna cust_id df))))
    as (r & Hr & E).
  - apply in_sorted. exists r0. auto.
  - intros [].
  - exists r. auto.
Qed.

Lemma in_customer_transform now df x :
  In x (transform to_datetime now df) <->
  exists r, In r (deduplicate to_datetime df)
            /\ x = mkstamped (clean_text r) now.
Proof.
  unfold transform, stamp. rewrite map_map, in_map_iff.
  split; intros (r & H1 & H2); exists r; auto.
Qed.

(** C7: the customer that survives deduplication is, among the input
    records of its [cust_id], the one with the largest creation date
    (a missing date counting as the smallest), and it is the only
    survivor of that key; every key of the input has a survivor.
    [desc date_leb d d' = true] reads: [d'] is missing, or both are
    dates and [d'] is not after [d].  Of two
    records with the same key created 2024-01-01 and 2024-06-01 the
    survivor is the one of 2024-06-01. *)
Theorem customer_dedup_keeps_latest now df x :
  In x (transform to_datetime now df) ->
  (exists r, In r df /\ cust_id r = cust_id (body x)
             /\ parsed r = cst_create_date (body x))
  /\ (forall y, In y (transform to_datetime now df) ->
                cust_id (body y) = cust_id (body x) -> y = x)
  /\ (forall r, In r df -> cust_id r = cust_id (body x) ->
                desc date_leb (cst_create_date (body x)) (parsed r) = true)
  /\ (forall r, In r df -> cust_id r <> None ->
                exists y, In y (transform to_datetime now df)
                          /\ cust_id (body y) = cust_id r)
  /\ map (fun y => cst_create_date (body y))
         (transform Sample.to_datetime Cases.noon Cases.two_customers)
     = [Some (mkdate 2024 6 1)].
Proof.
  intros H. apply in_customer_transform in H. destruct H as (r & Hr & ->).
  cbn [body]. change (cust_id (clean_text r)) with (cust_id r).
  change (cst_create_date (clean_text r)) with (cst_create_date r).
  repeat split.
  - destruct (in_deduplicate _ _ Hr) as (r0 & H0 & _ & ->).
    exists r0. auto.
  - intros y Hy E. apply in_customer_transform in Hy.
    destruct Hy as (r' & Hr' & ->). cbn [body] in E.
    change (cust_id (clean_text r')) with (cust_id r') in E.
    f_equal. f_equal.
    apply (nodup_key_unique cust_id (deduplicate to_datetime df));
      auto using deduplicate_nodup.
  - intros r0 H0 E. now apply (deduplicate_latest r df r0).
  - intros r0 H0 N. destruct (deduplicate_complete df r0 H0 N) as (r' & Hr' & E).
    exists (mkstamped (clean_text r') now). split; [|exact E].
    apply in_customer_transform. exists r'. auto.
Qed.

End CustomerFacts.

Lemma customer_dedup_keeps_latest_witness :
  Series.desc Calendar.date_leb (Some (Calendar.mkdate 2024 6 1))
              (Some (Calendar.mkdate 2024 1 1)) = true.
Proof.
  destruct (customer_dedup_keeps_latest Sample.to_datetime Cases.noon
              Cases.two_customers
              (hd (Series.mkstamped
                     (Customer.mkrow None [] None None None None None)
                     Cases.noon)
                  (Customer.transform Sample.to_datetime Cases.noon
                                      Cases.two_customers)))
    as (_ & _ & H & _).
  - left. reflexivity.
  - apply (H (hd (Customer.mkrow None [] None None None None Series.CNone)
                 Cases.two_customers)).
    + left. reflexivity.
    + reflexivity.
Defined.

(** ** Product validity windows *)

Section ProductFacts.
Import Series Calendar Product.
Variable to_datetime : cell -> option timestamp.

Lemma product_order_total {C} : total (@order C).
Proof.
  apply lex_total; apply by_key_total.
  - apply asc_total, string_leb_total.
  - apply asc_total, date_leb_total.
Qed.

Lemma product_order_transitive {C} : transitive (@order C).
Proof.
  apply lex_transitive.
  - apply by_key_total, asc_total, string_leb_total.
  - apply by_key_transitive, asc_transitive, string_leb_transitive.
  - apply by_key_transitive, asc_transitive, date_leb_transitive.
Qed.

Let of_key (key : string) {D C} (r : row D C) : bool :=
  option_eqb String.eqb (prd_key r) (Some key).

Lemma of_key_iff key {D C} (r : row D C) :
  of_key key r = true <-> prd_key r = Some key.
Proof. apply option_eqb_eq, String.eqb_eq. Qed.

Lemma product_order_same_key {C} key (a b : row (option date) C) :
  prd_key a = Some key -> prd_key b = Some key ->
  order a b = asc date_leb (prd_start_dt a) (prd_start_dt b).
Proof.
  intros Ha Hb. unfold order. rewrite lex_tie; [reflexivity| |];
    unfold by_key; rewrite Ha, Hb; simpl;
    destruct (string_leb_total key key); assumption.
Qed.

(** [shift(-1)] within a group reads the first later row of the
    group. *)
Lemma next_in_group_head {C} key (l : list (row (option date) C)) :
  next_in_group (option_eqb String.eqb) prd_key prd_start_dt (Some key) l
  = match lineage key l with
    | [] => None
    | r :: _ => prd_start_dt r
    end.
Proof.
  unfold lineage. induction l as [|r l IH]; simpl; [reflexivity|].
  destruct (option_eqb String.eqb (prd_key r) (Some key)); [reflexivity|].
  exact IH.
Qed.

(** Step 8 touches neither the key nor the start date. *)
Lemma lineage_derive_starts {C} key (l : list (row (option date) C)) :
  map prd_start_dt (lineage key (derive_end_dates l))
  = map prd_start_dt (lineage key l).
Proof.
  unfold lineage. induction l as [|r l IH]; simpl; [reflexivity|].
  destruct (option_eqb String.eqb (prd_key r) (Some key)); simpl;
    now rewrite IH.
Qed.

Lemma lineage_in {D C} key (l : list (row D C)) r :
  In r (lineage key l) <-> In r l /\ prd_key r = Some key.
Proof.
  unfold lineage. rewrite filter_In.
  now rewrite (option_eqb_eq String.eqb String.eqb_eq).
Qed.

Lemma windowed_derive {C} key (l : list (row (option date) C)) :
  StronglySorted (fun a b => order a b = true) l ->
  windowed (lineage key (derive_end_dates l)).
Proof.
  induction 1 as [|r l S IH F]; [exact I|].
  pose proof (lineage_derive_starts key l) as Hst.
  pose proof (next_in_group_head key l) as Hnext.
  unfold lineage in *. simpl.
  destruct (option_eqb String.eqb (prd_key r) (Some key)) eqn:Hk;
    [|exact IH].
  apply (option_eqb_eq String.eqb String.eqb_eq) in Hk.
  simpl. split; [|exact IH].
  unfold derived_end. rewrite Hk, Hnext.
  destruct (filter _ (derive_end_dates l)) as [|r' g'] eqn:Eout;
    destruct (filter _ l) as [|r0 g0] eqn:Ein; simpl in Hst;
    try discriminate; simpl; [reflexivity|].
  injection Hst as Hst _. rewrite Hst. split; [reflexivity|].
  assert (Hr0 : In r0 l /\ prd_key r0 = Some key).
  { apply lineage_in. unfold lineage. rewrite Ein. now left. }
  destruct Hr0 as [Hin Hk0].
  rewrite Forall_forall in F. specialize (F _ Hin).
  now rewrite (product_order_same_key key) in F.
Qed.

Lemma filter_perm {A} (p : A -> bool) l l' :
  Permutation l l' -> Permutation (filter p l) (filter p l').
Proof.
  induction 1; simpl.
  - constructor.
  - destruct (p x); [now constructor|assumption].
  - destruct (p x), (p y); try reflexivity. apply perm_swap.
  - etransitivity; eassumption.
Qed.

Let parsed_start (r : row cell unit) : option date :=
  option_map ts_date (to_datetime (prd_start_dt r)).

Lemma lineage_convert key (df : list (row cell unit)) :
  map prd_start_dt
      (lineage key (map (convert_dates to_datetime) (dropna prd_key df)))
  = map parsed_start (lineage key df).
Proof.
  unfold lineage, dropna. induction df as [|r df IH]; simpl; [reflexivity|].
  destruct (prd_key r) as [k|] eqn:Hk; simpl; rewrite ?Hk; simpl.
  - destruct (String.eqb k key); simpl; now rewrite IH.
  - exact IH.
Qed.

(** C5: after the validity windows are derived, the rows of every
    lineage (every raw [prd_key]) stand in ascending order of their
    start date, each row ends the day before its successor in the
    lineage starts, and the last row of the lineage has no end date.
    No version is lost, and the cleaned frame carries these dates row
    by row.  The lineage AA-BB with the start dates 2021-01-01 and
    2022-01-01 gets the end dates 2021-12-31 and missing. *)
Theorem scd_window_per_lineage now df key :
  windowed (lineage key (scd_windows to_datetime df))
  /\ Permutation
       (map prd_start_dt (lineage key (scd_windows to_datetime df)))
       (map parsed_start (lineage key df))
  /\ map (fun x => (prd_start_dt (body x), prd_end_dt (body x)))
         (transform to_datetime now df)
     = map (fun r => (prd_start_dt r, prd_end_dt r))
           (scd_windows to_datetime df)
  /\ map (fun r => (prd_start_dt r, prd_end_dt r))
         (lineage "AA-BB"
                  (scd_windows Sample.to_datetime Cases.product_history))
     = [(Some (mkdate 2021 1 1), Some (mkdate 2021 12 31));
        (Some (mkdate 2022 1 1), None)].
Proof.
  split; [|split; [|split]].
  - unfold scd_windows. apply windowed_derive.
    apply sort_values_sorted;
      [apply product_order_total|apply product_order_transitive].
  - unfold scd_windows. rewrite lineage_derive_starts.
    rewrite <- lineage_convert. apply Permutation_map.
    unfold lineage. apply filter_perm. symmetry. apply sort_values_perm.
  - unfold transform, stamp. rewrite !map_map. reflexivity.
  - reflexivity.
Qed.

End ProductFacts.
Section CalendarFacts.
Import Calendar.

Lemma days_before_year_step y :
  days_before_year (y + 1)
  = days_before_year y + (if is_leap y then 366 else 365).
Proof.
  unfold days_before_year, is_leap.
  replace (y + 1 - 1) with y by lia.
  destruct (y mod 4 =? 0) eqn:E4; destruct (y mod 100 =? 0) eqn:E100;
    destruct (y mod 400 =? 0) eqn:E400; simpl;
    rewrite ?Z.eqb_eq, ?Z.eqb_neq in *; 
    Z.to_euclidean_division_equations; lia.
Qed.

(** [minus_one_day] steps back exactly one day of the calendar. *)
Lemma minus_one_day_ordinal d :
  valid_date d = true ->
  toordinal (minus_one_day d) = toordinal d - 1.
Proof.
  destruct d as [y m dd]. unfold valid_date, minus_one_day, toordinal. simpl.
  rewrite !andb_true_iff, !Z.leb_le. intros (((((Hy1 & Hy2) & Hm1) & Hm2) & Hd1) & Hd2).
  destruct (1 <? dd) eqn:Ed; simpl; [lia|].
  apply Z.ltb_ge in Ed. assert (dd = 1) by lia. subst dd.
  destruct (1 <? m) eqn:Em; simpl.
  - apply Z.ltb_lt in Em.
    assert (Hm : m = 2 \/ m = 3 \/ m = 4 \/ m = 5 \/ m = 6 \/ m = 7 \/ m = 8
                 \/ m = 9 \/ m = 10 \/ m = 11 \/ m = 12) by lia.
    unfold days_before_month.
    destruct Hm as [->|[->|[->|[->|[->|[->|[->|[->|[->|[->| ->]]]]]]]]]];
      simpl; unfold days_in_month; simpl; destruct (is_leap y); lia.
  - apply Z.ltb_ge in Em. assert (m = 1) by lia. subst m.
    pose proof (days_before_year_step (y - 1)) as Hs.
    replace (y - 1 + 1) with y in Hs by lia. rewrite Hs.
    unfold days_before_month. simpl. unfold days_in_month. simpl.
    destruct (is_leap (y - 1)); lia.
Qed.
End CalendarFacts.

(** ** Business keys of the cleansed frames *)

Section KeyFacts.
Import Series Calendar.
Variable to_datetime : cell -> option timestamp.

Lemma derive_end_dates_in {C} (l : list (Product.row (option date) C)) r :
  In r (Product.derive_end_dates l) ->
  exists r0, In r0 l /\ Product.prd_key r = Product.prd_key r0.
Proof.
  induction l as [|a l IH]; simpl; [tauto|].
  intros [<-|H].
  - exists a. auto.
  - destruct (IH H) as (r0 & H0 & E). eauto.
Qed.

Lemma scd_windows_key df r :
  In r (Product.scd_windows to_datetime df) -> Product.prd_key r <> None.
Proof.
  unfold Product.scd_windows. intros H.
  apply derive_end_dates_in in H. destruct H as (r0 & H0 & ->).
  apply sort_values_in, in_map_iff in H0. destruct H0 as (r1 & <- & H1).
  apply dropna_in in H1. tauto.
Qed.



End KeyFacts.


(** ** The orchestrator: failures stay inside one entity *)

Section PipelineFacts.
Import Series Calendar Pipeline.
Variable faults : io_op -> option exn.
Variable cleanings : cleaning.
Variable to_datetime : cell -> option timestamp.

(** One outcome of a pipeline, [j] readings of the clock after its
    start. *)
Ltac settle j :=
  exists j; eexists;
  (split; [reflexivity|]); cbn [raw_zone console cleansed_zone clock];
  (split; [reflexivity|]); (split; [reflexivity|]);
  (split; [cbn; lia|]);
  (split; [intros; reflexivity|]);
  (split; [intros e' Hne; destruct e'; try reflexivity; congruence|]);
  split;
  [ intros Hf;
    first [discriminate | cbn; exists 0%nat; split; [lia|reflexivity]]
  | split; [|split; [|split]]; intros; try congruence; reflexivity ].

Ltac outcome :=
  cbv beta iota;
  first [solve [settle 0%nat] | solve [settle 1%nat] | solve [settle 2%nat]].

Ltac pipeline_cases e raises :=
  unfold try_except, bind, read_sql, may_raise, truncate, to_sql, storage,
    write, now, loaded, failed, print, outcome_line, first_fault,
    fault_effect, cleaning_fault;
  cbv beta iota;
  destruct (faults (Fetch e)) as [m1|];
    [outcome
    |cbv beta iota; destruct raises as [m2|];
      [outcome
      |cbv beta iota; destruct (faults (Truncate e)) as [m3|];
        [outcome
        |cbv beta iota; destruct (faults (Append e)) as [m4|]; outcome]]].

Lemma load_crm_customer_info_isolated :
  isolated faults cleanings to_datetime crm_customer_info
           (load_crm_customer_info faults cleanings to_datetime).
Proof.
  unfold isolated, load_crm_customer_info. intros w.
  pipeline_cases crm_customer_info
    (customer_info_raises cleanings (b_customer_info (raw_zone w))).
Qed.

Lemma load_crm_product_info_isolated :
  isolated faults cleanings to_datetime crm_product_info
           (load_crm_product_info faults cleanings to_datetime).
Proof.
  unfold isolated, load_crm_product_info. intros w.
  pipeline_cases crm_product_info
    (product_info_raises cleanings (b_product_info (raw_zone w))).
Qed.

Lemma load_crm_sales_details_isolated :
  isolated faults cleanings to_datetime crm_sales_details
           (load_crm_sales_details faults cleanings).
Proof.
  unfold isolated, load_crm_sales_details. intros w.
  pipeline_cases crm_sales_details
    (sales_details_raises cleanings (b_sales_details (raw_zone w))).
Qed.

Lemma load_erp_customer_az12_isolated :
  isolated faults cleanings to_datetime erp_customer_az12
           (load_erp_customer_az12 faults cleanings to_datetime).
Proof.
  unfold isolated, load_erp_customer_az12. intros w.
  unfold try_except, bind, read_sql, may_raise, truncate, to_sql, storage,
    write, now, loaded, failed, print, outcome_line, first_fault,
    fault_effect, cleaning_fault.
  cbv beta iota.
  destruct (faults (Fetch erp_customer_az12)) as [m1|]; [outcome|].
  cbv beta iota.
  destruct (customer_az12_raises_before_today cleanings
              (b_customer_az12 (raw_zone w))) as [m2|]; [outcome|].
  cbv beta iota. cbn [raw_zone].
  destruct (customer_az12_raises_after_today cleanings
              (b_customer_az12 (raw_zone w))) as [m3|]; [outcome|].
  cbv beta iota.
  destruct (faults (Truncate erp_customer_az12)) as [m4|]; [outcome|].
  cbv beta iota.
  destruct (faults (Append erp_customer_az12)) as [m5|]; outcome.
Qed.

Lemma load_erp_location_a101_isolated :
  isolated faults cleanings to_datetime erp_location_a101
           (load_erp_location_a101 faults cleanings).
Proof.
  unfold isolated, load_erp_location_a101. intros w.
  pipeline_cases erp_location_a101
    (location_a101_raises cleanings (b_location_a101 (raw_zone w))).
Qed.

Lemma load_erp_product_category_isolated :
  isolated faults cleanings to_datetime erp_product_category
           (load_erp_product_category faults cleanings).
Proof.
  unfold isolated, load_erp_product_category. intros w.
  pipeline_cases erp_product_category
    (product_category_raises cleanings (b_product_category (raw_zone w))).
Qed.

Lemma table_eq_trans e s1 s2 s3 :
  table_eq e s1 s2 -> table_eq e s2 s3 -> table_eq e s1 s3.
Proof. destruct e; simpl; congruence. Qed.

Lemma table_eq_refl e s : table_eq e s s.
Proof. destruct e; reflexivity. Qed.

Lemma table_empty_eq e s s' :
  table_eq e s s' -> table_empty e s -> table_empty e s'.
Proof. destruct e; simpl; congruence. Qed.

Lemma loaded_within_table_eq c j e raw s s' :
  table_eq e s s' ->
  loaded_within to_datetime c j e raw s ->
  loaded_within to_datetime c j e raw s'.
Proof. destruct e; simpl; intros ->; auto. Qed.

Lemma loaded_within_more c j j' e raw s :
  (j <= j')%nat ->
  loaded_within to_datetime c j e raw s ->
  loaded_within to_datetime c j' e raw s.
Proof.
  intros L. destruct e; simpl; intros (n & Hn & E); exists n; split;
    solve [lia | exact E].
Qed.

(** What was loaded by a clock that started [i] readings later. *)
Lemma loaded_within_later c c' i j e raw s :
  (forall n, c' n = c (i + n)%nat) ->
  loaded_within to_datetime c' j e raw s ->
  loaded_within to_datetime c (i + j) e raw s.
Proof.
  intros C. destruct e; simpl; intros (n & Hn & E); exists (i + n)%nat;
    (split; [lia|]); rewrite E, ?C; try reflexivity.
  now rewrite Nat.add_succ_r.
Qed.

Lemma loaded_within_from c j e raw s :
  loaded_within to_datetime c j e raw s -> loaded_from to_datetime e raw s.
Proof. destruct e; simpl; intros (n & _ & E); eauto. Qed.

Lemma fault_effect_after raw e s1 s2 s3 :
  table_eq e s2 s3 ->
  fault_effect faults cleanings raw e s1 s2 ->
  fault_effect faults cleanings raw e s1 s3.
Proof.
  intros E (A & B & C & D). split; [|split; [|split]]; intros.
  - apply (table_eq_trans _ _ s2); auto.
  - apply (table_eq_trans _ _ s2); auto.
  - apply (table_eq_trans _ _ s2); auto.
  - apply (table_empty_eq _ s2); auto.
Qed.

Lemma fault_effect_before raw e s1 s2 s3 :
  table_eq e s1 s2 ->
  fault_effect faults cleanings raw e s2 s3 ->
  fault_effect faults cleanings raw e s1 s3.
Proof.
  intros E (A & B & C & D). split; [|split; [|split]]; intros; auto;
    apply (table_eq_trans _ _ s2); auto.
Qed.

(** A sequence of isolated pipelines runs to its end: every stage
    prints its heading and its outcome, and a table written by one stage
    is not touched by the later ones. *)
Lemma stages_run l k :
  Forall (fun ef => isolated faults cleanings to_datetime (fst ef) (snd ef))
         l ->
  NoDup (map fst l) ->
  forall w, exists j w',
    stages l k w = k w'
    /\ raw_zone w' = raw_zone w
    /\ console w'
       = console w
           ++ flat_map (fun e => [heading e;
                                  outcome_line faults cleanings (raw_zone w) e])
                       (map fst l)
    /\ (j <= list_sum (map readings (map fst l)))%nat
    /\ (forall n, clock w' n = clock w (j + n)%nat)
    /\ (forall e, ~ In e (map fst l) ->
                  table_eq e (cleansed_zone w) (cleansed_zone w'))
    /\ (forall e, In e (map fst l) ->
                  first_fault faults cleanings (raw_zone w) e = None ->
                  loaded_within to_datetime (clock w) j e (raw_zone w)
                                (cleansed_zone w'))
    /\ (forall e, In e (map fst l) ->
                  fault_effect faults cleanings (raw_zone w) e
                               (cleansed_zone w) (cleansed_zone w')).
Proof.
  induction l as [|[e f] l IH]; simpl; intros F N w.
  - exists 0%nat, w. rewrite app_nil_r.
    split; [reflexivity|]. split; [reflexivity|]. split; [reflexivity|].
    split; [lia|]. split; [reflexivity|].
    split; [intros; apply table_eq_refl|]. split; intros e' [].
  - inversion F as [|? ? Hf F']; subst. inversion N as [|? ? He N']; subst.
    simpl in Hf.
    destruct (Hf (mkworld (raw_zone w) (cleansed_zone w)
                          (console w ++ [heading e]) (clock w)))
      as (j1 & w1 & R1 & Raw1 & Con1 & J1 & Clk1 & Same1 & Load1 & Eff1).
    cbn [raw_zone console cleansed_zone clock] in *.
    destruct (IH F' N' w1)
      as (j2 & w2 & R2 & Raw2 & Con2 & J2 & Clk2 & Same2 & Load2 & Eff2).
    rewrite Raw1 in *.
    exists (j1 + j2)%nat, w2.
    split; [|split; [|split; [|split; [|split; [|split; [|split]]]]]].
    + unfold bind at 1. unfold print at 1. unfold bind at 1.
      rewrite R1. exact R2.
    + exact Raw2.
    + rewrite Con2, Con1. now rewrite <- !app_assoc.
    + lia.
    + intros n. rewrite Clk2, Clk1. f_equal. lia.
    + intros e' Hn. apply (table_eq_trans _ _ (cleansed_zone w1)).
      * apply Same1. intros ->. apply Hn. now left.
      * apply Same2. intros Hin. apply Hn. now right.
    + intros e' [<-|Hin] Hnf.
      * apply (loaded_within_table_eq _ _ _ _ (cleansed_zone w1)).
        -- now apply Same2.
        -- apply (loaded_within_more _ j1); [lia|]. now apply Load1.
      * apply (loaded_within_later _ (clock w1)); [exact Clk1|].
        now apply Load2.
    + intros e' [<-|Hin].
      * apply (fault_effect_after _ _ _ (cleansed_zone w1)); auto.
      * apply (fault_effect_before _ _ _ (cleansed_zone w1)); auto.
        apply Same1. intros ->. apply He. exact Hin.
Qed.

(** What a run of [main] does, whatever raises inside the pipelines. *)
Lemma main_outcome w :
  exists j w',
    main faults cleanings to_datetime w = (inr tt, w')
    /\ raw_zone w' = raw_zone w
    /\ console w' = console w ++ expected_console faults cleanings (raw_zone w)
    /\ (j <= 7)%nat
    /\ (forall n, clock w' n = clock w (j + n)%nat)
    /\ (forall e, first_fault faults cleanings (raw_zone w) e = None ->
                  loaded_within to_datetime (clock w) j e (raw_zone w)
                                (cleansed_zone w'))
    /\ (forall e, fault_effect faults cleanings (raw_zone w) e
                               (cleansed_zone w) (cleansed_zone w')).
Proof.
  pose (l := [(crm_customer_info,
               load_crm_customer_info faults cleanings to_datetime);
              (crm_product_info,
               load_crm_product_info faults cleanings to_datetime);
              (crm_sales_details, load_crm_sales_details faults cleanings);
              (erp_customer_az12,
               load_erp_customer_az12 faults cleanings to_datetime);
              (erp_location_a101, load_erp_location_a101 faults cleanings);
              (erp_product_category,
               load_erp_product_category faults cleanings)]).
  assert (F : Forall (fun ef => isolated faults cleanings to_datetime
                                         (fst ef) (snd ef)) l).
  { unfold l. repeat apply Forall_cons; try apply Forall_nil; cbn [fst snd];
      auto using load_crm_customer_info_isolated,
        load_crm_product_info_isolated, load_crm_sales_details_isolated,
        load_erp_customer_az12_isolated, load_erp_location_a101_isolated,
        load_erp_product_category_isolated. }
  assert (N : NoDup (map fst l)).
  { simpl. repeat constructor; simpl; intuition discriminate. }
  destruct (stages_run l
              (print "✅ Silver layer load completed successfully") F N
              (mkworld (raw_zone w) (cleansed_zone w)
                       (console w ++ ["🚀 Starting Silver layer load"])
                       (clock w)))
    as (j & w1 & R & Raw & Con & J & Clk & _ & Load & Eff).
  cbn [raw_zone console cleansed_zone clock] in *.
  exists j,
    (mkworld (raw_zone w1) (cleansed_zone w1)
             (console w1 ++ ["✅ Silver layer load completed successfully"])
             (clock w1)).
  split; [|split; [|split; [|split; [|split; [|split]]]]].
  - unfold main, try_except.
    change (stages l (print "✅ Silver layer load completed successfully")
              (mkworld (raw_zone w) (cleansed_zone w)
                 (console w ++ ["🚀 Starting Silver layer load"])
                 (clock w)))
      with ((print "🚀 Starting Silver layer load" ;;
             stages l (print "✅ Silver layer load completed successfully"))%pipeline
              w) in R.
    change (stages l (print "✅ Silver layer load completed successfully"))
      with (print "➡ Loading CRM customer info" ;;
       load_crm_customer_info faults cleanings to_datetime ;;
       print "➡ Loading CRM product info" ;;
       load_crm_product_info faults cleanings to_datetime ;;
       print "➡ Loading CRM sales details" ;;
       load_crm_sales_details faults cleanings ;;
       print "➡ Loading ERP customer AZ12" ;;
       load_erp_customer_az12 faults cleanings to_datetime ;;
       print "➡ Loading ERP location A101" ;;
       load_erp_location_a101 faults cleanings ;;
       print "➡ Loading ERP product category" ;;
       load_erp_product_category faults cleanings ;;
       print "✅ Silver layer load completed successfully")%pipeline in R.
    rewrite R. reflexivity.
  - exact Raw.
  - cbn [console]. rewrite Con. unfold expected_console.
    now rewrite <- !app_assoc.
  - exact J.
  - exact Clk.
  - intros e He. cbn [cleansed_zone]. apply Load; [|exact He].
    destruct e; simpl; tauto.
  - intros e. cbn [cleansed_zone]. apply Eff. destruct e; simpl; tauto.
Qed.

(** C8: whatever statement raises, a call to the store or a statement
    of the cleaning, and in whichever entity pipelines, [main] returns
    normally: the exception is caught inside the pipeline that raised it
    and logged there, every one of the six pipelines is started and logs
    its outcome, the run is reported as completed, and every entity none
    of whose statements raised has its cleaned frame in the cleansed
    zone. *)
Theorem entity_failures_are_isolated w :
  exists w',
    main faults cleanings to_datetime w = (inr tt, w')
    /\ raw_zone w' = raw_zone w
    /\ console w' = console w ++ expected_console faults cleanings (raw_zone w)
    /\ (forall e, first_fault faults cleanings (raw_zone w) e = None ->
                  loaded_from to_datetime e (raw_zone w) (cleansed_zone w')).
Proof.
  destruct (main_outcome w) as (j & w' & R & Raw & Con & _ & _ & Load & _).
  exists w'. split; [exact R|]. split; [exact Raw|]. split; [exact Con|].
  intros e He. apply (loaded_within_from (clock w) j). now apply Load.
Qed.

End PipelineFacts.

Lemma entity_failures_are_isolated_witness :
  Pipeline.loaded_from Sample.to_datetime Pipeline.erp_customer_az12
    Cases.raw0
    (Pipeline.cleansed_zone
       (snd (Pipeline.main Cases.some_faults Sample.cleanings
                           Sample.to_datetime Cases.world0)))
  /\ exists w',
       Pipeline.main Pipeline.no_faults Sample.cleanings Sample.to_datetime
                     Cases.world1
       = (inr tt, w')
       /\ Pipeline.console w'
          = Pipeline.expected_console Pipeline.no_faults Sample.cleanings
                                      Cases.raw1
       /\ Pipeline.loaded_from Sample.to_datetime Pipeline.erp_location_a101
            Cases.raw1 (Pipeline.cleansed_zone w').
Proof.
  split.
  - destruct (entity_failures_are_isolated Cases.some_faults
                Sample.cleanings Sample.to_datetime Cases.world0)
      as (w' & R & _ & _ & H).
    rewrite R. apply H. reflexivity.
  - destruct (entity_failures_are_isolated Pipeline.no_faults
                Sample.cleanings Sample.to_datetime Cases.world1)
      as (w' & R & _ & C & H).
    exists w'. split; [exact R|]. split; [exact C|]. apply H. reflexivity.
Defined.

(** On a frame with rows and no birth date that parses, the sample
    cleaning raises and the pipeline prints the failure. *)
Lemma undated_demographics_fail :
  Pipeline.outcome_line Pipeline.no_faults Sample.cleanings Cases.raw1
                        Pipeline.erp_customer_az12
  = "❌ Failed loading Invalid comparison between dtype=datetime64[ns] and date".
Proof. reflexivity. Qed.

(** ** Running the pipeline again *)

Section RerunFacts.
Import Series Calendar Pipeline.
Variable cleanings : cleaning.
Variable to_datetime : cell -> option timestamp.

Lemma body_stamp {A} now (df : list A) : map body (stamp now df) = df.
Proof.
  unfold stamp. rewrite map_map. simpl. apply map_id.
Qed.

Lemma bind_run {A B} (c : M A) (k : A -> M B) w a w' :
  c w = (inr a, w') -> bind c k w = k a w'.
Proof. unfold bind. now intros ->. Qed.

Lemma print_run line w :
  print line w
  = (inr tt,
     mkworld (raw_zone w) (cleansed_zone w) (console w ++ [line]) (clock w)).
Proof. reflexivity. Qed.

Ltac clean_run :=
  intros H;
  unfold try_except, bind, read_sql, may_raise, truncate, to_sql, storage,
    write, now, loaded, failed, print, no_faults;
  cbv beta iota; cbn [cleaning_fault] in H; rewrite H; reflexivity.

Lemma load_crm_customer_info_ok w :
  cleaning_fault cleanings (raw_zone w) crm_customer_info = None ->
  load_crm_customer_info no_faults cleanings to_datetime w
  = (inr tt,
     mkworld (raw_zone w)
             (set_customer_info
                (Customer.transform to_datetime (clock w O)
                                    (b_customer_info (raw_zone w)))
                (cleansed_zone w))
             (console w ++ ["✅ Loaded silver.crm_customer_info"])
             (fun n => clock w (S n))).
Proof. unfold load_crm_customer_info. clean_run. Qed.

Lemma load_crm_product_info_ok w :
  cleaning_fault cleanings (raw_zone w) crm_product_info = None ->
  load_crm_product_info no_faults cleanings to_datetime w
  = (inr tt,
     mkworld (raw_zone w)
             (set_product_info
                (Product.transform to_datetime (clock w O)
                                   (b_product_info (raw_zone w)))
                (cleansed_zone w))
             (console w ++ ["✅ Loaded silver.crm_product_info"])
             (fun n => clock w (S n))).
Proof. unfold load_crm_product_info. clean_run. Qed.

Lemma load_crm_sales_details_ok w :
  cleaning_fault cleanings (raw_zone w) crm_sales_details = None ->
  load_crm_sales_details no_faults cleanings w
  = (inr tt,
     mkworld (raw_zone w)
             (set_sales_details
                (Sales.transform (clock w O) (b_sales_details (raw_zone w)))
                (cleansed_zone w))
             (console w ++ ["✅ Loaded silver.crm_sales_details"])
             (fun n => clock w (S n))).
Proof. unfold load_crm_sales_details. clean_run. Qed.

Lemma load_erp_customer_az12_ok w :
  cleaning_fault cleanings (raw_zone w) erp_customer_az12 = None ->
  load_erp_customer_az12 no_faults cleanings to_datetime w
  = (inr tt,
     mkworld (raw_zone w)
             (set_customer_az12
                (Az12.transform to_datetime (clock w O) (clock w 1%nat)
                                (b_customer_az12 (raw_zone w)))
                (cleansed_zone w))
             (console w ++ ["✅ Loaded silver.erp_customer_az12"])
             (fun n => clock w (S (S n)))).
Proof.
  unfold load_erp_customer_az12. cbn [cleaning_fault].
  destruct (customer_az12_raises_before_today cleanings
              (b_customer_az12 (raw_zone w))) as [m|] eqn:E1;
    [discriminate|].
  intros E2.
  unfold try_except, bind, read_sql, may_raise, truncate, to_sql, storage,
    write, now, loaded, failed, print, no_faults.
  cbv beta iota. rewrite E1. cbv beta iota. cbn [raw_zone].
  rewrite E2. reflexivity.
Qed.

Lemma load_erp_location_a101_ok w :
  cleaning_fault cleanings (raw_zone w) erp_location_a101 = None ->
  load_erp_location_a101 no_faults cleanings w
  = (inr tt,
     mkworld (raw_zone w)
             (set_location_a101
                (Location.transform (clock w O) (b_location_a101 (raw_zone w)))
                (cleansed_zone w))
             (console w ++ ["✅ Loaded silver.erp_location_a101"])
             (fun n => clock w (S n))).
Proof. unfold load_erp_location_a101. clean_run. Qed.

Lemma load_erp_product_category_ok w :
  cleaning_fault cleanings (raw_zone w) erp_product_category = None ->
  load_erp_product_category no_faults cleanings w
  = (inr tt,
     mkworld (raw_zone w)
             (set_product_category
                (Category.transform (clock w O)
                                    (b_product_category (raw_zone w)))
                (cleansed_zone w))
             (console w ++ ["✅ Loaded silver.erp_product_category"])
             (fun n => clock w (S n))).
Proof. unfold load_erp_product_category. clean_run. Qed.

Ltac run_step lem :=
  erewrite bind_run; [|apply lem];
  cbn [raw_zone cleansed_zone console clock].

(** When nothing raises, neither a call to the store nor a cleaning,
    the cleansed zone after a run is the six cleaned frames, stamped
    with the readings of the clock in the order of the calls. *)
Lemma main_without_faults w :
  (forall e, cleaning_fault cleanings (raw_zone w) e = None) ->
  exists w',
    main no_faults cleanings to_datetime w = (inr tt, w')
    /\ raw_zone w' = raw_zone w
    /\ (forall n, clock w' n = clock w (7 + n)%nat)
    /\ cleansed_zone w'
       = mksilver
           (Customer.transform to_datetime (clock w 0%nat)
                               (b_customer_info (raw_zone w)))
           (Product.transform to_datetime (clock w 1%nat)
                              (b_product_info (raw_zone w)))
           (Sales.transform (clock w 2%nat) (b_sales_details (raw_zone w)))
           (Az12.transform to_datetime (clock w 3%nat) (clock w 4%nat)
                           (b_customer_az12 (raw_zone w)))
           (Location.transform (clock w 5%nat) (b_location_a101 (raw_zone w)))
           (Category.transform (clock w 6%nat)
                               (b_product_category (raw_zone w))).
Proof.
  intros H. eexists. split.
  - unfold main, try_except.
    run_step print_run. run_step print_run.
    erewrite bind_run; [|apply load_crm_customer_info_ok; apply H].
    cbn [raw_zone cleansed_zone console clock]. run_step print_run.
    erewrite bind_run; [|apply load_crm_product_info_ok; apply H].
    cbn [raw_zone cleansed_zone console clock]. run_step print_run.
    erewrite bind_run; [|apply load_crm_sales_details_ok; apply H].
    cbn [raw_zone cleansed_zone console clock]. run_step print_run.
    erewrite bind_run; [|apply load_erp_customer_az12_ok; apply H].
    cbn [raw_zone cleansed_zone console clock]. run_step print_run.
    erewrite bind_run; [|apply load_erp_location_a101_ok; apply H].
    cbn [raw_zone cleansed_zone console clock]. run_step print_run.
    erewrite bind_run; [|apply load_erp_product_category_ok; apply H].
    cbn [raw_zone cleansed_zone console clock].
    rewrite print_run. cbn [raw_zone cleansed_zone console clock].
    reflexivity.
  - cbn [raw_zone cleansed_zone console clock]. repeat split.
Qed.

Lemma first_fault_no_faults raw e :
  first_fault no_faults cleanings raw e = cleaning_fault cleanings raw e.
Proof.
  unfold first_fault, no_faults.
  now destruct (cleaning_fault cleanings raw e).
Qed.

(** The load timestamp reaches no other column; of the clock, only the
    processing date of the customer demographics does. *)
Lemma loaded_within_holds c j d e raw s :
  (forall n, (n < j)%nat -> ts_date (c n) = d) ->
  loaded_within to_datetime c j e raw s ->
  holds_cleaned to_datetime d e raw s.
Proof.
  intros D. destruct e; simpl; intros (n & Hn & ->);
    try apply body_stamp.
  unfold Az12.transform. rewrite body_stamp, D; [reflexivity|lia].
Qed.

Lemma holds_cleaned_table_eq d e raw s s' :
  table_eq e s s' ->
  holds_cleaned to_datetime d e raw s -> holds_cleaned to_datetime d e raw s'.
Proof. destruct e; simpl; intros ->; auto. Qed.

(** Two cleansed zones whose tables are, one by one, either both the
    cleaned frame or the same table, have the same contents. *)
Lemma contents_eq d raw s1 s2 :
  (forall e, (holds_cleaned to_datetime d e raw s1
              /\ holds_cleaned to_datetime d e raw s2)
             \/ table_eq e s1 s2) ->
  contents s1 = contents s2.
Proof.
  intros H. unfold contents.
  assert (E1 : map body (s_customer_info s1) = map body (s_customer_info s2)).
  { destruct (H crm_customer_info) as [[A B]|E]; simpl in *; congruence. }
  assert (E2 : map body (s_product_info s1) = map body (s_product_info s2)).
  { destruct (H crm_product_info) as [[A B]|E]; simpl in *; congruence. }
  assert (E3 : map body (s_sales_details s1) = map body (s_sales_details s2)).
  { destruct (H crm_sales_details) as [[A B]|E]; simpl in *; congruence. }
  assert (E4 : map body (s_customer_az12 s1) = map body (s_customer_az12 s2)).
  { destruct (H erp_customer_az12) as [[A B]|E]; simpl in *; congruence. }
  assert (E5 : map body (s_location_a101 s1) = map body (s_location_a101 s2)).
  { destruct (H erp_location_a101) as [[A B]|E]; simpl in *; congruence. }
  assert (E6 : map body (s_product_category s1)
               = map body (s_product_category s2)).
  { destruct (H erp_product_category) as [[A B]|E]; simpl in *; congruence. }
  now rewrite E1, E2, E3, E4, E5, E6.
Qed.

(** C9, amended: the cleansed zone without its load timestamps is a
    function of the raw zone and of the processing date, the date of
    the reading of the clock that the customer demographic pipeline
    compares birth dates with.  Two runs in a row over the same raw
    zone, with a store that does not raise, leave the same cleansed
    zone, load timestamps apart, provided the readings of the clock
    that the two runs can take, fourteen at most, fall on one date [d]:
    after either run a table whose cleaning went through holds the
    cleaned frame for [d], and a table whose cleaning raised is what it
    was before the first run. *)
Theorem rerun_same_contents_same_day w w1 w2 d :
  main no_faults cleanings to_datetime w = (inr tt, w1) ->
  main no_faults cleanings to_datetime w1 = (inr tt, w2) ->
  (forall n, (n < 14)%nat -> ts_date (clock w n) = d) ->
  raw_zone w1 = raw_zone w
  /\ contents (cleansed_zone w1) = contents (cleansed_zone w2)
  /\ (forall e, cleaning_fault cleanings (raw_zone w) e = None ->
                holds_cleaned to_datetime d e (raw_zone w) (cleansed_zone w1)
                /\ holds_cleaned to_datetime d e (raw_zone w)
                                 (cleansed_zone w2))
  /\ (forall e, cleaning_fault cleanings (raw_zone w) e <> None ->
                table_eq e (cleansed_zone w) (cleansed_zone w1)
                /\ table_eq e (cleansed_zone w) (cleansed_zone w2)).
Proof.
  intros R1 R2 Hday.
  destruct (main_outcome no_faults cleanings to_datetime w)
    as (j1 & w1' & R1' & Raw1 & _ & J1 & Clk1 & Load1 & Eff1).
  rewrite R1 in R1'. injection R1' as <-.
  destruct (main_outcome no_faults cleanings to_datetime w1)
    as (j2 & w2' & R2' & Raw2 & _ & J2 & Clk2 & Load2 & Eff2).
  rewrite R2 in R2'. injection R2' as <-.
  rewrite Raw1 in *.
  assert (Ok : forall e, cleaning_fault cleanings (raw_zone w) e = None ->
                         holds_cleaned to_datetime d e (raw_zone w)
                                       (cleansed_zone w1)
                         /\ holds_cleaned to_datetime d e (raw_zone w)
                                          (cleansed_zone w2)).
  { intros e He. split.
    - apply (loaded_within_holds (clock w) j1).
      + intros n Hn. apply Hday. lia.
      + apply Load1. now rewrite first_fault_no_faults.
    - apply (loaded_within_holds (clock w1) j2).
      + intros n Hn. rewrite Clk1. apply Hday. lia.
      + apply Load2. now rewrite first_fault_no_faults. }
  assert (Ko : forall e, cleaning_fault cleanings (raw_zone w) e <> None ->
                         table_eq e (cleansed_zone w) (cleansed_zone w1)
                         /\ table_eq e (cleansed_zone w1) (cleansed_zone w2)).
  { intros e He. split.
    - destruct (Eff1 e) as (_ & B & _). now apply B.
    - destruct (Eff2 e) as (_ & B & _). now apply B. }
  split; [reflexivity|]. split; [|split].
  - apply (contents_eq d (raw_zone w)). intros e.
    destruct (cleaning_fault cleanings (raw_zone w) e) as [m|] eqn:E.
    + right. apply Ko. congruence.
    + left. now apply Ok.
  - exact Ok.
  - intros e He. destruct (Ko e He) as [A B]. split; [exact A|].
    now apply (table_eq_trans _ _ (cleansed_zone w1)).
Qed.

End RerunFacts.

(** C9, as stated, fails: the raw zone holds a customer born on
    2026-11-04; a first run on 2026-11-03 blanks that birth date as lying
    in the future, a second run on 2026-11-05 over the same raw zone keeps
    it, so the two cleansed zones differ in more than their load
    timestamps.  No statement raises in either run. *)
Lemma rerun_changes_birth_dates :
  let w1 := snd (Pipeline.main Pipeline.no_faults Sample.cleanings
                               Sample.to_datetime Cases.world0) in
  let w2 := snd (Pipeline.main Pipeline.no_faults Sample.cleanings
                               Sample.to_datetime w1) in
  Pipeline.raw_zone w1 = Pipeline.raw_zone Cases.world0
  /\ map Az12.bdate
         (map Series.body (Pipeline.s_customer_az12 (Pipeline.cleansed_zone w1)))
     = [Some (Calendar.mkdate 1990 4 12); Some (Calendar.mkdate 1985 10 30);
        None]
  /\ map Az12.bdate
         (map Series.body (Pipeline.s_customer_az12 (Pipeline.cleansed_zone w2)))
     = [Some (Calendar.mkdate 1990 4 12); Some (Calendar.mkdate 1985 10 30);
        Some (Calendar.mkdate 2026 11 4)]
  /\ Pipeline.contents (Pipeline.cleansed_zone w1)
     <> Pipeline.contents (Pipeline.cleansed_zone w2).
Proof.
  cbv zeta.
  assert (Q : forall e, Pipeline.cleaning_fault Sample.cleanings Cases.raw0 e
                        = None).
  { intros e. destruct e; reflexivity. }
  destruct (main_without_faults Sample.cleanings Sample.to_datetime
              Cases.world0 Q)
    as (w1 & R1 & Raw1 & Clk1 & S1).
  rewrite R1. cbn [snd].
  assert (Q1 : forall e, Pipeline.cleaning_fault Sample.cleanings
                                                 (Pipeline.raw_zone w1) e
                         = None).
  { rewrite Raw1. exact Q. }
  destruct (main_without_faults Sample.cleanings Sample.to_datetime w1 Q1)
    as (w2 & R2 & Raw2 & Clk2 & S2).
  rewrite R2. cbn [snd].
  assert (E1 : map Az12.bdate
                   (map Series.body
                        (Pipeline.s_customer_az12 (Pipeline.cleansed_zone w1)))
               = [Some (Calendar.mkdate 1990 4 12);
                  Some (Calendar.mkdate 1985 10 30); None]).
  { rewrite S1. cbn [Pipeline.s_customer_az12]. reflexivity. }
  assert (E2 : map Az12.bdate
                   (map Series.body
                        (Pipeline.s_customer_az12 (Pipeline.cleansed_zone w2)))
               = [Some (Calendar.mkdate 1990 4 12);
                  Some (Calendar.mkdate 1985 10 30);
                  Some (Calendar.mkdate 2026 11 4)]).
  { rewrite S2. cbn [Pipeline.s_customer_az12]. rewrite Raw1, !Clk1.
    reflexivity. }
  split; [exact Raw1|]. split; [exact E1|]. split; [exact E2|].
  intros H. unfold Pipeline.contents in H.
  assert (H' : map Series.body
                   (Pipeline.s_customer_az12 (Pipeline.cleansed_zone w1))
               = map Series.body
                   (Pipeline.s_customer_az12 (Pipeline.cleansed_zone w2)))
    by congruence.
  rewrite H' in E1. rewrite E1 in E2. discriminate.
Qed.

Lemma rerun_same_contents_same_day_witness :
  let w := Pipeline.mkworld Cases.raw1 Cases.empty_silver []
                            (Sample.frozen Cases.noon) in
  let w1 := snd (Pipeline.main Pipeline.no_faults Sample.cleanings
                               Sample.to_datetime w) in
  let w2 := snd (Pipeline.main Pipeline.no_faults Sample.cleanings
                               Sample.to_datetime w1) in
  Pipeline.contents (Pipeline.cleansed_zone w1)
  = Pipeline.contents (Pipeline.cleansed_zone w2).
Proof.
  cbv zeta.
  destruct (main_outcome Pipeline.no_faults Sample.cleanings
              Sample.to_datetime
              (Pipeline.mkworld Cases.raw1 Cases.empty_silver []
                                (Sample.frozen Cases.noon)))
    as (j1 & w1 & R1 & _).
  rewrite R1. cbn [snd].
  destruct (main_outcome Pipeline.no_faults Sample.cleanings
              Sample.to_datetime w1) as (j2 & w2 & R2 & _).
  rewrite R2. cbn [snd].
  destruct (rerun_same_contents_same_day Sample.cleanings Sample.to_datetime
              (Pipeline.mkworld Cases.raw1 Cases.empty_silver []
                                (Sample.frozen Cases.noon))
              w1 w2 (Calendar.ts_date Cases.noon) R1 R2
              (fun n _ => eq_refl)) as (_ & H & _).
  exact H.
Defined.

(** * Further properties *)

(** ** Sales reconciliation in closed form *)

Section ReconciledFacts.
Import Sales Calendar Series Reconciled.

Lemma fix_sales_eq {D} (r : row D) :
  fix_sales r
  = mkrow (sls_rest r) (sls_order_dt r) (sls_ship_dt r) (sls_due_dt r)
          (Some (calc_sales r)) (sls_quantity r) (sls_price r).
Proof.
  pose proof (fix_sales_value r) as H. unfold fix_sales in *.
  cbn [sls_sales] in H. now rewrite H.
Qed.

Lemma settled_price_nonneg {D} (r : row D) : (zero <= settled_price r)%Qc.
Proof.
  unfold settled_price.
  destruct (sls_price r) as [p|]; [|apply Qcle_refl].
  destruct (Qc_leb p zero) eqn:E.
  - destruct (replace0nan (sls_quantity r));
      [apply Qcabs_nonneg|apply Qcle_refl].
  - apply Qclt_le_weak, Qcnot_le_lt. intros H.
    apply Qc_leb_iff in H. congruence.
Qed.

Lemma replace0nan_some q v : replace0nan q = Some v -> q = Some v /\ v <> zero.
Proof.
  unfold replace0nan. destruct q as [x|]; [|discriminate].
  destruct (Qc_eq_bool x zero) eqn:E; [discriminate|].
  intros [= <-]. split; [reflexivity|].
  intros ->. unfold Qc_eq_bool in E.
  destruct (Qc_eq_dec zero zero); congruence.
Qed.

Lemma replace0nan_none q : replace0nan q = None -> fill0 q = zero.
Proof.
  unfold replace0nan. destruct q as [x|]; [|reflexivity].
  destruct (Qc_eq_bool x zero) eqn:E; [|discriminate].
  intros _. now apply Qc_eq_bool_iff in E.
Qed.

Lemma reconcile_settled {D} (r : row D) :
  reconcile r
  = mkrow (sls_rest r) (sls_order_dt r) (sls_ship_dt r) (sls_due_dt r)
          (Some (Qcmult (fill0 (sls_quantity r)) (settled_price r)))
          (sls_quantity r)
          (Some (settled_price r)).
Proof.
  unfold reconcile. rewrite fix_sales_eq.
  unfold fill_sales_price, fix_price, price_condition, calc_price, where_.
  cbn [sls_rest sls_order_dt sls_ship_dt sls_due_dt sls_sales sls_quantity
       sls_price].
  unfold calc_sales, settled_price.
  destruct (sls_price r) as [p|]; cbn [isna le0 fill0 orb fillna].
  - destruct (Qc_leb p zero) eqn:Hp; cbn [fillna].
    + destruct (replace0nan (sls_quantity r)) as [q|] eqn:Hq; cbn [div fillna].
      * apply replace0nan_some in Hq. destruct Hq as [Hq Hz].
        rewrite Hq. cbn [fill0].
        now rewrite Qcdiv_cancel by exact Hz.
      * apply replace0nan_none in Hq. rewrite Hq.
        now rewrite !Qcmult_0_l.
    + assert (Hpos : (zero <= p)%Qc).
      { apply Qclt_le_weak, Qcnot_le_lt. intros H.
        apply Qc_leb_iff in H. congruence. }
      now rewrite (Qcabs_pos p Hpos).
  - rewrite Qcabs_zero, Qcmult_0_r. change (Q2Qc 0) with zero.
    destruct (replace0nan (sls_quantity r)) as [q|]; cbn [div fillna].
    + now rewrite Qcdiv_zero.
    + reflexivity.
Qed.

Lemma as_int_of_Z z : Exact.as_int (of_Z z) = Some z.
Proof.
  unfold Exact.as_int, of_Z, Q2Qc. cbn [this].
  rewrite Qred_identity by (simpl; apply Z.gcd_1_r). reflexivity.
Qed.

Lemma as_int_inv v z : Exact.as_int v = Some z -> v = of_Z z.
Proof.
  unfold Exact.as_int. destruct v as [[n d] Hc]. cbn [this Qden Qnum].
  destruct (Pos.eqb d 1) eqn:E; [|discriminate].
  apply Pos.eqb_eq in E. subst d. intros [= ->].
  apply Qc_is_canon. unfold of_Z, Q2Qc. cbn [this].
  rewrite Qred_correct. reflexivity.
Qed.

Lemma of_Z_mult a b : Qcmult (of_Z a) (of_Z b) = of_Z (a * b).
Proof.
  apply Qc_is_canon. unfold Qcmult, of_Z, Q2Qc. cbn [this].
  rewrite !Qred_correct. unfold Qeq, Qmult, inject_Z. simpl. lia.
Qed.

Lemma of_Z_abs a : Qcabs (of_Z a) = of_Z (Z.abs a).
Proof.
  apply Qc_is_canon. unfold Qcabs, of_Z, Q2Qc. cbn [this].
  rewrite !Qred_correct. reflexivity.
Qed.

Lemma small_int_inv x :
  Exact.small_int x = true ->
  x = None \/ exists z, x = Some (of_Z z) /\ Z.abs z < Exact.limit.
Proof.
  destruct x as [v|]; [|now left]. cbn [Exact.small_int].
  destruct (Exact.as_int v) as [z|] eqn:E; [|discriminate].
  intros H. apply Z.ltb_lt in H. right. exists z.
  split; [|exact H]. f_equal. now apply as_int_inv.
Qed.

Lemma small_int_of_Z z :
  Z.abs z < Exact.limit -> Exact.small_int (Some (of_Z z)) = true.
Proof.
  intros H. cbn [Exact.small_int]. rewrite as_int_of_Z.
  now apply Z.ltb_lt.
Qed.

Lemma int_of_of_Z z : Exact.int_of (Some (of_Z z)) = z.
Proof. cbn [Exact.int_of]. now rewrite as_int_of_Z. Qed.

Lemma fill0_small x :
  Exact.small_int x = true -> fill0 x = of_Z (Exact.int_of x).
Proof.
  intros H. destruct (small_int_inv x H) as [->|(z & -> & _)].
  - reflexivity.
  - now rewrite int_of_of_Z.
Qed.

(** On an exact row the settled price is an integer no larger in
    magnitude than the raw price. *)
Lemma settled_price_small {D} (r : row D) :
  Exact.small_int (sls_price r) = true ->
  exists z, settled_price r = of_Z z
            /\ Z.abs z <= Z.abs (Exact.int_of (sls_price r)).
Proof.
  intros H. unfold settled_price.
  destruct (small_int_inv _ H) as [->|(z & -> & _)].
  - exists 0. split; [reflexivity|]. cbn. lia.
  - rewrite int_of_of_Z. destruct (Qc_leb (of_Z z) zero).
    + destruct (replace0nan (sls_quantity r)).
      * exists (Z.abs z). split; [apply of_Z_abs|lia].
      * exists 0. split; [reflexivity|lia].
    + exists z. split; [reflexivity|lia].
Qed.

(** The reconciliation of an exact row is an exact row. *)
Lemma reconcile_exact {D} (r : row D) :
  Exact.exact_row r = true -> Exact.exact_row (reconcile r) = true.
Proof.
  unfold Exact.exact_row. rewrite !andb_true_iff, Z.ltb_lt.
  intros [[[Hq Hp] Hs] Hb].
  destruct (settled_price_small r Hp) as (z & Ez & Hz).
  rewrite reconcile_settled. cbn [sls_quantity sls_price sls_sales].
  rewrite Ez, (fill0_small _ Hq), of_Z_mult, int_of_of_Z.
  assert (B : Z.abs (Exact.int_of (sls_quantity r) * z) < Exact.limit).
  { rewrite Z.abs_mul in *. nia. }
  assert (Bz : Z.abs z < Exact.limit).
  { destruct (small_int_inv _ Hp) as [E|(zp & E & Hzp)]; rewrite E in Hz.
    - cbn in Hz. unfold Exact.limit. lia.
    - rewrite int_of_of_Z in Hz. lia. }
  rewrite Z.ltb_lt. repeat split; auto using small_int_of_Z.
Qed.

(** What [reconcile] computes, without the detour through the raw
    amount, on a row on which the arithmetic of the script is exact
    (integers of magnitude below 2^53 with a product below 2^53): the
    price is the settled price, never negative, and the amount is the
    quantity (missing read as 0) times that price. *)
Theorem reconcile_closed_form {D} (r : row D) :
  Exact.exact_row r = true ->
  reconcile r
  = mkrow (sls_rest r) (sls_order_dt r) (sls_ship_dt r) (sls_due_dt r)
          (Some (Qcmult (fill0 (sls_quantity r)) (settled_price r)))
          (sls_quantity r)
          (Some (settled_price r))
  /\ (zero <= settled_price r)%Qc.
Proof.
  intros _. split; [apply reconcile_settled|apply settled_price_nonneg].
Qed.


Lemma settled_price_fixed {D} (r : row D) s :
  settled_price
    (mkrow (sls_rest r) (sls_order_dt r) (sls_ship_dt r) (sls_due_dt r)
           s (sls_quantity r) (Some (settled_price r)))
  = settled_price r.
Proof.
  pose proof (settled_price_nonneg r) as Hn.
  unfold settled_price at 1. cbn [sls_price sls_quantity].
  destruct (Qc_leb (settled_price r) zero) eqn:E; [|reflexivity].
  apply Qc_leb_iff in E.
  assert (Hz : settled_price r = zero) by (apply Qcle_antisym; assumption).
  rewrite Hz, Qcabs_zero.
  destruct (replace0nan (sls_quantity r)); reflexivity.
Qed.

(** Reconciling a reconciled row changes nothing, on a row on which
    the arithmetic of the script is exact; the reconciled row is such a
    row again. *)
Theorem reconcile_idempotent {D} (r : row D) :
  Exact.exact_row r = true ->
  Exact.exact_row (reconcile r) = true
  /\ reconcile (reconcile r) = reconcile r.
Proof.
  intros H. split; [now apply reconcile_exact|].
  pose proof (reconcile_settled r) as E. rewrite E at 1.
  pose proof (reconcile_settled
                (mkrow (sls_rest r) (sls_order_dt r) (sls_ship_dt r)
                       (sls_due_dt r)
                       (Some (Qcmult (fill0 (sls_quantity r))
                                     (settled_price r)))
                       (sls_quantity r) (Some (settled_price r))))
    as E'.
  rewrite E', E.
  cbn [sls_rest sls_order_dt sls_ship_dt sls_due_dt sls_quantity].
  now rewrite settled_price_fixed.
Qed.

End ReconciledFacts.

Lemma reconcile_closed_form_witness :
  Sales.reconcile Cases.sale_inconsistent
  = Sales.mkrow ["SO3"] (Series.CFloat 20230101) (Series.CStr "2023011")
                Series.CNaN
                (Some (Qcmult (Sales.of_Z 2)
                              (Reconciled.settled_price
                                 Cases.sale_inconsistent)))
                (Some (Sales.of_Z 2))
                (Some (Reconciled.settled_price Cases.sale_inconsistent)).
Proof.
  destruct (reconcile_closed_form Cases.sale_inconsistent eq_refl)
    as (H & _).
  exact H.
Defined.

Lemma reconcile_idempotent_witness :
  Sales.reconcile (Sales.reconcile Cases.sale_without_price)
  = Sales.reconcile Cases.sale_without_price.
Proof.
  destruct (reconcile_idempotent Cases.sale_without_price eq_refl)
    as (_ & H).
  exact H.
Defined.

(** ** Text functions: what they commute with and what they fix *)

Section TextFacts.
Import Text.

Lemma upper_char_idempotent c : upper_char (upper_char c) = upper_char c.
Proof. destruct c as [[] [] [] [] [] [] [] []]; reflexivity. Qed.

Lemma upper_char_lower_char c : upper_char (lower_char c) = upper_char c.
Proof. destruct c as [[] [] [] [] [] [] [] []]; reflexivity. Qed.

Lemma is_space_upper_char c : is_space (upper_char c) = is_space c.
Proof. destruct c as [[] [] [] [] [] [] [] []]; reflexivity. Qed.

Lemma is_space_lower_char c : is_space (lower_char c) = is_space c.
Proof. destruct c as [[] [] [] [] [] [] [] []]; reflexivity. Qed.

Lemma is_space_not_cased c :
  is_space c = true -> is_lower c || is_upper c = false.
Proof.
  destruct c as [[] [] [] [] [] [] [] []]; intros H; try reflexivity;
    vm_compute in H; discriminate H.
Qed.

Lemma upper_idempotent s : upper (upper s) = upper s.
Proof.
  induction s as [|c s IH]; simpl; [reflexivity|].
  now rewrite upper_char_idempotent, IH.
Qed.

Lemma lstrip_upper s : lstrip (upper s) = upper (lstrip s).
Proof.
  induction s as [|c s IH]; simpl; [reflexivity|].
  rewrite is_space_upper_char. destruct (is_space c); [exact IH|reflexivity].
Qed.

Lemma upper_empty s : upper s = "" -> s = "".
Proof. destruct s; simpl; [reflexivity|discriminate]. Qed.

Lemma rstrip_upper s : rstrip (upper s) = upper (rstrip s).
Proof.
  induction s as [|c s IH]; simpl; [reflexivity|].
  rewrite IH, is_space_upper_char.
  destruct (rstrip s) as [|c' r]; simpl; [|reflexivity].
  destruct (is_space c); reflexivity.
Qed.

Lemma strip_upper s : strip (upper s) = upper (strip s).
Proof. unfold strip. now rewrite lstrip_upper, rstrip_upper. Qed.

Lemma lstrip_idempotent s : lstrip (lstrip s) = lstrip s.
Proof.
  induction s as [|c s IH]; simpl; [reflexivity|].
  destruct (is_space c) eqn:E; [exact IH|]. simpl. now rewrite E.
Qed.

Lemma rstrip_cons c s :
  rstrip (String c s)
  = match rstrip s with
    | EmptyString => if is_space c then EmptyString else String c EmptyString
    | r => String c r
    end.
Proof. reflexivity. Qed.

Lemma rstrip_idempotent s : rstrip (rstrip s) = rstrip s.
Proof.
  induction s as [|c s IH]; simpl; [reflexivity|].
  destruct (rstrip s) as [|c' r] eqn:E.
  - destruct (is_space c) eqn:Ec; simpl; [reflexivity|]. now rewrite Ec.
  - rewrite rstrip_cons, IH. reflexivity.
Qed.

(** A text that does not begin with a space still does not once its end
    is stripped. *)
Lemma lstrip_rstrip s : lstrip s = s -> lstrip (rstrip s) = rstrip s.
Proof.
  destruct s as [|c s]; [reflexivity|]. simpl.
  destruct (is_space c) eqn:E.
  - intros H. exfalso.
    assert (L : forall t, (String.length (lstrip t) <= String.length t)%nat).
    { induction t as [|a t IHt]; simpl; [lia|].
      destruct (is_space a); simpl; lia. }
    pose proof (L s) as Hl. rewrite H in Hl. simpl in Hl. lia.
  - intros _. destruct (rstrip s); simpl; now rewrite E.
Qed.

Lemma strip_idempotent s : strip (strip s) = strip s.
Proof.
  unfold strip.
  rewrite (lstrip_rstrip (lstrip s) (lstrip_idempotent s)).
  apply rstrip_idempotent.
Qed.

Lemma upper_title_from b s : upper (title_from b s) = upper s.
Proof.
  revert b. induction s as [|c s IH]; intros b; simpl; [reflexivity|].
  rewrite IH. destruct b;
    now rewrite ?upper_char_lower_char, ?upper_char_idempotent.
Qed.

Lemma title_from_empty b s : title_from b s = "" -> s = "".
Proof. destruct s; simpl; [reflexivity|discriminate]. Qed.

Lemma lstrip_title s : lstrip (title s) = title (lstrip s).
Proof.
  unfold title. induction s as [|c s IH]; simpl; [reflexivity|].
  rewrite is_space_upper_char.
  destruct (is_space c) eqn:E; [|reflexivity].
  now rewrite (is_space_not_cased c E).
Qed.

Lemma rstrip_title_from b s :
  rstrip (title_from b s) = title_from b (rstrip s).
Proof.
  revert b. induction s as [|c s IH]; intros b; simpl; [reflexivity|].
  rewrite IH.
  assert (Es : is_space (if b then lower_char c else upper_char c)
               = is_space c)
    by (destruct b; [apply is_space_lower_char|apply is_space_upper_char]).
  destruct (rstrip s) as [|c' r]; simpl.
  - rewrite Es. destruct (is_space c); reflexivity.
  - reflexivity.
Qed.

Lemma strip_title s : strip (title s) = title (strip s).
Proof.
  unfold strip. rewrite lstrip_title. unfold title.
  apply rstrip_title_from.
Qed.

End TextFacts.

(** ** Cleaning a value that is already clean *)

Section RecleaningFacts.
Import Series.

Lemma lookup_in table k v : lookup table k = Some v -> In (k, v) table.
Proof.
  induction table as [|[k' v'] table IH]; simpl; [discriminate|].
  destruct (String.eqb k k') eqn:E.
  - apply String.eqb_eq in E. intros [= <-]. left. congruence.
  - intros H. right. now apply IH.
Qed.

(** A lookup table is stable when each of its labels is cleaned to
    itself.  With a stable table and a fold that is idempotent, a value
    that is present is cleaned once and for all. *)
Lemma normalize_present_idempotent fold table s :
  (forall t, fold (fold t) = fold t) ->
  Forall (fun kv => replace table (fold (snd kv)) = snd kv) table ->
  normalize fold table (normalize fold table (Some s))
  = normalize fold table (Some s).
Proof.
  intros Hf Ht. unfold normalize. simpl. f_equal.
  rewrite (replace_lookup table (fold s)).
  destruct (lookup table (fold s)) as [v|] eqn:E.
  - apply lookup_in in E. rewrite Forall_forall in Ht.
    exact (Ht _ E).
  - rewrite Hf, replace_lookup, E. reflexivity.
Qed.

Lemma customer_fold_idempotent t :
  Customer.fold (Customer.fold t) = Customer.fold t.
Proof.
  unfold Customer.fold.
  now rewrite strip_upper, strip_idempotent, !strip_upper, upper_idempotent.
Qed.

Lemma az12_fold_idempotent t : Az12.fold (Az12.fold t) = Az12.fold t.
Proof.
  unfold Az12.fold.
  now rewrite strip_upper, strip_idempotent, upper_idempotent.
Qed.

(** The gender, marital status and product line columns: a value that
    was present is cleaned once and for all, but a value that was missing
    is not, because the tables have no entry for "UNKNOWN": the label
    "Unknown" written for it comes out of a second cleaning as
    "UNKNOWN". *)
Theorem recleaning_changes_only_unknown (x : option string) :
  (Customer.clean_gndr (Customer.clean_gndr x) = Customer.clean_gndr x
   <-> x <> None)
  /\ (Customer.clean_marital_status (Customer.clean_marital_status x)
      = Customer.clean_marital_status x
      <-> x <> None)
  /\ (normalize Product.fold Product.line_table
                (normalize Product.fold Product.line_table x)
      = normalize Product.fold Product.line_table x
      <-> x <> None).
Proof.
  destruct x as [s|].
  - repeat split; try discriminate; intros _;
      apply normalize_present_idempotent;
      try exact customer_fold_idempotent;
      repeat constructor.
  - repeat split; intros H; try congruence; vm_compute in H; discriminate H.
Qed.

Lemma recleaning_changes_only_unknown_witness :
  Customer.clean_gndr (Customer.clean_gndr (Some " f "))
  = Customer.clean_gndr (Some " f ").
Proof.
  destruct (recleaning_changes_only_unknown (Some " f ")) as [[_ H] _].
  apply H. discriminate.
Defined.

(** The gender column of the customer demographics has an entry for
    "UNKNOWN", so there every value, missing or not, is cleaned once and
    for all. *)
Theorem az12_gender_idempotent (x : option string) :
  normalize Az12.fold Az12.gen_table (normalize Az12.fold Az12.gen_table x)
  = normalize Az12.fold Az12.gen_table x.
Proof.
  destruct x as [s|]; [|reflexivity].
  apply normalize_present_idempotent.
  - exact az12_fold_idempotent.
  - repeat constructor.
Qed.

(** A cleaned name is never the empty text, and cleaning it again
    leaves it as it is. *)
Theorem clean_name_settled (x : option string) :
  Customer.clean_name x <> Some ""
  /\ Customer.clean_name (Customer.clean_name x) = Customer.clean_name x.
Proof.
  destruct x as [s|]; simpl; [|split; [discriminate|reflexivity]].
  destruct (Text.strip s) as [|c t] eqn:E; simpl.
  - split; [discriminate|reflexivity].
  - split; [discriminate|].
    rewrite <- E, strip_idempotent, E. reflexivity.
Qed.

(** The country column: every value that is missing or ASCII text is
    cleaned once and for all. *)
Theorem clean_cntry_idempotent (x : option string) :
  (forall s, x = Some s -> Shape.is_ascii s = true) ->
  Location.clean_cntry (Location.clean_cntry x) = Location.clean_cntry x.
Proof.
  intros _. destruct x as [s|]; [|reflexivity].
  unfold Location.clean_cntry. cbn [option_map fillna]. f_equal.
  set (u := Text.upper (Text.strip s)).
  assert (Hu : Text.upper (Text.strip u) = u).
  { unfold u. now rewrite strip_upper, strip_idempotent, upper_idempotent. }
  rewrite (replace_lookup Location.cntry_table u).
  destruct (lookup Location.cntry_table u) as [v|] eqn:E.
  - apply lookup_in in E. simpl in E.
    repeat (destruct E as [E|E]; [injection E as _ <-; reflexivity|]).
    destruct E.
  - rewrite strip_title. unfold Text.title at 2.
    rewrite upper_title_from.
    assert (Hs : Text.strip u = u).
    { unfold u. now rewrite <- strip_upper, strip_idempotent. }
    rewrite Hs.
    assert (Huu : Text.upper u = u) by (unfold u; apply upper_idempotent).
    rewrite Huu, replace_lookup, E. reflexivity.
Qed.

End RecleaningFacts.

Lemma clean_cntry_idempotent_witness :
  Location.clean_cntry (Location.clean_cntry (Some " us "))
  = Location.clean_cntry (Some " us ").
Proof.
  apply (clean_cntry_idempotent (Some " us ")).
  intros s [= <-]. reflexivity.
Defined.

(** ** The fixed-width date parser: what it accepts *)

Section FixedWidthFacts.
Import Sales Calendar Series Encode.

Lemma append_empty s : (s ++ "")%string = s.
Proof. induction s as [|c s IH]; simpl; [reflexivity|now rewrite IH]. Qed.

Lemma before_uint u s :
  Text.before "." (NilEmpty.string_of_uint u ++ s)%string
  = (NilEmpty.string_of_uint u ++ Text.before "." s)%string.
Proof. induction u; simpl; try reflexivity; now rewrite IHu. Qed.

Lemma before_of_Z z s :
  Text.before "." (Text.of_Z z ++ s)%string
  = (Text.of_Z z ++ Text.before "." s)%string.
Proof.
  unfold Text.of_Z, NilZero.string_of_int, NilZero.string_of_uint.
  destruct (Z.to_int z) as [u|u]; destruct u; simpl; try reflexivity;
    now rewrite before_uint.
Qed.

(** A float of integral value and the integer of that value are read
    alike: the fractional part [.0] that [astype(str)] writes for the
    float is cut off. *)
Theorem clean_yyyymmdd_float_as_int (z : Z) :
  clean_yyyymmdd (CFloat z) = clean_yyyymmdd (CInt z).
Proof.
  unfold clean_yyyymmdd, clean_yyyymmdd_text, astype_str.
  rewrite before_of_Z. simpl (Text.before "." ".0"). rewrite append_empty.
  pose proof (before_of_Z z "") as H. rewrite append_empty in H.
  simpl (Text.before "." "") in H. rewrite append_empty in H.
  now rewrite H.
Qed.

Lemma digit_char_code n :
  N_of_ascii (digit_char n) = Z.to_N (48 + n mod 10).
Proof.
  unfold digit_char. apply N_ascii_embedding.
  pose proof (Z.mod_pos_bound n 10 ltac:(lia)). lia.
Qed.

Lemma digit_char_is_digit n : Text.is_digit (digit_char n) = true.
Proof.
  unfold Text.is_digit. rewrite digit_char_code.
  pose proof (Z.mod_pos_bound n 10 ltac:(lia)).
  apply andb_true_iff. split; apply N.leb_le; lia.
Qed.

Lemma digit_char_val n : digit_val (digit_char n) = n mod 10.
Proof.
  unfold digit_val. rewrite digit_char_code.
  pose proof (Z.mod_pos_bound n 10 ltac:(lia)). lia.
Qed.

Lemma digit_char_not_dot n : Ascii.eqb (digit_char n) "." = false.
Proof.
  apply Ascii.eqb_neq. intros H. apply (f_equal N_of_ascii) in H.
  rewrite digit_char_code in H.
  change (N_of_ascii ".") with 46%N in H.
  pose proof (Z.mod_pos_bound n 10 ltac:(lia)). lia.
Qed.

(** Round trip: a date of the calendar in the years 1678 to 2261, the
    years that lie wholly inside the range of a nanosecond timestamp,
    written as [%Y%m%d], with or without a trailing [.0], is read back as
    that date. *)
Theorem clean_yyyymmdd_reads_back (d : date) :
  valid_date d = true ->
  1678 <= year d <= 2261 ->
  clean_yyyymmdd_text (strftime_Ymd d) = Some (midnight d)
  /\ clean_yyyymmdd_text (strftime_Ymd d ++ ".0")%string = Some (midnight d).
Proof.
  intros Hv _.
  assert (Hb : forall s,
             Text.before "." (strftime_Ymd d ++ String "." s)%string
             = strftime_Ymd d).
  { intros s. unfold strftime_Ymd. simpl.
    rewrite !digit_char_not_dot. reflexivity. }
  assert (Hb0 : Text.before "." (strftime_Ymd d) = strftime_Ymd d).
  { unfold strftime_Ymd. simpl. rewrite !digit_char_not_dot. reflexivity. }
  assert (Hp : strptime_Ymd (strftime_Ymd d) = Some (midnight d)).
  { destruct d as [y m dd]. unfold strptime_Ymd, strftime_Ymd.
    cbn [year month day all_digits Text.take Text.drop number_of].
    rewrite !digit_char_is_digit. cbn [andb]. rewrite !digit_char_val.
    unfold valid_date in Hv. cbn [year month day] in Hv.
    rewrite !andb_true_iff, !Z.leb_le in Hv.
    destruct Hv as (((((Hy1 & Hy2) & Hm1) & Hm2) & Hd1) & Hd2).
    assert (Hd3 : dd <= 31).
    { unfold days_in_month in Hd2.
      destruct (m =? 2); [destruct (is_leap y)|destruct (_ || _)]; lia. }
    assert (Ey : (((0 * 10 + (y / 1000) mod 10) * 10 + (y / 100) mod 10) * 10
                  + (y / 10) mod 10) * 10 + y mod 10 = y)
      by (Z.to_euclidean_division_equations; lia).
    assert (Em : (0 * 10 + (m / 10) mod 10) * 10 + m mod 10 = m)
      by (Z.to_euclidean_division_equations; lia).
    assert (Ed : (0 * 10 + (dd / 10) mod 10) * 10 + dd mod 10 = dd)
      by (Z.to_euclidean_division_equations; lia).
    rewrite Ey, Em, Ed.
    assert (Hv' : valid_date (mkdate y m dd) = true).
    { unfold valid_date. cbn [year month day].
      rewrite !andb_true_iff, !Z.leb_le. lia. }
    now rewrite Hv'. }
  unfold clean_yyyymmdd_text, where_.
  rewrite Hb, Hb0. simpl (String.length _). simpl. auto.
Qed.

Lemma clean_yyyymmdd_reads_back_witness :
  clean_yyyymmdd_text (strftime_Ymd (mkdate 2024 2 29))
  = Some (midnight (mkdate 2024 2 29)).
Proof.
  apply (clean_yyyymmdd_reads_back (mkdate 2024 2 29)).
  - reflexivity.
  - cbn [year]. lia.
Defined.

End FixedWidthFacts.

(** ** Keeping the first row of every key *)

Section FirstRowFacts.
Import Series.
Context {A K : Type} (eqb : K -> K -> bool) (k : A -> option K).
Hypothesis eqb_eq : forall a b, eqb a b = true <-> a = b.

Lemma dropna_split (df : list A) r key m1 m2 :
  k r = Some key ->
  dropna k df = m1 ++ r :: m2 ->
  (forall y, In y m1 -> k y <> k r) ->
  exists l1 l2, df = l1 ++ r :: l2 /\ forall y, In y l1 -> k y <> Some key.
Proof.
  intros Ek. revert m1 m2.
  induction df as [|a df IH]; intros m1 m2 Hm Hf.
  - destruct m1; discriminate.
  - unfold dropna in Hm. simpl in Hm.
    destruct (k a) as [ka|] eqn:Ea; simpl in Hm.
    + destruct m1 as [|b m1]; simpl in Hm.
      * injection Hm as -> _. exists [], df. split; [reflexivity|].
        intros y [].
      * injection Hm as -> Hm.
        destruct (IH m1 m2 Hm) as (l1 & l2 & -> & Hl).
        { intros y Hy. apply Hf. now right. }
        exists (b :: l1), l2. split; [reflexivity|].
        intros y [E0|Hy]; [subst y|now apply Hl].
        rewrite <- Ek. apply Hf. now left.
    + destruct (IH m1 m2 Hm Hf) as (l1 & l2 & -> & Hl).
      exists (a :: l1), l2. split; [reflexivity|].
      intros y [<-|Hy]; [congruence|now apply Hl].
Qed.

(** After [dropna] and [drop_duplicates] on the same column, a row that
    is kept has a key and is the first row of the raw frame with that
    key. *)
Lemma kept_row_is_first df r :
  In r (drop_duplicates (option_eqb eqb) k (dropna k df)) ->
  exists key l1 l2,
    df = l1 ++ r :: l2
    /\ k r = Some key
    /\ forall y, In y l1 -> k y <> Some key.
Proof.
  intros Hr. unfold drop_duplicates in Hr.
  pose proof (drop_from_in _ _ (option_eqb_eq eqb eqb_eq) _ _ _ Hr)
    as [Hin _].
  apply dropna_in in Hin. destruct Hin as [Hin Hk].
  destruct (k r) as [key|] eqn:Ek; [|congruence].
  apply drop_from_first in Hr; [|apply option_eqb_eq, eqb_eq].
  destruct Hr as (m1 & m2 & Hm & Hfirst).
  rewrite Ek in Hfirst.
  destruct (dropna_split df r key m1 m2 Ek Hm) as (l1 & l2 & Hdf & Hl).
  { intros y Hy. rewrite Ek. now apply Hfirst. }
  exists key, l1, l2. auto.
Qed.

End FirstRowFacts.

(** ** Customer demographics and locations: keys and birth dates *)

Section DemographicFacts.
Import Series Calendar Shape.
Variable to_datetime : cell -> option timestamp.

Lemma date_ltb_false_leb a b : date_ltb a b = false -> date_leb b a = true.
Proof.
  intros H. apply date_leb_iff.
  unfold date_ltb in H.
  rewrite !orb_false_iff, !andb_false_iff, !orb_false_iff, !andb_false_iff,
    !Z.ltb_ge, !Z.eqb_neq in H.
  lia.
Qed.

(** No cleansed birth date lies after the processing date. *)
Theorem az12_no_future_birth_date now now' df x d :
  In x (Az12.transform to_datetime now now' df) ->
  Az12.bdate (body x) = Some d ->
  date_leb d (ts_date now) = true.
Proof.
  unfold Az12.transform, Az12.cleanse, stamp. rewrite !map_map.
  intros H. apply in_map_iff in H. destruct H as (r & <- & _).
  cbn [body Az12.clean_row Az12.bdate].
  destruct (option_map ts_date (to_datetime (Az12.bdate r))) as [b|];
    cbn [Az12.in_future]; [|discriminate].
  destruct (date_ltb (ts_date now) b) eqn:E; [discriminate|].
  intros [= <-]. now apply date_ltb_false_leb.
Qed.

Lemma clean_cid_restores s :
  s = Az12.clean_cid s \/ s = ("NAS" ++ Az12.clean_cid s)%string.
Proof.
  unfold Az12.clean_cid, where_, Text.startswith.
  destruct s as [|a [|b [|c s]]]; cbn -[Ascii.ascii_dec]; auto;
    repeat match goal with
           | |- context [Ascii.ascii_dec ?x ?y] =>
               destruct (Ascii.ascii_dec x y)
           end; subst; cbn -[Ascii.ascii_dec]; auto.
  destruct s; right; reflexivity.
Qed.

(** Every cleansed demographic record is the cleaning of the first raw
    record of some raw key, and its key is that raw key, with one
    leading [NAS] removed if it had one. *)
Theorem az12_rows_come_from_first_raw_row today df x :
  In x (Az12.cleanse to_datetime today df) ->
  exists k l1 r l2,
    df = l1 ++ r :: l2
    /\ Az12.cid r = Some k
    /\ (forall r', In r' l1 -> Az12.cid r' <> Some k)
    /\ x = Az12.clean_row to_datetime today r
    /\ Az12.cid x = Some (Az12.clean_cid k)
    /\ (k = Az12.clean_cid k \/ k = ("NAS" ++ Az12.clean_cid k)%string).
Proof.
  unfold Az12.cleanse. intros H. apply in_map_iff in H.
  destruct H as (r & <- & Hr).
  apply (kept_row_is_first String.eqb Az12.cid String.eqb_eq) in Hr.
  destruct Hr as (k & l1 & l2 & Hdf & Ek & Hl).
  exists k, l1, r, l2. repeat split; auto.
  - cbn. now rewrite Ek.
  - apply clean_cid_restores.
Qed.

Lemma remove_char_clean a s : has_char a (Text.remove_char a s) = false.
Proof.
  induction s as [|c s IH]; simpl; [reflexivity|].
  destruct (Ascii.eqb c a) eqn:E; [exact IH|]. simpl. now rewrite E, IH.
Qed.

(** Every cleansed location is the cleaning of the first raw record of
    some raw key; its key is that raw key without its hyphens, and its
    country is never missing. *)
Theorem location_rows_come_from_first_raw_row now df x :
  In x (Location.transform now df) ->
  exists k l1 r l2,
    df = l1 ++ r :: l2
    /\ Location.cid r = Some k
    /\ (forall r', In r' l1 -> Location.cid r' <> Some k)
    /\ body x = Location.clean_row r
    /\ Location.cid (body x) = Some (Text.remove_char "-" k)
    /\ has_char "-" (Text.remove_char "-" k) = false
    /\ Location.cntry (body x) <> None.
Proof.
  unfold Location.transform, stamp. rewrite map_map. intros H.
  apply in_map_iff in H. destruct H as (r & <- & Hr).
  apply (kept_row_is_first String.eqb Location.cid String.eqb_eq) in Hr.
  destruct Hr as (k & l1 & l2 & Hdf & Ek & Hl).
  exists k, l1, r, l2. cbn [body]. repeat split; auto.
  - cbn. now rewrite Ek.
  - apply remove_char_clean.
  - cbn. unfold Location.clean_cntry.
    destruct (Location.cntry r); discriminate.
Qed.

(** Duplicates are removed on the raw key, before the hyphens are taken
    out.  Of any frame, the rows kept have pairwise distinct raw keys and
    every raw key keeps a row; a second row with the raw key of an
    earlier one is dropped.  Two raw keys that differ only by hyphens
    both survive and come out with the same key. *)
Theorem location_keys_collide_after_cleaning now (df : list Location.row)
        (r1 r2 r3 : Location.row) k1 k2 :
  Location.cid r1 = Some k1 ->
  Location.cid r2 = Some k2 ->
  Location.cid r3 = Some k1 ->
  k1 <> k2 ->
  Text.remove_char "-" k1 = Text.remove_char "-" k2 ->
  (exists kept,
      map body (Location.transform now df) = map Location.clean_row kept
      /\ NoDup (map Location.cid kept)
      /\ (forall r, In r kept -> In r df /\ Location.cid r <> None)
      /\ (forall r, In r df -> Location.cid r <> None ->
                    exists r', In r' kept /\ Location.cid r' = Location.cid r))
  /\ map body (Location.transform now [r1; r3; r2])
     = [Location.clean_row r1; Location.clean_row r2]
  /\ map (fun x => Location.cid (body x)) (Location.transform now [r1; r2])
     = [Some (Text.remove_char "-" k1); Some (Text.remove_char "-" k1)].
Proof.
  intros H1 H2 H3 Hne He.
  assert (E : String.eqb k2 k1 = false).
  { apply String.eqb_neq. congruence. }
  assert (E' : String.eqb k1 k1 = true) by apply String.eqb_refl.
  split; [|split].
  - exists (drop_duplicates (option_eqb String.eqb) Location.cid
                            (dropna Location.cid df)).
    split.
    + unfold Location.transform. apply body_stamp.
    + apply (kept_rows String.eqb Location.cid String.eqb_eq).
  - unfold Location.transform, stamp, dropna, drop_duplicates.
    repeat (progress (simpl; rewrite ?H1, ?H2, ?H3, ?E, ?E')).
    reflexivity.
  - unfold Location.transform, stamp, dropna, drop_duplicates.
    repeat (progress (simpl; rewrite ?H1, ?H2, ?E)).
    now rewrite He.
Qed.

End DemographicFacts.

Lemma az12_no_future_birth_date_witness :
  Calendar.date_leb (Calendar.mkdate 1990 4 12) (Calendar.mkdate 2026 11 3)
  = true.
Proof.
  apply (az12_no_future_birth_date Sample.to_datetime Cases.noon Cases.noon
           [Cases.nas123; Cases.born_tomorrow]
           (Series.mkstamped
              (Az12.clean_row Sample.to_datetime
                              (Calendar.ts_date Cases.noon) Cases.nas123)
              Cases.noon)).
  - left. reflexivity.
  - reflexivity.
Defined.

Lemma az12_rows_come_from_first_raw_row_witness :
  exists k l1 r l2,
    [Cases.nas123; Cases.plain123] = l1 ++ r :: l2
    /\ Az12.cid r = Some k
    /\ (forall r', In r' l1 -> Az12.cid r' <> Some k)
    /\ Az12.clean_row Sample.to_datetime (Calendar.ts_date Cases.noon)
                      Cases.plain123
       = Az12.clean_row Sample.to_datetime (Calendar.ts_date Cases.noon) r
    /\ Az12.cid (Az12.clean_row Sample.to_datetime
                                (Calendar.ts_date Cases.noon) Cases.plain123)
       = Some (Az12.clean_cid k)
    /\ (k = Az12.clean_cid k \/ k = ("NAS" ++ Az12.clean_cid k)%string).
Proof.
  apply (az12_rows_come_from_first_raw_row Sample.to_datetime
           (Calendar.ts_date Cases.noon) [Cases.nas123; Cases.plain123]).
  right. left. reflexivity.
Defined.

Lemma location_rows_come_from_first_raw_row_witness :
  exists k l1 r l2,
    Cases.locations = l1 ++ r :: l2
    /\ Location.cid r = Some k
    /\ (forall r', In r' l1 -> Location.cid r' <> Some k)
    /\ Location.mkrow (Some "AW00011000") (Some "United States")
       = Location.clean_row r
    /\ Some "AW00011000" = Some (Text.remove_char "-" k)
    /\ Shape.has_char "-" (Text.remove_char "-" k) = false
    /\ Some "United States" <> None.
Proof.
  apply (location_rows_come_from_first_raw_row Cases.noon Cases.locations
           (Series.mkstamped
              (Location.mkrow (Some "AW00011000") (Some "United States"))
              Cases.noon)).
  left. reflexivity.
Defined.

Lemma location_keys_collide_after_cleaning_witness :
  map Series.body
      (Location.transform Cases.noon
         [Location.mkrow (Some "AW-00011000") (Some "US");
          Location.mkrow (Some "AW-00011000") (Some "FR");
          Location.mkrow (Some "AW00011000") (Some "DE")])
  = [Location.mkrow (Some "AW00011000") (Some "United States");
     Location.mkrow (Some "AW00011000") (Some "Germany")]
  /\ map (fun x => Location.cid (Series.body x))
         (Location.transform Cases.noon
            [Location.mkrow (Some "AW-00011000") (Some "US");
             Location.mkrow (Some "AW00011000") (Some "DE")])
     = [Some "AW00011000"; Some "AW00011000"].
Proof.
  assert (N : "AW-00011000" <> "AW00011000") by discriminate.
  destruct (location_keys_collide_after_cleaning Cases.noon []
              (Location.mkrow (Some "AW-00011000") (Some "US"))
              (Location.mkrow (Some "AW00011000") (Some "DE"))
              (Location.mkrow (Some "AW-00011000") (Some "FR"))
              "AW-00011000" "AW00011000" eq_refl eq_refl eq_refl N eq_refl)
    as (_ & A & B).
  split; [exact A|exact B].
Defined.

(** ** The product pipeline: columns, rows and the raw end date *)

Section ProductShapeFacts.
Import Series Calendar Product Shape ProductShape.
Variable to_datetime : cell -> option timestamp.

Lemma take_drop n s : (Text.take n s ++ Text.drop n s)%string = s.
Proof.
  revert s. induction n as [|n IH]; intros [|c s]; simpl; try reflexivity.
  now rewrite IH.
Qed.

Lemma take_length n s : (String.length (Text.take n s) <= n)%nat.
Proof.
  revert s. induction n as [|n IH]; intros [|c s]; simpl; try lia.
  specialize (IH s). lia.
Qed.

Lemma drop_drop n m s : Text.drop n (Text.drop m s) = Text.drop (m + n) s.
Proof.
  revert s. induction m as [|m IH]; intros s; simpl; [reflexivity|].
  destruct s as [|c s]; [destruct n; reflexivity|apply IH].
Qed.

Lemma replace_char_length a b s :
  String.length (Text.replace_char a b s) = String.length s.
Proof. induction s as [|c s IH]; simpl; [reflexivity|now rewrite IH]. Qed.

Lemma replace_char_clean a b s :
  a <> b -> has_char a (Text.replace_char a b s) = false.
Proof.
  intros Hab. induction s as [|c s IH]; simpl; [reflexivity|].
  rewrite IH. destruct (Ascii.eqb c a) eqn:E; simpl.
  - rewrite orb_false_r. apply Ascii.eqb_neq. congruence.
  - now rewrite E.
Qed.

(** Step 8 changes [prd_end_dt] and nothing else. *)
Lemma derive_end_dates_same {C} (l : list (row (option date) C)) :
  Forall2 same_but_end (derive_end_dates l) l.
Proof.
  induction l as [|r l IH]; simpl; constructor; [|exact IH].
  repeat split.
Qed.

Lemma scd_windows_origin df r' :
  In r' (scd_windows to_datetime df) ->
  exists r, In r df /\ prd_key r <> None
            /\ same_but_end r' (convert_dates to_datetime r).
Proof.
  unfold scd_windows. intros H.
  pose proof (derive_end_dates_same
                (sort_values order
                   (map (convert_dates to_datetime) (dropna prd_key df))))
    as F.
  assert (G : forall (l1 l2 : list (row (option date) unit)) a,
             Forall2 same_but_end l1 l2 -> In a l1 ->
             exists b, In b l2 /\ same_but_end a b).
  { clear. induction 1 as [|x y l1 l2 Hxy _ IH]; simpl; [tauto|].
    intros [<-|Ha]; [eauto|].
    destruct (IH Ha) as (b & Hb & Hab). eauto. }
  destruct (G _ _ _ F H) as (b & Hb & Hab).
  apply sort_values_in, in_map_iff in Hb. destruct Hb as (r & <- & Hr).
  apply dropna_in in Hr. exists r. tauto.
Qed.

(** Every cleansed product row comes from a raw row with a key.  Its
    [category_id] is the first five characters of the raw key with
    hyphens turned into underscores, so it holds no hyphen and at most
    five characters; its key is what follows the sixth character, so the
    sixth character is dropped whatever it is; its cost and its product
    line are never missing. *)
Theorem product_columns now df x :
  In x (transform to_datetime now df) ->
  exists r k,
    In r df
    /\ prd_key r = Some k
    /\ k = (Text.take 5 k ++ Text.take 1 (Text.drop 5 k) ++ Text.drop 6 k)%string
    /\ prd_key (body x) = Some (Text.drop 6 k)
    /\ category_id (body x)
       = Some (Text.replace_char "-" "_" (Text.take 5 k))
    /\ has_char "-" (Text.replace_char "-" "_" (Text.take 5 k)) = false
    /\ (String.length (Text.replace_char "-" "_" (Text.take 5 k)) <= 5)%nat
    /\ prd_cost (body x) <> None
    /\ prd_line (body x) <> None
    /\ prd_rest (body x) = prd_rest r.
Proof.
  unfold transform, stamp. rewrite !map_map. intros H.
  apply in_map_iff in H. destruct H as (r' & <- & Hr').
  apply scd_windows_origin in Hr'.
  destruct Hr' as (r & Hr & Hk & Hrest & Hkey & _ & Hcost & Hline & _).
  destruct (prd_key r) as [k|] eqn:Ek; [|congruence].
  cbn [convert_dates prd_key prd_rest prd_cost prd_line] in Hrest, Hkey,
    Hcost, Hline.
  rewrite Ek in Hkey.
  exists r, k. cbn [body].
  cbn [clean_cost_line split_key prd_key category_id prd_cost prd_line
       prd_rest].
  rewrite Hkey. cbn [option_map].
  repeat split; auto.
  - rewrite <- (take_drop 5 k) at 1. f_equal.
    rewrite <- (take_drop 1 (Text.drop 5 k)) at 1. f_equal.
    now rewrite drop_drop.
  - now apply replace_char_clean.
  - rewrite replace_char_length. apply take_length.
  - destruct (prd_cost r'); discriminate.
  - unfold normalize. destruct (prd_line r'); discriminate.
Qed.

(** No row with a key is dropped, and none is added: the cleansed frame
    holds the raw rows with a key, reordered. *)
Theorem product_keeps_every_keyed_row now df :
  Permutation (map (fun x => prd_rest (body x)) (transform to_datetime now df))
              (map prd_rest (dropna prd_key df))
  /\ List.length (transform to_datetime now df)
     = List.length (dropna prd_key df).
Proof.
  assert (P : Permutation
                (map (fun x => prd_rest (body x))
                     (transform to_datetime now df))
                (map prd_rest (dropna prd_key df))).
  { assert (E0 : map (fun x => prd_rest (body x))
                     (transform to_datetime now df)
                 = map prd_rest (scd_windows to_datetime df)).
    { unfold transform, stamp. rewrite !map_map. reflexivity. }
    rewrite E0. unfold scd_windows.
    set (l := sort_values order
                (map (convert_dates to_datetime) (dropna prd_key df))).
    assert (E : map prd_rest (derive_end_dates l) = map prd_rest l).
    { clearbody l. induction l as [|r l IH]; simpl; [reflexivity|].
      now rewrite IH. }
    rewrite E. unfold l.
    rewrite <- (sort_values_perm order).
    rewrite map_map. reflexivity. }
  split; [exact P|].
  apply Permutation_length in P. now rewrite !List.length_map in P.
Qed.

End ProductShapeFacts.

Lemma product_columns_witness :
  exists r k,
    In r Cases.product_twice
    /\ Product.prd_key r = Some k
    /\ k = (Text.take 5 k ++ Text.take 1 (Text.drop 5 k) ++ Text.drop 6 k)%string
    /\ Product.prd_key
         (Series.body
            (hd (Series.mkstamped
                   (Product.mkrow [] None None None None None None)
                   Cases.noon)
                (Product.transform Sample.to_datetime Cases.noon
                                   Cases.product_twice)))
       = Some (Text.drop 6 k)
    /\ Product.category_id
         (Series.body
            (hd (Series.mkstamped
                   (Product.mkrow [] None None None None None None)
                   Cases.noon)
                (Product.transform Sample.to_datetime Cases.noon
                                   Cases.product_twice)))
       = Some (Text.replace_char "-" "_" (Text.take 5 k))
    /\ Shape.has_char "-" (Text.replace_char "-" "_" (Text.take 5 k)) = false
    /\ (String.length (Text.replace_char "-" "_" (Text.take 5 k)) <= 5)%nat
    /\ Product.prd_cost
         (Series.body
            (hd (Series.mkstamped
                   (Product.mkrow [] None None None None None None)
                   Cases.noon)
                (Product.transform Sample.to_datetime Cases.noon
                                   Cases.product_twice)))
       <> None
    /\ Product.prd_line
         (Series.body
            (hd (Series.mkstamped
                   (Product.mkrow [] None None None None None None)
                   Cases.noon)
                (Product.transform Sample.to_datetime Cases.noon
                                   Cases.product_twice)))
       <> None
    /\ Product.prd_rest
         (Series.body
            (hd (Series.mkstamped
                   (Product.mkrow [] None None None None None None)
                   Cases.noon)
                (Product.transform Sample.to_datetime Cases.noon
                                   Cases.product_twice)))
       = Product.prd_rest r.
Proof.
  apply (product_columns Sample.to_datetime Cases.noon Cases.product_twice).
  left. reflexivity.
Defined.

(** ** The product pipeline: the raw end date and the derived window *)

Section ProductWindowFacts.
Import Series Calendar Product Shape ProductShape.
Variable to_datetime : cell -> option timestamp.

Lemma order_same_but_end {C} (a a' b b' : row (option date) C) :
  same_but_end a a' -> same_but_end b b' -> order a b = order a' b'.
Proof.
  intros (_ & Ka & _ & _ & _ & Sa) (_ & Kb & _ & _ & _ & Sb).
  unfold order, lex, by_key. now rewrite Ka, Kb, Sa, Sb.
Qed.

Lemma insert_same_but_end {C} (a b : row (option date) C) l1 l2 :
  same_but_end a b -> Forall2 same_but_end l1 l2 ->
  Forall2 same_but_end (insert order a l1) (insert order b l2).
Proof.
  intros Hab. induction 1 as [|x y l1 l2 Hxy F IH]; simpl.
  - constructor; [exact Hab|constructor].
  - rewrite (order_same_but_end a b x y Hab Hxy).
    destruct (order b y).
    + constructor; [exact Hab|]. constructor; assumption.
    + constructor; assumption.
Qed.

Lemma sort_same_but_end {C} (l1 l2 : list (row (option date) C)) :
  Forall2 same_but_end l1 l2 ->
  Forall2 same_but_end (sort_values order l1) (sort_values order l2).
Proof.
  induction 1; simpl; [constructor|]. now apply insert_same_but_end.
Qed.

Lemma next_in_group_same_but_end {C} key
      (l1 l2 : list (row (option date) C)) :
  Forall2 same_but_end l1 l2 ->
  next_in_group (option_eqb String.eqb) prd_key prd_start_dt key l1
  = next_in_group (option_eqb String.eqb) prd_key prd_start_dt key l2.
Proof.
  induction 1 as [|x y l1 l2 (_ & K & _ & _ & _ & S) F IH]; simpl;
    [reflexivity|].
  now rewrite K, S, IH.
Qed.

Lemma derive_same_but_end {C} (l1 l2 : list (row (option date) C)) :
  Forall2 same_but_end l1 l2 -> derive_end_dates l1 = derive_end_dates l2.
Proof.
  induction 1 as [|x y l1 l2 Hxy F IH]; simpl; [reflexivity|].
  rewrite IH. unfold derived_end.
  rewrite (next_in_group_same_but_end (prd_key x) l1 l2 F).
  destruct Hxy as (R & K & Ca & Co & Li & S).
  now rewrite R, K, Ca, Co, Li, S.
Qed.

(** The raw [prd_end_dt] has no influence on the cleansed frame: it is
    parsed, then overwritten by the derived end date. *)
Theorem product_ignores_raw_end_date now df :
  transform to_datetime now (map forget_end df) = transform to_datetime now df.
Proof.
  unfold transform, scd_windows. do 3 f_equal.
  apply derive_same_but_end, sort_same_but_end.
  induction df as [|r df IH]; simpl; [constructor|].
  unfold dropna in *. simpl.
  destruct (prd_key r); simpl; [|exact IH].
  constructor; [|exact IH]. repeat split.
Qed.

Lemma minus_one_day_before d :
  valid_date d = true -> date_ltb (minus_one_day d) d = true.
Proof.
  destruct d as [y m dd]. unfold valid_date, minus_one_day, date_ltb.
  cbn [year month day].
  rewrite !andb_true_iff, !Z.leb_le.
  intros (((((Hy1 & Hy2) & Hm1) & Hm2) & Hd1) & Hd2).
  destruct (1 <? dd) eqn:Ed; cbn [year month day].
  - apply Z.ltb_lt in Ed.
    rewrite !orb_true_iff, !andb_true_iff, !orb_true_iff, !andb_true_iff,
      !Z.ltb_lt, !Z.eqb_eq. lia.
  - destruct (1 <? m) eqn:Em; cbn [year month day];
      rewrite !orb_true_iff, !andb_true_iff, !orb_true_iff, !andb_true_iff,
        !Z.ltb_lt, !Z.eqb_eq.
    + apply Z.ltb_lt in Em. lia.
    + lia.
Qed.

Lemma days_in_month_bounds y m : 28 <= days_in_month y m <= 31.
Proof.
  unfold days_in_month.
  destruct (m =? 2); [destruct (is_leap y); lia|].
  destruct ((m =? 4) || (m =? 6) || (m =? 9) || (m =? 11)); lia.
Qed.

Lemma before_minus_one_day a b :
  valid_date a = true -> valid_date b = true ->
  date_ltb a b = true -> date_leb a (minus_one_day b) = true.
Proof.
  destruct a as [ya ma da], b as [yb mb db].
  unfold valid_date. cbn [year month day].
  rewrite !andb_true_iff, !Z.leb_le.
  intros (((((Ha1 & Ha2) & Ha3) & Ha4) & Ha5) & Ha6)
         (((((Hb1 & Hb2) & Hb3) & Hb4) & Hb5) & Hb6).
  unfold date_ltb. cbn [year month day].
  rewrite !orb_true_iff, !andb_true_iff, !orb_true_iff, !andb_true_iff,
    !Z.ltb_lt, !Z.eqb_eq.
  intros Hlt. apply date_leb_iff. unfold minus_one_day. cbn [year month day].
  pose proof (days_in_month_bounds ya ma) as Bd.
  destruct (1 <? db) eqn:Ed; cbn [year month day].
  - apply Z.ltb_lt in Ed. lia.
  - apply Z.ltb_ge in Ed.
    destruct (1 <? mb) eqn:Em; cbn [year month day].
    + apply Z.ltb_lt in Em.
      destruct (Z.eq_dec ya yb) as [->|Hy]; [|lia].
      destruct (Z.eq_dec ma (mb - 1)) as [->|Hm]; lia.
    + apply Z.ltb_ge in Em. lia.
Qed.

Lemma windowed_successor {C} (g : list (row (option date) C)) r e :
  windowed g -> In r g -> prd_end_dt r = Some e ->
  exists r' s', In r' g /\ prd_start_dt r' = Some s'
                /\ e = minus_one_day s'
                /\ asc date_leb (prd_start_dt r) (Some s') = true.
Proof.
  induction g as [|a g IH]; simpl; [tauto|].
  intros [Ha Hg] [<-|Hr] He.
  - destruct g as [|b g]; [congruence|]. destruct Ha as [Hend Hle].
    rewrite Hend in He.
    destruct (prd_start_dt b) as [s'|] eqn:Es; [|discriminate].
    injection He as <-. exists b, s'. simpl. auto.
  - destruct (IH Hg Hr He) as (r' & s' & Hin & Hs & He' & Hle).
    exists r', s'. auto.
Qed.

Hypothesis to_datetime_valid :
  forall c t, to_datetime c = Some t -> valid_date (ts_date t) = true.

Lemma scd_windows_start_valid df r s :
  In r (scd_windows to_datetime df) -> prd_start_dt r = Some s ->
  valid_date s = true.
Proof.
  intros Hr Hs. apply scd_windows_origin in Hr.
  destruct Hr as (r0 & _ & _ & _ & _ & _ & _ & _ & E).
  rewrite E in Hs. cbn in Hs.
  destruct (to_datetime (prd_start_dt r0)) as [t|] eqn:Et; [|discriminate].
  injection Hs as <-. exact (to_datetime_valid _ _ Et).
Qed.

(** The derived window of a version.  An end date is always the day
    before the start of a later or simultaneous version of the same raw
    key.  When that version starts strictly later the window is not
    empty (start <= end); when it starts the same day the window is
    inverted (end < start). *)
Theorem product_window_shape df r s e :
  In r (scd_windows to_datetime df) ->
  prd_start_dt r = Some s ->
  prd_end_dt r = Some e ->
  exists r' s',
    In r' (scd_windows to_datetime df)
    /\ prd_key r' = prd_key r
    /\ prd_start_dt r' = Some s'
    /\ e = minus_one_day s'
    /\ date_leb s s' = true
    /\ (date_ltb s s' = true -> date_leb s e = true)
    /\ (s' = s -> date_ltb e s = true).
Proof.
  intros Hr Hs He.
  pose proof (scd_windows_key to_datetime df r Hr) as Hk.
  destruct (prd_key r) as [key|] eqn:Ek; [|congruence].
  assert (W : windowed (lineage key (scd_windows to_datetime df))).
  { unfold scd_windows. apply windowed_derive.
    apply sort_values_sorted;
      [apply product_order_total|apply product_order_transitive]. }
  assert (Hl : In r (lineage key (scd_windows to_datetime df)))
    by (apply lineage_in; auto).
  destruct (windowed_successor _ r e W Hl He)
    as (r' & s' & Hin & Hs' & -> & Hle).
  apply lineage_in in Hin. destruct Hin as [Hin Hk'].
  rewrite Hs in Hle. cbn in Hle.
  pose proof (scd_windows_start_valid df r s Hr Hs) as Vs.
  pose proof (scd_windows_start_valid df r' s' Hin Hs') as Vs'.
  exists r', s'. repeat split; auto.
  - intros Hlt. now apply before_minus_one_day.
  - intros ->. now apply minus_one_day_before.
Qed.

End ProductWindowFacts.

Lemma sample_to_datetime_valid c t :
  Sample.to_datetime c = Some t ->
  Calendar.valid_date (Calendar.ts_date t) = true.
Proof.
  unfold Sample.to_datetime, Sample.parse_iso.
  destruct c; try discriminate.
  destruct (_ && _); [|discriminate].
  match goal with
  | |- context [Calendar.valid_date ?d] =>
      destruct (Calendar.valid_date d) eqn:E
  end; [|discriminate].
  intros [= <-]. exact E.
Qed.

Lemma product_window_shape_witness :
  exists r' s',
    In r' (Product.scd_windows Sample.to_datetime Cases.product_history)
    /\ Product.prd_key r' = Some "AA-BB"
    /\ Product.prd_start_dt r' = Some s'
    /\ Calendar.mkdate 2021 12 31 = Calendar.minus_one_day s'
    /\ Calendar.date_leb (Calendar.mkdate 2021 1 1) s' = true
    /\ (Calendar.date_ltb (Calendar.mkdate 2021 1 1) s' = true ->
        Calendar.date_leb (Calendar.mkdate 2021 1 1)
                          (Calendar.mkdate 2021 12 31) = true)
    /\ (s' = Calendar.mkdate 2021 1 1 ->
        Calendar.date_ltb (Calendar.mkdate 2021 12 31)
                          (Calendar.mkdate 2021 1 1) = true).
Proof.
  apply (product_window_shape Sample.to_datetime sample_to_datetime_valid
           Cases.product_history
           (Product.mkrow ["210"] (Some "AA-BB") tt None None
                          (Some (Calendar.mkdate 2021 1 1))
                          (Some (Calendar.mkdate 2021 12 31)))).
  - left. reflexivity.
  - reflexivity.
  - reflexivity.
Defined.

(** ** What a failure leaves behind *)

Section FaultFacts.
Import Series Calendar Pipeline Script.
Variable faults : io_op -> option exn.
Variable cleanings : cleaning.
Variable to_datetime : cell -> option timestamp.

(** What is left of a silver table when a statement of its pipeline
    raises: after a fetch, a cleaning or a truncate that raises the table
    is what it was before the run, nothing having been written; after an
    append that raises, the fetch, the cleaning and the truncate having
    gone through, the table is empty. *)
Theorem failed_load_leaves_table w w' e :
  main faults cleanings to_datetime w = (inr tt, w') ->
  (faults (Fetch e) <> None ->
   table_eq e (cleansed_zone w) (cleansed_zone w'))
  /\ (cleaning_fault cleanings (raw_zone w) e <> None ->
      table_eq e (cleansed_zone w) (cleansed_zone w'))
  /\ (faults (Truncate e) <> None ->
      table_eq e (cleansed_zone w) (cleansed_zone w'))
  /\ (faults (Fetch e) = None ->
      cleaning_fault cleanings (raw_zone w) e = None ->
      faults (Truncate e) = None -> faults (Append e) <> None ->
      table_empty e (cleansed_zone w')).
Proof.
  intros R.
  destruct (main_outcome faults cleanings to_datetime w)
    as (j & w1 & R1 & _ & _ & _ & _ & _ & Eff).
  rewrite R in R1. injection R1 as <-. exact (Eff e).
Qed.

End FaultFacts.

Lemma failed_load_leaves_table_witness :
  Pipeline.table_empty Pipeline.erp_location_a101
    (Pipeline.cleansed_zone
       (snd (Pipeline.main Cases.some_faults Sample.cleanings
                           Sample.to_datetime Script.stale_world)))
  /\ Pipeline.table_eq Pipeline.crm_sales_details
       (Pipeline.cleansed_zone Script.stale_world)
       (Pipeline.cleansed_zone
          (snd (Pipeline.main Cases.some_faults Sample.cleanings
                              Sample.to_datetime Script.stale_world)))
  /\ Pipeline.table_eq Pipeline.erp_customer_az12
       (Pipeline.cleansed_zone Script.undated_world)
       (Pipeline.cleansed_zone
          (snd (Pipeline.main Cases.append_fault Sample.cleanings
                              Sample.to_datetime Script.undated_world))).
Proof.
  split; [|split].
  - destruct (main_outcome Cases.some_faults Sample.cleanings
                Sample.to_datetime Script.stale_world) as (j & w' & R & _).
    rewrite R. cbn [snd].
    destruct (failed_load_leaves_table Cases.some_faults Sample.cleanings
                Sample.to_datetime Script.stale_world w'
                Pipeline.erp_location_a101 R)
      as (_ & _ & _ & H).
    apply H; try reflexivity. discriminate.
  - destruct (main_outcome Cases.some_faults Sample.cleanings
                Sample.to_datetime Script.stale_world) as (j & w' & R & _).
    rewrite R. cbn [snd].
    destruct (failed_load_leaves_table Cases.some_faults Sample.cleanings
                Sample.to_datetime Script.stale_world w'
                Pipeline.crm_sales_details R)
      as (H & _).
    apply H. discriminate.
  - destruct (main_outcome Cases.append_fault Sample.cleanings
                Sample.to_datetime Script.undated_world)
      as (j & w' & R & _).
    rewrite R. cbn [snd].
    destruct (failed_load_leaves_table Cases.append_fault Sample.cleanings
                Sample.to_datetime Script.undated_world w'
                Pipeline.erp_customer_az12 R)
      as (_ & H & _).
    apply H. discriminate.
Defined.

(** ** The script from its first line to its last *)

Section ScriptFacts.
Import Series Calendar Pipeline Script.
Variable faults0 faults : io_op -> option exn.
Variable cleanings : cleaning.
Variable to_datetime : cell -> option timestamp.

(** The start-up block never raises and touches neither zone: it prints
    that it connects, then either that all tables were loaded or the
    message of the first fetch that raised. *)
Lemma startup_run w :
  startup faults0 w
  = (inr tt,
     mkworld (raw_zone w) (cleansed_zone w)
             (console w ++ startup_console faults0) (clock w)).
Proof.
  unfold startup, startup_console, try_except, bind, read_sql, storage,
    print, all_entities, first_fetch_fault.
  cbn [raw_zone cleansed_zone console clock].
  destruct (faults0 (Fetch crm_customer_info));
    [|destruct (faults0 (Fetch crm_product_info));
      [|destruct (faults0 (Fetch crm_sales_details));
        [|destruct (faults0 (Fetch erp_customer_az12));
          [|destruct (faults0 (Fetch erp_location_a101));
            [|destruct (faults0 (Fetch erp_product_category))]]]]];
    cbn [raw_zone cleansed_zone console clock];
    rewrite <- app_assoc; reflexivity.
Qed.

(** Running the file never raises, whatever the store and the cleanings
    do.  A fetch that raises in the start-up block is printed as a
    failed connection and [main] runs all the same: all six pipelines
    are started, each prints its outcome, and every entity none of whose
    own statements raises, the three calls to the store and the
    cleaning, is loaded. *)
Theorem script_never_raises w :
  exists w',
    script faults0 faults cleanings to_datetime w = (inr tt, w')
    /\ raw_zone w' = raw_zone w
    /\ console w'
       = console w ++ startup_console faults0
                   ++ expected_console faults cleanings (raw_zone w)
    /\ (forall e, first_fault faults cleanings (raw_zone w) e = None ->
                  loaded_from to_datetime e (raw_zone w) (cleansed_zone w')).
Proof.
  destruct (main_outcome faults cleanings to_datetime
              (mkworld (raw_zone w) (cleansed_zone w)
                       (console w ++ startup_console faults0) (clock w)))
    as (j & w' & R & Raw & Con & _ & _ & Load & _).
  cbn [raw_zone cleansed_zone console clock] in *.
  exists w'. split; [|split; [|split]].
  - unfold script, bind. rewrite startup_run. exact R.
  - exact Raw.
  - rewrite Con. now rewrite <- app_assoc.
  - intros e He. apply (loaded_within_from to_datetime (clock w) j). now apply Load.
Qed.

End ScriptFacts.

Lemma script_never_raises_witness :
  exists w',
    Script.script (fun _ => Some "no connection") Cases.some_faults
                  Sample.cleanings Sample.to_datetime Cases.world0
    = (inr tt, w')
    /\ Pipeline.loaded_from Sample.to_datetime Pipeline.crm_customer_info
         Cases.raw0 (Pipeline.cleansed_zone w').
Proof.
  destruct (script_never_raises (fun _ => Some "no connection")
              Cases.some_faults Sample.cleanings Sample.to_datetime
              Cases.world0)
    as (w' & R & _ & _ & H).
  exists w'. split; [exact R|]. apply H. reflexivity.
Defined.

(** ** The order of the cleansed customer frame *)

Section CustomerOrderFacts.
Import Series Calendar Customer.
Variable to_datetime : cell -> option timestamp.

Lemma drop_from_sorted {A K} (eqb : K -> K -> bool) (k : A -> K)
      (R : A -> A -> Prop) seen l :
  StronglySorted R l -> StronglySorted R (drop_duplicates_from eqb k seen l).
Proof.
  intros S. revert seen. induction S as [|r l S IH F]; intros seen; simpl.
  - constructor.
  - destruct (existsb (eqb (k r)) seen); [apply IH|].
    constructor; [apply IH|].
    rewrite Forall_forall in *. intros y Hy. apply F.
    clear - Hy. revert Hy. generalize (k r :: seen). clear.
    induction l as [|a l IHl]; simpl; intros s H; [tauto|].
    destruct (existsb (eqb (k a)) s).
    + right. now apply (IHl s).
    + destruct H as [<-|H]; [now left|right; now apply (IHl (k a :: s))].
Qed.

Lemma sorted_map {A B} (f : A -> B) (R : A -> A -> Prop)
      (R' : B -> B -> Prop) l :
  (forall a b, In a l -> In b l -> R a b -> R' (f a) (f b)) ->
  StronglySorted R l -> StronglySorted R' (map f l).
Proof.
  intros H S. induction S as [|r l S IH F]; simpl; constructor.
  - apply IH. intros a b Ha Hb. apply H; now right.
  - rewrite Forall_forall in *. intros y Hy. apply in_map_iff in Hy.
    destruct Hy as (a & <- & Ha). apply H; [now left|now right|now apply F].
Qed.

Lemma sorted_distinct_keys {A K} (k : A -> K) (R : A -> A -> Prop) l :
  StronglySorted R l -> NoDup (map k l) ->
  forall l0, (forall x, In x l -> In x l0) ->
  StronglySorted (fun a b => R a b /\ k a <> k b /\ In a l0 /\ In b l0) l.
Proof.
  induction 1 as [|r l S IH F]; intros N l0 Hl0; constructor.
  - inversion N; subst. apply IH; [assumption|].
    intros x Hx. apply Hl0. now right.
  - inversion N as [|? ? Hr N']; subst.
    rewrite Forall_forall in *. intros y Hy. repeat split.
    + now apply F.
    + intros E. apply Hr. rewrite E. now apply in_map.
    + apply Hl0. now left.
    + apply Hl0. now right.
Qed.

(** The cleansed customer frame is in strictly increasing order of
    [cust_id]. *)
Theorem customers_in_key_order now df :
  StronglySorted
    (fun x y => exists a b, cust_id (body x) = Some a
                            /\ cust_id (body y) = Some b /\ a < b)
    (transform to_datetime now df).
Proof.
  unfold transform, stamp. rewrite map_map.
  pose proof (deduplicate_nodup to_datetime df) as N.
  assert (S : StronglySorted (fun a b => order a b = true)
                             (deduplicate to_datetime df)).
  { unfold deduplicate, drop_duplicates. apply drop_from_sorted.
    apply sort_values_sorted; [apply order_total|apply order_transitive]. }
  pose proof (sorted_distinct_keys cust_id _ _ S N
                (deduplicate to_datetime df) (fun x H => H)) as S'.
  revert S'. apply sorted_map.
  intros r1 r2 _ _ (Hord & Hne & H1 & H2). cbn [body].
  change (cust_id (clean_text r1)) with (cust_id r1).
  change (cust_id (clean_text r2)) with (cust_id r2).
  destruct (in_deduplicate to_datetime _ _ H1) as (q1 & _ & N1 & E1).
  destruct (in_deduplicate to_datetime _ _ H2) as (q2 & _ & N2 & E2).
  assert (K1 : cust_id r1 <> None) by now subst r1.
  assert (K2 : cust_id r2 <> None) by now subst r2.
  destruct (cust_id r1) as [a|] eqn:Ea; [|congruence].
  destruct (cust_id r2) as [b|] eqn:Eb; [|congruence].
  exists a, b. repeat split.
  unfold order, lex, by_key in Hord. rewrite Ea, Eb in Hord.
  cbn [asc] in Hord.
  destruct (Z.leb b a) eqn:Eba; cbn [negb] in Hord.
  - destruct (Z.leb a b) eqn:Eab; cbn [negb] in Hord; [|discriminate].
    apply Z.leb_le in Eba, Eab. exfalso. apply Hne. f_equal. lia.
  - apply Z.leb_gt in Eba. lia.
Qed.

End CustomerOrderFacts.

(** ** One day back *)

Lemma minus_one_day_valid d :
  Calendar.valid_date d = true ->
  d <> Calendar.mkdate 1 1 1 ->
  Calendar.valid_date (Calendar.minus_one_day d) = true.
Proof.
  destruct d as [y m dd].
  unfold Calendar.valid_date, Calendar.minus_one_day.
  cbn [Calendar.year Calendar.month Calendar.day].
  rewrite !andb_true_iff, !Z.leb_le.
  intros (((((Hy1 & Hy2) & Hm1) & Hm2) & Hd1) & Hd2) Hn.
  destruct (1 <? dd) eqn:Ed; cbn [Calendar.year Calendar.month Calendar.day].
  - apply Z.ltb_lt in Ed. rewrite ?andb_true_iff, ?Z.leb_le. lia.
  - apply Z.ltb_ge in Ed. assert (dd = 1) by lia. subst dd.
    destruct (1 <? m) eqn:Em;
      cbn [Calendar.year Calendar.month Calendar.day];
      rewrite ?andb_true_iff, ?Z.leb_le.
    + apply Z.ltb_lt in Em.
      pose proof (days_in_month_bounds y (m - 1)). lia.
    + apply Z.ltb_ge in Em. assert (m = 1) by lia. subst m.
      assert (y <> 1) by (intros ->; now apply Hn).
      change (Calendar.days_in_month (y - 1) 12) with 31. lia.
Qed.

(** [d - Timedelta(days=1)] of a date of the calendar other than its
    first day, 0001-01-01, is a date of the calendar: the one whose day
    number is one less, and it comes before [d]. *)
Theorem minus_one_day_is_previous_day (d : Calendar.date) :
  Calendar.valid_date d = true ->
  d <> Calendar.mkdate 1 1 1 ->
  Calendar.valid_date (Calendar.minus_one_day d) = true
  /\ Calendar.toordinal (Calendar.minus_one_day d) = Calendar.toordinal d - 1
  /\ Calendar.date_ltb (Calendar.minus_one_day d) d = true.
Proof.
  intros H Hn. split; [now apply minus_one_day_valid|]. split.
  - now apply minus_one_day_ordinal.
  - now apply minus_one_day_before.
Qed.

Lemma minus_one_day_is_previous_day_witness :
  Calendar.toordinal (Calendar.minus_one_day (Calendar.mkdate 2024 3 1))
  = Calendar.toordinal (Calendar.mkdate 2024 3 1) - 1.
Proof.
  destruct (minus_one_day_is_previous_day (Calendar.mkdate 2024 3 1))
    as (_ & H & _).
  - reflexivity.
  - discriminate.
  - exact H.
Defined.
